(** * start_services.py: the service bootstrap script, embedded and verified

    The script sequences two Docker Compose stacks (Supabase, then the local
    AI services) after some preparation of files on the host.  Every effect
    of the script goes through the operating system: processes it starts,
    files it reads and writes, the console it prints to.  The embedding keeps
    the text of each function of [start_services.py] as a computation in a
    state-and-exception monad over an explicit host.

    Python [str] values are [string]s (one [ascii] per code point, code
    points below 256); argument vectors are [list string]; the files of the
    host are a [gmap] from path to content. *)

From Stdlib Require Import ZArith Ascii String.
From stdpp Require Import base option list gmap strings pretty.

Local Open Scope Z_scope.

(** ** Python string operations used by the script *)

Module PyStr.

Definition LF : ascii := Ascii.ascii_of_nat 10.
Definition TAB : ascii := Ascii.ascii_of_nat 9.
Definition CR : ascii := Ascii.ascii_of_nat 13.
Definition BACKSLASH : ascii := Ascii.ascii_of_nat 92.
Definition QUOTE : ascii := Ascii.ascii_of_nat 39.
(** The double quote, as a one-character string. *)
Definition DQ : string := String (Ascii.ascii_of_nat 34) EmptyString.

(** [s.startswith(p)] *)
Fixpoint startswith (p s : string) : bool :=
  match p, s with
  | EmptyString, _ => true
  | String _ _, EmptyString => false
  | String a p', String b s' => Ascii.eqb a b && startswith p' s'
  end.

(** [needle in s]: [needle] occurs in [s] as a contiguous substring. *)
Fixpoint contains (needle s : string) : bool :=
  startswith needle s ||
  match s with
  | EmptyString => false
  | String _ s' => contains needle s'
  end.

(** [s.replace(old, new)]: the occurrences of [old] are found from left to
    right and do not overlap.  [skip] counts the characters of a matched
    occurrence that are still to be dropped. *)
Fixpoint replace_from (old new : string) (skip : nat) (s : string) : string :=
  match s with
  | EmptyString =>
      match old with EmptyString => new | _ => EmptyString end
  | String c s' =>
      match skip with
      | S k => replace_from old new k s'
      | O =>
          if startswith old s
          then new +:+
               match old with
               | EmptyString => String c (replace_from old new O s')
               | String _ old' => replace_from old new (String.length old') s'
               end
          else String c (replace_from old new O s')
      end
  end.

Definition replace (s old new : string) : string := replace_from old new O s.

(** [s[k:]] *)
Fixpoint slice_from (k : nat) (s : string) : string :=
match k, s with
| S k', String _ s' => slice_from k' s'
| _, _ => s
end.

(** [all(p(c) for c in s)] *)
Fixpoint all_chars (p : ascii -> bool) (s : string) : bool :=
match s with
| EmptyString => true
| String c s' => p c && all_chars p s'
end.

(** [s[-1]], when [s] is not empty. *)
Fixpoint last_char (s : string) : option ascii :=
match s with
| EmptyString => None
| String c EmptyString => Some c
| String _ s' => last_char s'
end.

(** [c.isspace()] for a code point below 256. *)
Definition isspace (c : ascii) : bool :=
  let n := Ascii.nat_of_ascii c in
  ((9 <=? n) && (n <=? 13) || (28 <=? n) && (n <=? 32)
   || (n =? 133) || (n =? 160))%nat.

Fixpoint lstrip (s : string) : string :=
  match s with
  | EmptyString => EmptyString
  | String c s' => if isspace c then lstrip s' else s
  end.

Fixpoint rstrip (s : string) : string :=
  match s with
  | EmptyString => EmptyString
  | String c s' =>
      match rstrip s' with
      | EmptyString => if isspace c then EmptyString else String c EmptyString
      | r => String c r
      end
  end.

(** [s.strip()] *)
Definition strip (s : string) : string := rstrip (lstrip s).

(** [s.split(sep)] for a one-character separator. *)
Fixpoint split (sep : ascii) (s : string) : list string :=
  match s with
  | EmptyString => [EmptyString]
  | String c s' =>
      if Ascii.eqb c sep then EmptyString :: split sep s'
      else match split sep s' with
           | x :: xs => String c x :: xs
           | [] => [String c EmptyString]
           end
  end.

(** [sep.join(parts)] *)
Definition join (sep : string) (parts : list string) : string :=
  String.concat sep parts.

(** Truth value of a [str], of an optional [str] ([None] is false). *)
Definition truthy (s : string) : bool :=
  match s with EmptyString => false | _ => true end.

Definition truthy_opt (o : option string) : bool :=
  match o with Some s => truthy s | None => false end.

(** The text a file opened in text mode for reading yields: one line feed
    for each of the line ends CR LF, CR and LF. *)
Fixpoint universal_newlines (s : string) : string :=
  match s with
  | EmptyString => EmptyString
  | String c s' =>
      if Ascii.eqb c CR then
        match s' with
        | String d s'' =>
            if Ascii.eqb d LF then String LF (universal_newlines s'')
            else String LF (universal_newlines s')
        | EmptyString => String LF EmptyString
        end
      else String c (universal_newlines s')
  end.

(** The characters a file opened in text mode for writing stores for a
    text: each line feed becomes [linesep]. *)
Fixpoint write_newlines (linesep : string) (s : string) : string :=
  match s with
  | EmptyString => EmptyString
  | String c s' =>
      if Ascii.eqb c LF then linesep +:+ write_newlines linesep s'
      else String c (write_newlines linesep s')
  end.

(** [c.isprintable()] for a code point below 256. *)
Definition isprintable (c : ascii) : bool :=
  let n := Ascii.nat_of_ascii c in
  ((32 <=? n) && (n <=? 126) || (161 <=? n) && negb (n =? 173))%nat.

Definition hex_digit (n : nat) : ascii :=
  nth n (list_ascii_of_string "0123456789abcdef") "0"%char.

(** One character inside [repr] of a string quoted with [quote]. *)
Definition repr_char (quote c : ascii) : string :=
  if Ascii.eqb c quote || Ascii.eqb c BACKSLASH then String BACKSLASH (String c EmptyString)
  else if Ascii.eqb c TAB then String BACKSLASH "t"
  else if Ascii.eqb c LF then String BACKSLASH "n"
  else if Ascii.eqb c CR then String BACKSLASH "r"
  else if isprintable c then String c EmptyString
  else String BACKSLASH
         (String "x" (String (hex_digit (Ascii.nat_of_ascii c / 16)%nat)
                        (String (hex_digit (Ascii.nat_of_ascii c mod 16)%nat) EmptyString))).

Fixpoint repr_chars (quote : ascii) (s : string) : string :=
  match s with
  | EmptyString => EmptyString
  | String c s' => repr_char quote c +:+ repr_chars quote s'
  end.

Fixpoint has_char (c : ascii) (s : string) : bool :=
  match s with
  | EmptyString => false
  | String d s' => Ascii.eqb c d || has_char c s'
  end.

(** [repr(s)] of a string of code points below 256: single quotes, unless
    the string holds a single quote and no double quote; quote, backslash,
    tab and line ends escaped, other unprintable characters as [\xhh]. *)
Definition repr (s : string) : string :=
  let dq := Ascii.ascii_of_nat 34 in
  let quote := if has_char QUOTE s && negb (has_char dq s) then dq else QUOTE in
  String quote (repr_chars quote s +:+ String quote EmptyString).

(** [str] of a list of strings, as [print] and f-strings show it. *)
Definition repr_list (l : list string) : string :=
  "[" +:+ join ", " (map repr l) +:+ "]".

End PyStr.

(** ** The host: processes, files, console *)

(** How a started process ends, as [subprocess] reports it.  [NotStarted]
    is the [OSError] of a program that could not be executed at all. *)
Inductive outcome :=
| Exited (returncode : Z) (stdout stderr : string)
| NotStarted (msg : string).

(** The file operations the script performs itself. *)
Inductive io_op :=
| IoRead (path : string)
| IoWrite (path : string)
| IoCopy (src dst : string)
| IoChdir (path : string).

(** Python exceptions the script can meet.  All of them are instances of
    [Exception]; only the first is a [subprocess.CalledProcessError]. *)
Inductive exn :=
| CalledProcessError (returncode : Z) (cmd : list string) (stdout stderr : string)
| OSError (msg : string)
| TypeError (msg : string)
| UnicodeDecodeError.

(** Everything outside the script.  [spawn argv cwd files w] runs a program to
    completion: it may change the files of the host and the rest of the world
    (containers, networks, repositories) and reports an outcome.  [io_fault]
    gives the exception with which a file operation of the script fails on
    the host, when it does (a missing directory, permissions, a full disk,
    [UnicodeDecodeError] for a file whose bytes are no text in the encoding
    of the platform); [is_dir] says which paths are directories;
    [platform_system] is [platform.system()]; [decode_utf8] is
    [bytes.decode('utf-8')], with [None] for [UnicodeDecodeError];
    [signal_name] is the name [signal.Signals] has for a signal number of the
    platform. *)
Class Host := {
  World : Type;
  spawn : list string -> list string -> gmap string string -> World ->
          gmap string string * World * outcome;
  io_fault : World -> io_op -> option exn;
  is_dir : World -> string -> bool;
  platform_system : World -> string;
  decode_utf8 : string -> option string;
  signal_name : Z -> option string;
}.

(** What an observer of the host sees the script do, in order.  Console
    output is kept apart, in [console]. *)
Inductive event :=
| Spawned (argv : list string) (result : outcome)
| Slept (seconds : Z).

Definition is_CalledProcessError (e : exn) : bool :=
  match e with CalledProcessError _ _ _ _ => true | _ => false end.

Definition is_Exception (e : exn) : bool := true.

(** [str(e)].  A negative return code is the number of the signal that
    ended the process. *)
Definition exn_str `{H : Host} (e : exn) : string :=
  match e with
  | CalledProcessError rc cmd _ _ =>
      if rc <? 0 then
        match signal_name (- rc) with
        | Some name =>
            "Command '" +:+ PyStr.repr_list cmd +:+ "' died with <Signals." +:+ name
            +:+ ": " +:+ pretty (- rc) +:+ ">."
        | None =>
            "Command '" +:+ PyStr.repr_list cmd +:+ "' died with unknown signal "
            +:+ pretty (- rc) +:+ "."
        end
      else
        "Command '" +:+ PyStr.repr_list cmd +:+ "' returned non-zero exit status "
        +:+ pretty rc +:+ "."
  | OSError msg => msg
  | TypeError msg => msg
  | UnicodeDecodeError => "'utf-8' codec can't decode bytes"
  end.

(** [subprocess.CompletedProcess] *)
Record CompletedProcess := {
  returncode : Z;
  stdout : string;
  stderr : string;
}.

Section Script.
Context `{H : Host}.

(** The state a run threads through: the host's files and world, the
    working directory of the interpreter (innermost component first), the
    lines printed so far and the events so far (both oldest first).  A file
    is kept under its path from the directory the script was started in,
    components joined by a slash, and as the text its stored bytes are in
    the encoding of the platform, line ends as stored. *)
Record state := {
  files : gmap string string;
  world : World;
  cwd : list string;
  console : list string;
  trace : list event;
}.

Definition M (A : Type) : Type := state -> (exn + A) * state.

Definition ret {A} (a : A) : M A := fun s => (inr a, s).
Definition raise {A} (e : exn) : M A := fun s => (inl e, s).
Definition bind {A B} (m : M A) (k : A -> M B) : M B :=
  fun s => match m s with
           | (inr a, s') => k a s'
           | (inl e, s') => (inl e, s')
           end.

(** [try: body  except <class> as e: handler e]; an exception outside the
    class passes through. *)
Definition try_except {A} (body : M A) (class : exn -> bool) (handler : exn -> M A) : M A :=
  fun s => match body s with
           | (inl e, s') => if class e then handler e s' else (inl e, s')
           | r => r
           end.

(** [for x in l: body x] *)
Fixpoint for_each {A} (l : list A) (body : A -> M unit) : M unit :=
  match l with
  | [] => ret tt
  | x :: l' => bind (body x) (fun _ => for_each l' body)
  end.

Definition when (b : bool) (m : M unit) : M unit := if b then m else ret tt.

Definition result_of {A} (m : M A) (s : state) : exn + A := fst (m s).
Definition state_after {A} (m : M A) (s : state) : state := snd (m s).

(** *** Primitive effects *)

Definition print (line : string) : M unit :=
  fun s => (inr tt, {| files := files s; world := world s; cwd := cwd s;
                       console := console s ++ [line]; trace := trace s |}).

Definition log_event (e : event) : M unit :=
  fun s => (inr tt, {| files := files s; world := world s; cwd := cwd s;
                       console := console s; trace := trace s ++ [e] |}).

Definition set_files (fs : gmap string string) : M unit :=
  fun s => (inr tt, {| files := fs; world := world s; cwd := cwd s;
                       console := console s; trace := trace s |}).

(** A relative path, seen from the directory the script was started in. *)
Definition resolve (dir : list string) (path : string) : string :=
  PyStr.join "/" (rev dir ++ [path]).

(** [time.sleep(seconds)] *)
Definition time_sleep (seconds : Z) : M unit := log_event (Slept seconds).

(** The process facility under [subprocess]: run [argv] to completion, in
    directory [dir] when one is given. *)
Definition start_process (argv : list string) (dir : option string) : M outcome :=
  fun s =>
    let '(fs, w, out) :=
      spawn argv (match dir with Some d => d :: cwd s | None => cwd s end)
            (files s) (world s) in
    (inr out, {| files := fs; world := w; cwd := cwd s;
                 console := console s; trace := trace s ++ [Spawned argv out] |}).

(** [subprocess.run(argv, cwd=dir, check=check, ...)] *)
Definition subprocess_run (argv : list string) (dir : option string) (check : bool)
  : M CompletedProcess :=
  bind (start_process argv dir) (fun out =>
  match out with
  | NotStarted msg => raise (OSError msg)
  | Exited rc o e =>
      if check && negb (rc =? 0)
      then raise (CalledProcessError rc argv o e)
      else ret {| returncode := rc; stdout := o; stderr := e |}
  end).

(** [subprocess.check_output(argv)]: the bytes of standard output. *)
Definition subprocess_check_output (argv : list string) : M string :=
  bind (subprocess_run argv None true) (fun r => ret (stdout r)).

(** [bytes.decode('utf-8')] *)
Definition decode (b : string) : M string :=
  match decode_utf8 b with
  | Some t => ret t
  | None => raise UnicodeDecodeError
  end.

(** Whether [path] names a file or a directory of the host. *)
Definition path_present (s : state) (path : string) : bool :=
  match files s !! resolve (cwd s) path with
  | Some _ => true
  | None => is_dir (world s) (resolve (cwd s) path)
  end.

(** [os.sep] and [os.linesep] of the platform [platform.system()] names. *)
Definition os_sep (system : string) : string :=
  if String.eqb system "Windows" then String PyStr.BACKSLASH EmptyString else "/".

Definition os_linesep (system : string) : string :=
  if String.eqb system "Windows"
  then String PyStr.CR (String PyStr.LF EmptyString) else String PyStr.LF EmptyString.

(** [os.path.join(a, b)], for a relative [b] and an [a] that does not end in
    a separator. *)
Definition os_path_join (system a b : string) : string := a +:+ os_sep system +:+ b.

(** The name under which the host keeps what a path of the script names: on
    Windows a backslash separates the components of a path as a slash
    does. *)
Definition canonical (system path : string) : string :=
  if String.eqb system "Windows"
  then PyStr.replace path (String PyStr.BACKSLASH EmptyString) "/" else path.

Definition locate (w : World) (dir : list string) (path : string) : string :=
  resolve dir (canonical (platform_system w) path).

(** The platform whose conventions [os.path] follows. *)
Definition os_path_flavour : M string :=
  fun s => (inr (platform_system (world s)), s).

(** [os.path.exists(path)] *)
Definition os_path_exists (path : string) : M bool :=
  fun s => (inr (path_present s (canonical (platform_system (world s)) path)), s).

Definition host_check (op : io_op) : M unit :=
  fun s => match io_fault (world s) op with
           | Some e => (inl e, s)
           | None => (inr tt, s)
           end.

(** The exception of [open(path)] for a path that names no file: a
    directory, or nothing. *)
Definition open_error (w : World) (dir : list string) (path : string) : exn :=
  if is_dir w (locate w dir path) then
    if String.eqb (platform_system w) "Windows"
    then OSError ("[Errno 13] Permission denied: " +:+ PyStr.repr path)
    else OSError ("[Errno 21] Is a directory: " +:+ PyStr.repr path)
  else OSError ("[Errno 2] No such file or directory: " +:+ PyStr.repr path).

(** [os.chdir(path)] *)
Definition os_chdir (path : string) : M unit :=
  bind (host_check (IoChdir path)) (fun _ s =>
    (inr tt, {| files := files s; world := world s;
                cwd := if String.eqb path ".." then tail (cwd s) else path :: cwd s;
                console := console s; trace := trace s |})).

(** [with open(path, 'r') as file: file.read()]: text mode, so every line
    end of the file is read as one line feed. *)
Definition read_text (path : string) : M string :=
  bind (host_check (IoRead path)) (fun _ s =>
    match files s !! locate (world s) (cwd s) path with
    | Some content => (inr (PyStr.universal_newlines content), s)
    | None => (inl (open_error (world s) (cwd s) path), s)
    end).

(** [with open(path, 'w') as file: file.write(content)]: text mode, so
    every line feed is stored as [os.linesep]. *)
Definition write_text (path content : string) : M unit :=
  bind (host_check (IoWrite path)) (fun _ s =>
    set_files (<[locate (world s) (cwd s) path :=
                   PyStr.write_newlines (os_linesep (platform_system (world s))) content]>
                 (files s)) s).

(** [shutil.copyfile(src, dst)]: the content as it is stored. *)
Definition shutil_copyfile (src dst : string) : M unit :=
  bind (host_check (IoCopy src dst)) (fun _ s =>
    match files s !! locate (world s) (cwd s) src with
    | Some content => set_files (<[locate (world s) (cwd s) dst := content]> (files s)) s
    | None => (inl (open_error (world s) (cwd s) src), s)
    end).

(** [for x in l: acc = body x acc], for a loop that updates a local. *)
Fixpoint for_fold {A B} (l : list A) (acc : B) (body : A -> B -> M B) : M B :=
match l with
| [] => ret acc
| x :: l' => bind (body x acc) (fun acc' => for_fold l' acc' body)
end.

Notation "x <- m ;; k" := (bind m (fun x => k))
  (at level 100, m at next level, right associativity).
Notation "m ;; k" := (bind m (fun _ => k))
  (at level 100, right associativity).

(** ** The script *)

(** *** [run_command] and its call sites *)

(** [def run_command(cmd, cwd=None, description=None)] *)
Definition run_command (cmd : list string) (cwd description : option string)
  : M CompletedProcess :=
when (PyStr.truthy_opt description) (print ("Action: " +:+ default "" description)) ;;
print ("Running: " +:+ PyStr.join " " cmd) ;;
try_except
  (result <- subprocess_run cmd cwd true ;;
   when (PyStr.truthy (stdout result)) (print ("Output: " +:+ stdout result)) ;;
   ret result)
  is_CalledProcessError
  (fun e =>
     print "Error occurred:" ;;
     match e with
     | CalledProcessError rc c o er =>
         print ("Return code: " +:+ pretty rc) ;;
         print ("Command: " +:+ PyStr.repr_list c) ;;
         when (PyStr.truthy o) (print ("STDOUT: " +:+ o)) ;;
         when (PyStr.truthy er) (print ("STDERR: " +:+ er))
     | _ => ret tt
     end ;;
     raise e).

(** A value passed by keyword. *)
Inductive pyarg :=
| ArgStr (s : string)
| ArgBool (b : bool).

Definition run_command_params : list string := ["cmd"; "cwd"; "description"].

Definition str_kwarg (name : string) (kwargs : list (string * pyarg)) : option string :=
match find (fun kv => String.eqb (fst kv) name) kwargs with
| Some (_, ArgStr s) => Some s
| _ => None
end.

(** A call [run_command(cmd, k1=v1, ...)].  Python binds the keywords to the
    parameters of the [def] before the body runs; a keyword that names no
    parameter raises [TypeError] and nothing of the body is executed. *)
Definition call_run_command (cmd : list string) (kwargs : list (string * pyarg))
  : M CompletedProcess :=
match find (fun kv => negb (existsb (String.eqb (fst kv)) run_command_params)) kwargs with
| Some (k, _) =>
    raise (TypeError ("run_command() got an unexpected keyword argument '" +:+ k +:+ "'"))
| None => run_command cmd (str_kwarg "cwd" kwargs) (str_kwarg "description" kwargs)
end.

(** *** Repository sync and environment file *)

Definition clone_supabase_repo : M unit :=
present <- os_path_exists "supabase" ;;
if negb present then
  print "Cloning the Supabase repository..." ;;
  call_run_command ["git"; "clone"; "--filter=blob:none"; "--no-checkout";
                    "https://github.com/supabase/supabase.git"] [] ;;
  os_chdir "supabase" ;;
  call_run_command ["git"; "sparse-checkout"; "init"; "--cone"] [] ;;
  call_run_command ["git"; "sparse-checkout"; "set"; "docker"] [] ;;
  call_run_command ["git"; "checkout"; "master"] [] ;;
  os_chdir ".."
else
  print "Supabase repository already exists, updating..." ;;
  os_chdir "supabase" ;;
  call_run_command ["git"; "pull"] [] ;;
  os_chdir "..".

Definition prepare_supabase_env : M unit :=
flavour <- os_path_flavour ;;
let env_path := os_path_join flavour (os_path_join flavour "supabase" "docker") ".env" in
let env_example_path := ".env" in
print "Copying .env in root to .env in supabase/docker..." ;;
shutil_copyfile env_example_path env_path.

(** *** Inventory and cleanup of containers *)

Definition table_format (last : string) : string :=
"table {{.Names}}" +:+ String PyStr.TAB "{{.Status}}" +:+ String PyStr.TAB last.

Definition check_existing_containers : M unit :=
print "=== Checking for existing containers ===" ;;
try_except
  (call_run_command ["docker"; "ps"; "-a"; "--filter"; "name=localai"; "--format";
                     table_format "{{.Image}}"]
                    [("description", ArgStr "List existing localai containers")] ;;
   call_run_command ["docker"; "ps"; "-a"; "--filter"; "name=n8n"; "--format";
                     table_format "{{.Image}}"]
                    [("description", ArgStr "List existing n8n containers")] ;;
   print (String PyStr.LF "=== Checking for port conflicts ===") ;;
   call_run_command ["docker"; "ps"; "--filter"; "publish=5678"; "--format";
                     table_format "{{.Ports}}"]
                    [("description", ArgStr "Check for port 5678 usage (n8n default)")] ;;
   ret tt)
  is_Exception
  (fun e => print ("Note: Could not fully check existing containers: " +:+ exn_str e)) ;;
print ("=== End container check ===" +:+ String PyStr.LF "").

Definition conflicting_containers : list string :=
["ollama"; "flowise"; "qdrant"; "searxng"; "redis";
 "clickhouse"; "minio"; "langfuse-web"; "langfuse-worker"].

(** The body of the loop over [conflicting_containers]. *)
Definition remove_if_running (container_name : string) : M unit :=
try_except
  (result <- call_run_command
               ["docker"; "inspect"; "--format={{.State.Running}}"; container_name]
               [("description", ArgStr ("Check if " +:+ container_name +:+ " is running"));
                ("check", ArgBool false)] ;;
   when ((returncode result =? 0) && PyStr.contains "true" (stdout result))
     (print ("Found running " +:+ container_name +:+ " container") ;;
      call_run_command ["docker"; "rm"; "-f"; container_name]
        [("description", ArgStr ("Remove conflicting " +:+ container_name +:+ " container"))] ;;
      ret tt))
  is_Exception
  (fun _ => ret tt).

(** The body of the loop over the n8n containers that were listed. *)
Definition remove_listed (container : string) : M unit :=
print ("Removing container: " +:+ container) ;;
call_run_command ["docker"; "rm"; "-f"; container]
  [("description", ArgStr ("Force remove " +:+ container))] ;;
ret tt.

Definition cleanup_stray_containers : M unit :=
print "=== Cleaning up stray containers ===" ;;
try_except
  (result <- call_run_command
               ["docker"; "ps"; "-a"; "--filter"; "name=n8n"; "--format"; "{{.Names}}"]
               [("description", ArgStr "Find all n8n containers")] ;;
   let n8n_containers :=
     if PyStr.truthy (stdout result)
     then PyStr.split PyStr.LF (PyStr.strip (stdout result)) else [] in
   let n8n_containers := filter (fun c => PyStr.truthy c = true) n8n_containers in
   match n8n_containers with
   | _ :: _ =>
       print ("Found existing n8n containers: " +:+ PyStr.repr_list n8n_containers) ;;
       for_each n8n_containers remove_listed
   | [] => print "No existing n8n containers found"
   end ;;
   print (String PyStr.LF "=== Checking for other potential conflicts ===") ;;
   for_each conflicting_containers remove_if_running)
  is_Exception
  (fun e => print ("Note: Error during container cleanup: " +:+ exn_str e)) ;;
print ("=== End container cleanup ===" +:+ String PyStr.LF "").

(** *** Teardown and startup of the two stacks *)

(** The command [stop_existing_containers] builds. *)
Definition stop_cmd (profile : option string) : list string :=
let cmd := ["docker"; "compose"; "-p"; "localai"] in
let cmd :=
  if PyStr.truthy_opt profile && negb (String.eqb (default "" profile) "none")
  then cmd ++ ["--profile"; default "" profile] else cmd in
cmd ++ ["-f"; "docker-compose.yml"; "down"].

Definition stop_existing_containers (profile : option string) : M unit :=
print "Stopping and removing existing containers for the unified project 'localai'..." ;;
let cmd := stop_cmd profile in
try_except
  (call_run_command cmd [("description", ArgStr "Stop and remove localai containers")] ;;
   ret tt)
  is_CalledProcessError
  (fun _ =>
     print "Standard docker compose down failed, trying aggressive cleanup..." ;;
     cleanup_stray_containers ;;
     call_run_command cmd
       [("description", ArgStr "Retry stop and remove localai containers")] ;;
     ret tt).

(** The command [start_supabase] builds. *)
Definition supabase_cmd (environment : option string) : list string :=
let cmd := ["docker"; "compose"; "-p"; "localai"; "-f";
            "supabase/docker/docker-compose.yml"] in
let cmd :=
  if PyStr.truthy_opt environment && String.eqb (default "" environment) "public"
  then cmd ++ ["-f"; "docker-compose.override.public.supabase.yml"] else cmd in
cmd ++ ["up"; "-d"].

Definition start_supabase (environment : option string) : M unit :=
print "Starting Supabase services..." ;;
call_run_command (supabase_cmd environment)
  [("description", ArgStr "Start Supabase services")] ;;
ret tt.

Definition all_containers : list string :=
[ (* Main compose file containers *)
  "localai-flowise-1"; "localai-open-webui-1"; "localai-n8n-1";
  "localai-n8n-import-1"; "localai-qdrant-1"; "localai-neo4j-1";
  "localai-caddy-1"; "localai-langfuse-worker-1"; "localai-langfuse-web-1";
  "localai-clickhouse-1"; "localai-minio-1"; "localai-redis-1";
  "localai-searxng-1"; "localai-ollama-cpu-1"; "localai-ollama-gpu-1";
  "localai-ollama-gpu-amd-1"; "localai-ollama-pull-llama-cpu-1";
  "localai-ollama-pull-llama-gpu-1"; "localai-ollama-pull-llama-gpu-amd-1";
  (* Supabase containers *)
  "supabase-studio-1"; "supabase-kong-1"; "supabase-auth-1";
  "supabase-rest-1"; "realtime-dev.supabase-realtime-1"; "supabase-storage-1";
  "supabase-imgproxy-1"; "supabase-meta-1"; "supabase-edge-functions-1";
  "supabase-analytics-1"; "supabase-db-1"; "supabase-vector-1";
  "supabase-pooler-1"; "supabase-mail-1";
  (* Old hard-coded names (for legacy cleanup) *)
  "n8n"; "ollama"; "ollama-pull-llama"; "flowise"; "open-webui";
  "qdrant"; "caddy"; "redis"; "searxng" ].

(** The body of the loop of [comprehensive_cleanup]; [removed_count] is the
    local it updates. *)
Definition remove_if_exists (container : string) (removed_count : Z) : M Z :=
try_except
  (result <- call_run_command
               ["docker"; "inspect"; "--format={{.Name}}"; container]
               [("description", ArgStr ("Check if " +:+ container +:+ " exists"));
                ("check", ArgBool false)] ;;
   if returncode result =? 0 then
     print ("Found container: " +:+ container) ;;
     call_run_command ["docker"; "rm"; "-f"; container]
       [("description", ArgStr ("Remove container " +:+ container))] ;;
     ret (removed_count + 1)
   else ret removed_count)
  is_Exception
  (fun e =>
     print ("Note: Could not process " +:+ container +:+ ": " +:+ exn_str e) ;;
     ret removed_count).

Definition comprehensive_cleanup : M unit :=
print "=== Starting comprehensive container cleanup ===" ;;
removed_count <- for_fold all_containers 0 remove_if_exists ;;
print ("=== Cleanup completed. Removed " +:+ pretty removed_count +:+ " containers ==="
       +:+ String PyStr.LF "") ;;
try_except
  (call_run_command ["docker"; "network"; "prune"; "-f"]
     [("description", ArgStr "Clean up unused Docker networks")] ;;
   ret tt)
  is_Exception
  (fun _ => ret tt).

(** The command [start_local_ai] builds. *)
Definition local_ai_cmd (profile environment : option string) : list string :=
let cmd := ["docker"; "compose"; "-p"; "localai"] in
let cmd :=
  if PyStr.truthy_opt profile && negb (String.eqb (default "" profile) "none")
  then cmd ++ ["--profile"; default "" profile] else cmd in
let cmd := cmd ++ ["-f"; "docker-compose.yml"] in
let cmd :=
  if PyStr.truthy_opt environment && String.eqb (default "" environment) "private"
  then cmd ++ ["-f"; "docker-compose.override.private.yml"] else cmd in
let cmd :=
  if PyStr.truthy_opt environment && String.eqb (default "" environment) "public"
  then cmd ++ ["-f"; "docker-compose.override.public.yml"] else cmd in
cmd ++ ["up"; "-d"].

Definition start_local_ai (profile environment : option string) : M unit :=
print "Starting local AI services..." ;;
let cmd := local_ai_cmd profile environment in
try_except
  (call_run_command cmd [("description", ArgStr "Start local AI services")] ;;
   ret tt)
  is_CalledProcessError
  (fun _ =>
     print "Failed to start services. Attempting comprehensive cleanup and retry..." ;;
     comprehensive_cleanup ;;
     print "Retrying service startup..." ;;
     call_run_command cmd [("description", ArgStr "Retry start local AI services")] ;;
     ret tt).

(** *** Secret provisioning *)

(** [platform.system()] *)
Definition platform_system_call : M string :=
fun s => (inr (platform_system (world s)), s).

Definition placeholder : string := "ultrasecretkey".

Definition ps_command : list string :=
["powershell"; "-Command";
 "$randomBytes = New-Object byte[] 32; " +:+
 "(New-Object Security.Cryptography.RNGCryptoServiceProvider).GetBytes($randomBytes); " +:+
 "$secretKey = -join ($randomBytes | ForEach-Object { " +:+ PyStr.DQ +:+ "{0:x2}"
   +:+ PyStr.DQ +:+ " -f $_ }); " +:+
 "(Get-Content searxng/settings.yml) -replace 'ultrasecretkey', $secretKey | Set-Content searxng/settings.yml"].

Definition openssl_cmd : list string := ["openssl"; "rand"; "-hex"; "32"].

(** [f"s|ultrasecretkey|{random_key}|g"] *)
Definition sed_script (random_key : string) : string :=
"s|ultrasecretkey|" +:+ random_key +:+ "|g".

Definition remediation_lines : list string :=
["You may need to manually generate the secret key using the commands:";
 "  - Linux: sed -i " +:+ PyStr.DQ +:+ "s|ultrasecretkey|$(openssl rand -hex 32)|g"
   +:+ PyStr.DQ +:+ " searxng/settings.yml";
 "  - macOS: sed -i '' " +:+ PyStr.DQ +:+ "s|ultrasecretkey|$(openssl rand -hex 32)|g"
   +:+ PyStr.DQ +:+ " searxng/settings.yml";
 "  - Windows (PowerShell):";
 "    $randomBytes = New-Object byte[] 32";
 "    (New-Object Security.Cryptography.RNGCryptoServiceProvider).GetBytes($randomBytes)";
 "    $secretKey = -join ($randomBytes | ForEach-Object { " +:+ PyStr.DQ +:+ "{0:x2}"
   +:+ PyStr.DQ +:+ " -f $_ })";
 "    (Get-Content searxng/settings.yml) -replace 'ultrasecretkey', $secretKey | Set-Content searxng/settings.yml"].

(** The settings file and its template, by the names the host keeps them
    under: the names [os.path.join] gives them everywhere but on Windows,
    where it writes the separator as a backslash. *)
Definition settings_path : string := "searxng/settings.yml".
Definition settings_base_path : string := "searxng/settings-base.yml".

(** The [try] block of [generate_searxng_secret_key]: the substitution, by
    the means of the platform; [settings_path] is the local of that name. *)
Definition substitute_secret (system settings_path : string) : M unit :=
(if String.eqb system "Windows" then
   print "Detected Windows platform, using PowerShell to generate secret key..." ;;
   subprocess_run ps_command None true ;;
   ret tt
 else if String.eqb system "Darwin" then
   print "Detected macOS platform, using sed command with empty string parameter..." ;;
   out <- subprocess_check_output openssl_cmd ;;
   text <- decode out ;;
   let random_key := PyStr.strip text in
   subprocess_run ["sed"; "-i"; ""; sed_script random_key; settings_path] None true ;;
   ret tt
 else
   print "Detected Linux/Unix platform, using standard sed command..." ;;
   out <- subprocess_check_output openssl_cmd ;;
   text <- decode out ;;
   let random_key := PyStr.strip text in
   subprocess_run ["sed"; "-i"; sed_script random_key; settings_path] None true ;;
   ret tt) ;;
print "SearXNG secret key generated successfully.".

(** The [except] block of [generate_searxng_secret_key]. *)
Definition report_substitution_failure (e : exn) : M unit :=
print ("Error generating SearXNG secret key: " +:+ exn_str e) ;;
for_each remediation_lines print.

(** The first [if] returns early; so does the handler of a failed copy, which
    [ready = false] stands for. *)
Definition generate_searxng_secret_key : M unit :=
print "Checking SearXNG settings..." ;;
flavour <- os_path_flavour ;;
let settings_path := os_path_join flavour "searxng" "settings.yml" in
let settings_base_path := os_path_join flavour "searxng" "settings-base.yml" in
base_present <- os_path_exists settings_base_path ;;
if negb base_present then
  print ("Warning: SearXNG base settings file not found at " +:+ settings_base_path)
else
  present <- os_path_exists settings_path ;;
  ready <- (if negb present then
              print ("SearXNG settings.yml not found. Creating from "
                     +:+ settings_base_path +:+ "...") ;;
              try_except
                (shutil_copyfile settings_base_path settings_path ;;
                 print ("Created " +:+ settings_path +:+ " from " +:+ settings_base_path) ;;
                 ret true)
                is_Exception
                (fun e => print ("Error creating settings.yml: " +:+ exn_str e) ;;
                          ret false)
            else
              print ("SearXNG settings.yml already exists at " +:+ settings_path) ;;
              ret true) ;;
  if negb ready then ret tt
  else
    print "Generating SearXNG secret key..." ;;
    system <- platform_system_call ;;
    try_except (substitute_secret system settings_path) is_Exception
               report_substitution_failure.

(** *** Compose patch *)

Definition docker_compose_path : string := "docker-compose.yml".
Definition directive : string := "cap_drop: - ALL".
Definition sentinel : string :=
"# cap_drop: - ALL  # Temporarily commented out for first run".

Definition probe_script : string :=
"[ -f /etc/searxng/uwsgi.ini ] && echo 'found' || echo 'not_found'".

(** The inner [try] of [check_and_fix_docker_compose_for_searxng]: the value
    [is_first_run] has after it.  The variable starts as [True], and nothing
    can raise after it was assigned [False]. *)
Definition detect_first_run : M bool :=
try_except
  (container_check <-
     subprocess_run ["docker"; "ps"; "--filter"; "name=searxng"; "--format"; "{{.Names}}"]
                    None true ;;
   let searxng_containers := PyStr.split PyStr.LF (PyStr.strip (stdout container_check)) in
   match filter (fun c => PyStr.truthy c = true) searxng_containers with
   | container_name :: _ =>
       print ("Found running SearXNG container: " +:+ container_name) ;;
       container_check <-
         subprocess_run ["docker"; "exec"; container_name; "sh"; "-c"; probe_script]
                        None false ;;
       if PyStr.contains "found" (stdout container_check) then
         print "Found uwsgi.ini inside the SearXNG container - not first run" ;;
         ret false
       else
         print "uwsgi.ini not found inside the SearXNG container - first run" ;;
         ret true
   | [] =>
       print "No running SearXNG container found - assuming first run" ;;
       ret true
   end)
  is_Exception
  (fun e =>
     print ("Error checking Docker container: " +:+ exn_str e +:+ " - assuming first run") ;;
     ret true).

Definition check_and_fix_docker_compose_for_searxng : M unit :=
present <- os_path_exists docker_compose_path ;;
if negb present then
  print ("Warning: Docker Compose file not found at " +:+ docker_compose_path)
else
  try_except
    (content <- read_text docker_compose_path ;;
     is_first_run <- detect_first_run ;;
     if is_first_run && PyStr.contains directive content then
       print "First run detected for SearXNG. Temporarily removing 'cap_drop: - ALL' directive..." ;;
       let modified_content := PyStr.replace content directive sentinel in
       write_text docker_compose_path modified_content ;;
       print "Note: After the first run completes successfully, you should re-add 'cap_drop: - ALL' to docker-compose.yml for security reasons."
     else if negb is_first_run && PyStr.contains sentinel content then
       print "SearXNG has been initialized. Re-enabling 'cap_drop: - ALL' directive for security..." ;;
       let modified_content := PyStr.replace content sentinel directive in
       write_text docker_compose_path modified_content
     else ret tt)
    is_Exception
    (fun e =>
       print ("Error checking/modifying docker-compose.yml for SearXNG: " +:+ exn_str e)).

(** *** The pipeline *)

(** [main()], after [argparse] has accepted [--profile] and [--environment]. *)
Definition main (profile environment : string) : M unit :=
clone_supabase_repo ;;
prepare_supabase_env ;;
generate_searxng_secret_key ;;
check_and_fix_docker_compose_for_searxng ;;
check_existing_containers ;;
stop_existing_containers (Some profile) ;;
start_supabase (Some environment) ;;
print "Waiting for Supabase to initialize..." ;;
time_sleep 10 ;;
start_local_ai (Some profile) (Some environment).

(** The statements of [main] before [start_supabase], up to it, and up to
    the end of the settling wait. *)
Definition preparation (profile : string) : M unit :=
clone_supabase_repo ;;
prepare_supabase_env ;;
generate_searxng_secret_key ;;
check_and_fix_docker_compose_for_searxng ;;
check_existing_containers ;;
stop_existing_containers (Some profile).

Definition supabase_started (profile environment : string) : M unit :=
preparation profile ;;
start_supabase (Some environment).

Definition settled (profile environment : string) : M unit :=
supabase_started profile environment ;;
print "Waiting for Supabase to initialize..." ;;
time_sleep 10.

(** The exit status of the interpreter: an exception that leaves [main]
    ends the process with status 1. *)
Definition exit_status (r : exn + unit) : Z :=
match r with inl _ => 1 | inr _ => 0 end.

End Script.

Definition profile_choices : list string := ["cpu"; "gpu-nvidia"; "gpu-amd"; "none"].
Definition environment_choices : list string := ["private"; "public"].

(** ** What the script assumes of the tools it starts *)

(** A key as [openssl rand -hex 32] prints it: 64 lowercase hexadecimal
    digits. *)
Definition is_hex_digit (c : ascii) : bool :=
existsb (Ascii.eqb c) (list_ascii_of_string "0123456789abcdef").

Definition is_key (k : string) : bool :=
(String.length k =? 64)%nat && PyStr.all_chars is_hex_digit k.

Section Contracts.
Context `{H : Host}.

(** The effect of an in-place substitution of the placeholder by [k] in the
    settings file, started in directory [dir]: on exit status 0 the file
    holds its former text with every occurrence replaced, otherwise the
    files are as they were. *)
Definition substituted (k : string) (dir : list string)
  (fs fs' : gmap string string) (out : outcome) : Prop :=
match out with
| Exited 0 _ _ =>
    exists c, fs !! resolve dir settings_path = Some c /\
              fs' = <[resolve dir settings_path := PyStr.replace c placeholder k]> fs
| _ => fs' = fs
end.

(** The documented behaviour of the random source and of the stream editors
    the script relies on. *)
Record tools_ok : Prop := {
  openssl_ok : forall dir fs w,
    let '(fs', _, out) := spawn openssl_cmd dir fs w in
    fs' = fs /\
    match out with
    | Exited 0 o _ =>
        exists text, decode_utf8 o = Some text /\ is_key (PyStr.strip text) = true
    | _ => True
    end;
  sed_ok : forall k dir fs w, is_key k = true ->
    let '(fs', _, out) := spawn ["sed"; "-i"; sed_script k; settings_path] dir fs w in
    substituted k dir fs fs' out;
  sed_darwin_ok : forall k dir fs w, is_key k = true ->
    let '(fs', _, out) := spawn ["sed"; "-i"; ""; sed_script k; settings_path] dir fs w in
    substituted k dir fs fs' out;
  powershell_ok : forall dir fs w,
    let '(fs', _, out) := spawn ps_command dir fs w in
    exists k, is_key k = true /\ substituted k dir fs fs' out;
}.

(** The container engine leaves the files of the host alone. *)
Definition docker_leaves_files : Prop :=
forall argv dir fs w, head argv = Some "docker" -> (spawn argv dir fs w).1.1 = fs.

End Contracts.

(** ** Runs, seen from outside *)

Section Judgement.
Context `{H : Host}.

(** The part of a state that decides what the script does next; the console
    and the trace only grow. *)
Record core := Core {
  c_files : gmap string string;
  c_world : World;
  c_cwd : list string;
}.

Definition core_of (s : state) : core :=
{| c_files := files s; c_world := world s; c_cwd := cwd s |}.

Definition mk_state (c : core) (con : list string) (tr : list event) : state :=
{| files := c_files c; world := c_world c; cwd := c_cwd c; console := con; trace := tr |}.

(** [s] after the lines [lines] were printed. *)
Definition printed (s : state) (lines : list string) : state :=
{| files := files s; world := world s; cwd := cwd s;
   console := console s ++ lines; trace := trace s |}.

(** [exec m c r c' evs]: started from [c], whatever was printed and traced
    before, [m] ends with [r] in [c'] after the events [evs]. *)
Definition exec {A} (m : M A) (c : core) (r : exn + A) (c' : core) (evs : list event) : Prop :=
forall con tr, exists lines,
  m (mk_state c con tr) = (r, mk_state c' (con ++ lines) (tr ++ evs)).

(** [m] can be run from every core, and all its events satisfy [P]. *)
Definition sound {A} (P : event -> Prop) (m : M A) : Prop :=
forall c, exists r c' evs, exec m c r c' evs /\ Forall P evs.

(** What [run_command] makes of the outcome of its process. *)
Definition run_result (cmd : list string) (out : outcome) : exn + CompletedProcess :=
match out with
| NotStarted msg => inl (OSError msg)
| Exited rc o e =>
    if rc =? 0 then inr {| returncode := rc; stdout := o; stderr := e |}
    else inl (CalledProcessError rc cmd o e)
end.

Definition unit_result {A} (r : exn + A) : exn + unit :=
match r with inl e => inl e | inr _ => inr tt end.

Definition prune_cmd : list string := ["docker"; "network"; "prune"; "-f"].

(** A command [docker compose ... up -d]. *)
Definition is_compose_up (argv : list string) : bool :=
match argv with
| "docker" :: "compose" :: rest =>
    match rev rest with
    | "-d" :: "up" :: _ => true
    | _ => false
    end
| _ => false
end.

(** An event that is neither a sleep nor the start of a stack. *)
Definition calm (ev : event) : Prop :=
match ev with
| Spawned argv _ => is_compose_up argv = false
| Slept _ => False
end.


(** *** Secret provisioning *)

Definition success_line : string := "SearXNG secret key generated successfully.".

(** The last statement of [generate_searxng_secret_key]: the [try] with its
    [except], on the platform of the host. *)
(** The two paths as [generate_searxng_secret_key] holds them on platform
    [system], and the copy that creates the settings file. *)
Definition settings_path_on (system : string) : string :=
  os_path_join system "searxng" "settings.yml".
Definition settings_base_path_on (system : string) : string :=
  os_path_join system "searxng" "settings-base.yml".

Definition create_settings (system : string) : M unit :=
  shutil_copyfile (settings_base_path_on system) (settings_path_on system).

Definition guarded_substitution (s : state) : (exn + unit) * state :=
  let system := platform_system (world s) in
  try_except (substitute_secret system (settings_path_on system))
             is_Exception report_substitution_failure s.

(** What the stage has printed when it reaches the substitution: with a
    settings file that was there, and with one it has just created. *)
Definition existing_lines (system : string) : list string :=
  ["Checking SearXNG settings...";
   "SearXNG settings.yml already exists at " +:+ settings_path_on system;
   "Generating SearXNG secret key..."].

Definition created_lines (system : string) : list string :=
  ["Checking SearXNG settings...";
   "SearXNG settings.yml not found. Creating from " +:+ settings_base_path_on system
     +:+ "...";
   "Created " +:+ settings_path_on system +:+ " from " +:+ settings_base_path_on system;
   "Generating SearXNG secret key..."].

(** What a run of the substitution did to the settings file. *)
Definition substitution_effect (c : core) (r : exn + unit) (c' : core) : Prop :=
  c_cwd c' = c_cwd c /\
  match r with
  | inr _ =>
      exists content k,
        is_key k = true /\
        c_files c !! resolve (c_cwd c) settings_path = Some content /\
        c_files c' = <[resolve (c_cwd c) settings_path :=
                         PyStr.replace content placeholder k]> (c_files c)
  | inl _ => c_files c' = c_files c
  end.

(** *** What the container engine shows of searxng *)

Definition listing_cmd : list string :=
["docker"; "ps"; "--filter"; "name=searxng"; "--format"; "{{.Names}}"].

Definition probe_cmd (container_name : string) : list string :=
["docker"; "exec"; container_name; "sh"; "-c"; probe_script].

(** The names a listing holds, one per line. *)
Definition listed (listing : string) : list string :=
filter (fun c => PyStr.truthy c = true) (PyStr.split PyStr.LF (PyStr.strip listing)).

(** The listing fails or names no container, or the probe of the first
    container that is named cannot be started or prints nothing that
    contains [found]. *)
Inductive probe_without_found (s : state) : Prop :=
| listing_not_started fs w msg :
    spawn listing_cmd (cwd s) (files s) (world s) = (fs, w, NotStarted msg) ->
    probe_without_found s
| listing_failed fs w rc o e :
    spawn listing_cmd (cwd s) (files s) (world s) = (fs, w, Exited rc o e) ->
    rc <> 0 ->
    probe_without_found s
| nothing_listed fs w o e :
    spawn listing_cmd (cwd s) (files s) (world s) = (fs, w, Exited 0 o e) ->
    listed o = [] ->
    probe_without_found s
| probe_not_started fs w o e name rest fs' w' msg :
    spawn listing_cmd (cwd s) (files s) (world s) = (fs, w, Exited 0 o e) ->
    listed o = name :: rest ->
    spawn (probe_cmd name) (cwd s) fs w = (fs', w', NotStarted msg) ->
    probe_without_found s
| probe_silent fs w o e name rest fs' w' rc o' e' :
    spawn listing_cmd (cwd s) (files s) (world s) = (fs, w, Exited 0 o e) ->
    listed o = name :: rest ->
    spawn (probe_cmd name) (cwd s) fs w = (fs', w', Exited rc o' e') ->
    PyStr.contains "found" o' = false ->
    probe_without_found s.

(** The probe of the first container that is listed prints a text that
    contains [found]. *)
Inductive probe_with_found (s : state) : Prop :=
| probe_found fs w o e name rest fs' w' rc o' e' :
    spawn listing_cmd (cwd s) (files s) (world s) = (fs, w, Exited 0 o e) ->
    listed o = name :: rest ->
    spawn (probe_cmd name) (cwd s) fs w = (fs', w', Exited rc o' e') ->
    PyStr.contains "found" o' = true ->
    probe_with_found s.

End Judgement.

(** ** A simulated host

    A small concrete host to run the script on: the text tools do what
    their manuals say, the container engine and git answer from a list of
    prepared replies. *)

Module Sim.

Record machine := {
  system : string;
  (** prepared replies; a command uses up the first one that carries its
      argument vector, and exits with status 0 and no output without one *)
  replies : list (list string * outcome);
  (** the keys the random source yields next *)
  keys : list string;
  (** paths the host refuses to create or overwrite *)
  refused : list string;
  dirs : list string;
}.

Definition argv_eqb (a b : list string) : bool :=
(length a =? length b)%nat && forallb (fun p => String.eqb (fst p) (snd p)) (zip a b).

Fixpoint take_reply (argv : list string) (l : list (list string * outcome))
  : option (outcome * list (list string * outcome)) :=
match l with
| [] => None
| (a, out) :: l' =>
    if argv_eqb a argv then Some (out, l')
    else match take_reply argv l' with
         | Some (r, rest) => Some (r, (a, out) :: rest)
         | None => None
         end
end.

Fixpoint strip_prefix (p s : string) : option string :=
match p, s with
| EmptyString, _ => Some s
| String a p', String b s' => if Ascii.eqb a b then strip_prefix p' s' else None
| String _ _, EmptyString => None
end.

(** The text before the first [|] and the text from it on. *)
Fixpoint until_bar (s : string) : string * string :=
match s with
| EmptyString => (EmptyString, EmptyString)
| String c s' =>
    if Ascii.eqb c "|" then (EmptyString, s)
    else let '(a, b) := until_bar s' in (String c a, b)
end.

(** The replacement text of a script [s|ultrasecretkey|<text>|g]. *)
Definition sed_replacement (script : string) : option string :=
match strip_prefix "s|ultrasecretkey|" script with
| Some rest =>
    let '(k, tail) := until_bar rest in
    if String.eqb tail "|g" then Some k else None
| None => None
end.

Definition sed_request (argv : list string) : option (string * string) :=
match argv with
| ["sed"; "-i"; script; path] => (fun k => (k, path)) <$> sed_replacement script
| ["sed"; "-i"; ""; script; path] => (fun k => (k, path)) <$> sed_replacement script
| _ => None
end.

Definition with_replies (w : machine) (l : list (list string * outcome)) : machine :=
{| system := system w; replies := l; keys := keys w;
   refused := refused w; dirs := dirs w |}.

Definition with_keys (w : machine) (l : list string) : machine :=
{| system := system w; replies := replies w; keys := l;
   refused := refused w; dirs := dirs w |}.

Definition substitute (k : string) (path : string) (fs : gmap string string)
  : gmap string string * outcome :=
match fs !! path with
| Some c => (<[path := PyStr.replace c placeholder k]> fs, Exited 0 "" "")
| None => (fs, Exited 2 "" "can't read the file: No such file or directory")
end.

Definition run (argv dir : list string) (fs : gmap string string) (w : machine)
  : gmap string string * machine * outcome :=
if argv_eqb argv openssl_cmd then
  match keys w with
  | k :: ks =>
      if is_key k then (fs, with_keys w ks, Exited 0 (k +:+ String PyStr.LF "") "")
      else (fs, w, Exited 1 "" "")
  | [] => (fs, w, Exited 1 "" "")
  end
else if argv_eqb argv ps_command then
  match keys w with
  | k :: ks =>
      if is_key k then
        let '(fs', out) := substitute k (resolve dir "searxng/settings.yml") fs in
        (fs', with_keys w ks, out)
      else (fs, w, Exited 1 "" "")
  | [] =>
      let '(fs', out) :=
        substitute (String.concat "" (replicate 64 "0")) (resolve dir "searxng/settings.yml") fs in
      (fs', w, out)
  end
else
  match sed_request argv with
  | Some (k, path) =>
      let '(fs', out) := substitute k (resolve dir path) fs in (fs', w, out)
  | None =>
      match take_reply argv (replies w) with
      | Some (out, rest) => (fs, with_replies w rest, out)
      | None => (fs, w, Exited 0 "" "")
      end
  end.

Definition fault (w : machine) (op : io_op) : option exn :=
match op with
| IoWrite p | IoCopy _ p =>
    if existsb (String.eqb p) (refused w)
    then Some (OSError ("[Errno 13] Permission denied: " +:+ PyStr.repr p)) else None
| _ => None
end.

(** The signals of Linux a process is commonly ended by. *)
Definition signals (n : Z) : option string :=
match n with
| 1 => Some "SIGHUP"
| 2 => Some "SIGINT"
| 6 => Some "SIGABRT"
| 9 => Some "SIGKILL"
| 11 => Some "SIGSEGV"
| 13 => Some "SIGPIPE"
| 15 => Some "SIGTERM"
| _ => None
end.

Definition ascii_only (s : string) : bool :=
PyStr.all_chars (fun c => (Ascii.nat_of_ascii c <? 128)%nat) s.

Definition host : Host := {|
  World := machine;
  spawn := run;
  io_fault := fault;
  is_dir := fun w p => existsb (String.eqb p) (dirs w);
  platform_system := system;
  decode_utf8 := fun b => if ascii_only b then Some b else None;
  signal_name := signals;
|}.

Definition linux (l : list (list string * outcome)) : machine :=
{| system := "Linux"; replies := l; keys := []; refused := []; dirs := ["supabase"] |}.

(** A state of the simulated host at the start of a run. *)
Definition boot (fs : gmap string string) (w : machine) : @state host :=
@Build_state host fs w [] [] [].

End Sim.

(** ** Reading a command line *)

(** The arguments that follow each occurrence of [flag] in [argv]. *)
Fixpoint flag_values (flag : string) (argv : list string) : list string :=
match argv with
| [] => []
| f :: rest =>
    (if String.eqb f flag then match rest with v :: _ => [v] | [] => [] end else [])
    ++ flag_values flag rest
end.


(** ** Scenarios on the simulated host *)

Module Scenario.

Definition nl : string := String PyStr.LF "".

Definition key_a : string :=
  "00112233445566778899aabbccddeeff00112233445566778899aabbccddeeff".
Definition key_b : string :=
  "ffeeddccbbaa99887766554433221100ffeeddccbbaa99887766554433221100".

(** A compose file with the directive, after one relaxing pass, and after
    two of them. *)
Definition compose_text : string :=
  "  searxng:" +:+ nl +:+ "    cap_drop: - ALL" +:+ nl.
Definition relaxed_text : string :=
  "  searxng:" +:+ nl +:+
  "    # cap_drop: - ALL  # Temporarily commented out for first run" +:+ nl.
Definition twice_relaxed_text : string :=
  "  searxng:" +:+ nl +:+
  "    # # cap_drop: - ALL  # Temporarily commented out for first run  # Temporarily commented out for first run" +:+ nl.

Definition template_text : string :=
  "server:" +:+ nl +:+ "  secret_key: ultrasecretkey" +:+ nl.

Definition searxng_listed : list string * outcome :=
  (listing_cmd, Exited 0 ("searxng" +:+ nl) "").

(** Nothing runs yet. *)
Definition before_first_start (text : string) : @state Sim.host :=
  Sim.boot {["docker-compose.yml" := text]} (Sim.linux []).

(** A searxng container runs; the probe prints [answer]. *)
Definition searxng_running (text answer : string) : @state Sim.host :=
  Sim.boot {["docker-compose.yml" := text]}
    (Sim.linux [searxng_listed;
                (probe_cmd "searxng", Exited 0 (answer +:+ nl) "")]).

Definition compose_after (s : @state Sim.host) : option string :=
  files (state_after check_and_fix_docker_compose_for_searxng s) !! "docker-compose.yml".

(** A container named ollama runs: both ways of asking the engine about it
    would answer. *)
Definition ollama_running : @state Sim.host :=
  Sim.boot ∅
    (Sim.linux
       [(["docker"; "inspect"; "--format={{.State.Running}}"; "ollama"],
         Exited 0 ("true" +:+ nl) "");
        (["docker"; "inspect"; "--format={{.Name}}"; "ollama"],
         Exited 0 ("/ollama" +:+ nl) "")]).

Definition n8n_listing_cmd : list string :=
  ["docker"; "ps"; "-a"; "--filter"; "name=n8n"; "--format"; "{{.Names}}"].

(** Two n8n containers are left over; the engine refuses to remove the
    first. *)
Definition first_removal_refused : @state Sim.host :=
  Sim.boot ∅
    (Sim.linux
       [(n8n_listing_cmd, Exited 0 ("n8n" +:+ nl +:+ "n8n-import" +:+ nl) "");
        (["docker"; "rm"; "-f"; "n8n"],
         Exited 1 "" "Error response from daemon: removal already in progress")]).

(** A checkout with the template, before any settings file exists. *)
Definition first_provisioning : @state Sim.host :=
  Sim.boot {["searxng/settings-base.yml" := template_text]}
    {| Sim.system := "Linux"; Sim.replies := []; Sim.keys := [key_a; key_b];
       Sim.refused := []; Sim.dirs := ["supabase"] |}.

(** The same, on a host that refuses to create the settings file. *)
Definition settings_refused : @state Sim.host :=
  Sim.boot {["searxng/settings-base.yml" := template_text]}
    {| Sim.system := "Linux"; Sim.replies := []; Sim.keys := [key_a];
       Sim.refused := ["searxng/settings.yml"]; Sim.dirs := ["supabase"] |}.

Definition cpu_private_cmd : list string :=
  local_ai_cmd (Some "cpu") (Some "private").

(** The first start of the local AI stack fails, the second succeeds. *)
Definition local_ai_stuck_once : @state Sim.host :=
  Sim.boot ∅
    (Sim.linux [(cpu_private_cmd, Exited 1 "" "container name already in use")]).

(** A complete checkout on a host where every command succeeds. *)
Definition clean_checkout : @state Sim.host :=
  Sim.boot (<[".env" := "POSTGRES_PASSWORD=change-me" +:+ nl]>
            (<["searxng/settings-base.yml" := template_text]>
             {["docker-compose.yml" := compose_text]}))
    {| Sim.system := "Linux"; Sim.replies := []; Sim.keys := [key_a];
       Sim.refused := []; Sim.dirs := ["supabase"] |}.

(** A complete checkout on a host where the Supabase stack does not come
    up. *)
Definition supabase_refused : @state Sim.host :=
  Sim.boot (<[".env" := "POSTGRES_PASSWORD=change-me" +:+ nl]>
            (<["searxng/settings-base.yml" := template_text]>
             {["docker-compose.yml" := compose_text]}))
    (Sim.linux [(supabase_cmd (Some "private"),
                 Exited 1 "" "Bind for 0.0.0.0:5432 failed: port is already allocated")]).

(** A directory without anything the script needs. *)
Definition empty_directory : @state Sim.host := Sim.boot ∅ (Sim.linux []).

End Scenario.

(** ** What a run shows of a stage *)

Definition argv_of (ev : event) : option (list string) :=
match ev with Spawned argv _ => Some argv | Slept _ => None end.

(** The events [evs] are the starts of the commands [cmds], in this order,
    and nothing else. *)
Definition shows (evs : list event) (cmds : list (list string)) : Prop :=
map argv_of evs = map Some cmds.

Definition rm_cmd (container : string) : list string := ["docker"; "rm"; "-f"; container].

(** The three listings of [check_existing_containers]. *)
Definition inventory_cmds : list (list string) :=
[ ["docker"; "ps"; "-a"; "--filter"; "name=localai"; "--format"; table_format "{{.Image}}"];
  ["docker"; "ps"; "-a"; "--filter"; "name=n8n"; "--format"; table_format "{{.Image}}"];
  ["docker"; "ps"; "--filter"; "publish=5678"; "--format"; table_format "{{.Ports}}"] ].

(** The commands of [clone_supabase_repo], without and with a checkout. *)
Definition clone_cmds : list (list string) :=
[ ["git"; "clone"; "--filter=blob:none"; "--no-checkout";
   "https://github.com/supabase/supabase.git"];
  ["git"; "sparse-checkout"; "init"; "--cone"];
  ["git"; "sparse-checkout"; "set"; "docker"];
  ["git"; "checkout"; "master"] ].

Definition pull_cmds : list (list string) := [ ["git"; "pull"] ].

Definition is_git (ev : event) : Prop :=
match ev with
| Spawned argv _ => head argv = Some "git"
| Slept _ => False
end.

(** The names [cleanup_stray_containers] reads off its listing. *)
Definition n8n_names (out : outcome) : list string :=
match out with
| Exited 0 o _ => listed o
| _ => []
end.

(** What [detect_first_run] shows an observer: the listing alone, or the
    listing and the probe of the first container it names. *)
Definition probe_events (evs : list event) : Prop :=
(exists out, evs = [Spawned listing_cmd out]) \/
(exists o e name out',
   evs = [Spawned listing_cmd (Exited 0 o e); Spawned (probe_cmd name) out'] /\
   head (listed o) = Some name).

(** The stream editor call of the platform. *)
Definition sed_cmd (system random_key : string) : list string :=
if String.eqb system "Darwin"
then ["sed"; "-i"; ""; sed_script random_key; settings_path]
else ["sed"; "-i"; sed_script random_key; settings_path].

Section Footprint.
Context `{H : Host}.

(** [m] starts the commands [full] in order and stops at the first step that
    raises; when it returns, all of them were started and the working
    directory is [f] of the one before. *)
Definition runs (full : list (list string)) (f : list string -> list string)
  (m : M unit) : Prop :=
forall c, exists r c' evs k,
  exec m c r c' evs /\ shows evs (take k full) /\
  (r = inr tt -> shows evs full /\ c_cwd c' = f (c_cwd c)).

(** What the loop over the listed containers [names] shows an observer:
    [docker rm -f] for each name in turn, the next one only when
    [run_command] returned from the one before, and nothing after the first
    removal on which it raised. *)
Fixpoint removal_events (names : list string) (evs : list event) : Prop :=
match names with
| [] => evs = []
| name :: rest =>
    exists out evs',
      evs = Spawned (rm_cmd name) out :: evs' /\
      match run_result (rm_cmd name) out with
      | inr _ => removal_events rest evs'
      | inl _ => evs' = []
      end
end.

(** The random source gave no key: it could not be started, it exited with
    another status than 0, or what it printed is no text. *)
Definition key_unread (out : outcome) : Prop :=
match out with
| Exited rc o _ => rc <> 0 \/ decode_utf8 o = None
| NotStarted _ => True
end.

(** What the substitution shows an observer on platform [system]: on
    Windows the one PowerShell command; elsewhere the random source alone,
    when it gave no key, or the random source, exited with status 0, and
    then the stream editor with the key that was read from it. *)
Definition substitution_events (system : string) (evs : list event) : Prop :=
if String.eqb system "Windows" then exists out, evs = [Spawned ps_command out]
else (exists out, evs = [Spawned openssl_cmd out] /\ key_unread out) \/
     (exists o e text out',
        evs = [Spawned openssl_cmd (Exited 0 o e);
               Spawned (sed_cmd system (PyStr.strip text)) out'] /\
        decode_utf8 o = Some text).

End Footprint.

(** * Properties *)

(** ** The string operations on examples *)

Example replace_ex1 : PyStr.replace "a-b-c" "-" "+" = "a+b+c".
Proof. reflexivity. Qed.
Example replace_ex2 : PyStr.replace "aaa" "aa" "b" = "ba".
Proof. reflexivity. Qed.
Example replace_ex3 : PyStr.replace "abc" "" "-" = "-a-b-c-".
Proof. reflexivity. Qed.
Example strip_ex : PyStr.strip (String PyStr.LF " n8n " +:+ String PyStr.LF "") = "n8n".
Proof. reflexivity. Qed.
Example split_ex : PyStr.split "," "a,,b," = ["a"; ""; "b"; ""].
Proof. reflexivity. Qed.
Example contains_ex : PyStr.contains "found" "not_found" = true.
Proof. reflexivity. Qed.

(** ** Facts about the string operations *)

Module PyStrFacts.
Import PyStr.

Lemma append_cons c p s : String c p +:+ s = String c (p +:+ s).
Proof. reflexivity. Qed.

Lemma append_nil s : "" +:+ s = s.
Proof. reflexivity. Qed.

Lemma startswith_app p s : startswith p (p +:+ s) = true.
Proof.
  induction p as [|a p IH]; [reflexivity|].
  rewrite append_cons. cbn [startswith]. rewrite Ascii.eqb_refl. exact IH.
Qed.

Lemma startswith_empty_r p : startswith p "" = true -> p = "".
Proof. destruct p; [reflexivity | discriminate]. Qed.

Lemma contains_cons needle c s :
  contains needle s = true -> contains needle (String c s) = true.
Proof. intros Hs. cbn [contains]. rewrite Hs. apply orb_true_r. Qed.

Lemma contains_app_l needle s : contains needle (needle +:+ s) = true.
Proof.
  destruct (needle +:+ s) eqn:E; cbn [contains];
    rewrite <- E, startswith_app; reflexivity.
Qed.

Lemma contains_app_r needle p s :
  contains needle s = true -> contains needle (p +:+ s) = true.
Proof.
  intros Hs. induction p as [|c p IH]; [exact Hs|].
  rewrite append_cons. apply contains_cons, IH.
Qed.

Lemma replace_from_unfold old new c s :
  replace_from old new O (String c s) =
  if startswith old (String c s)
  then new +:+ match old with
               | EmptyString => String c (replace_from old new O s)
               | String _ old' => replace_from old new (String.length old') s
               end
  else String c (replace_from old new O s).
Proof. reflexivity. Qed.

(** Where [old] occurs, the replaced text holds [new]. *)
Lemma contains_replace s old new :
  old <> "" -> contains old s = true -> contains new (replace s old new) = true.
Proof.
  intros Hold. unfold replace.
  induction s as [|c s IH]; intros Hin.
  - cbn in Hin. rewrite orb_false_r in Hin.
    apply startswith_empty_r in Hin. contradiction.
  - rewrite replace_from_unfold.
    destruct (startswith old (String c s)) eqn:Hp.
    + apply contains_app_l.
    + cbn [contains] in Hin. rewrite Hp in Hin. cbn in Hin.
      apply contains_cons, IH, Hin.
Qed.

(** Without an occurrence of [old], [replace] returns the text as it is. *)
Lemma replace_absent s old new :
  contains old s = false -> replace s old new = s.
Proof.
  unfold replace. induction s as [|c s IH]; intros Hin.
  - destruct old; [discriminate | reflexivity].
  - cbn [contains] in Hin. apply orb_false_iff in Hin as [Hp Hs].
    rewrite replace_from_unfold, Hp, (IH Hs). reflexivity.
Qed.

Lemma replace_from_skip old new k s :
  replace_from old new k s = replace_from old new O (slice_from k s).
Proof.
  revert k. induction s as [|c s IH]; intros [|k]; try reflexivity.
  cbn [replace_from slice_from]. apply IH.
Qed.

Lemma slice_from_length k s : (String.length (slice_from k s) <= String.length s)%nat.
Proof.
  revert s. induction k as [|k IH]; intros [|c s]; cbn; try lia.
  specialize (IH s). lia.
Qed.

(** *** Line ends *)

Lemma all_chars_app p s t :
  all_chars p (s +:+ t) = all_chars p s && all_chars p t.
Proof.
  induction s as [|c s IH]; [reflexivity|].
  rewrite append_cons. cbn [all_chars]. by rewrite IH, andb_assoc.
Qed.

Lemma all_chars_slice_from p k s :
  all_chars p s = true -> all_chars p (slice_from k s) = true.
Proof.
  revert s. induction k as [|k IH]; intros [|c s] Hs; try exact Hs.
  cbn [slice_from]. apply IH. cbn in Hs. by apply andb_true_iff in Hs as [_ ?].
Qed.

Lemma all_chars_replace p t old new :
  all_chars p t = true -> all_chars p new = true ->
  all_chars p (replace t old new) = true.
Proof.
  intros Ht Hnew. unfold replace.
  remember (String.length t) as n eqn:Hn.
  assert (Hle : (String.length t <= n)%nat) by lia. clear Hn.
  revert t Ht Hle. induction n as [|n IH]; intros [|c t] Ht Hle; cbn [String.length] in Hle;
    try lia.
  - by destruct old.
  - by destruct old.
  - rewrite replace_from_unfold. cbn [all_chars] in Ht.
    apply andb_true_iff in Ht as [Hc Ht].
    destruct (startswith old (String c t)).
    + rewrite all_chars_app, Hnew. cbn [andb]. destruct old as [|o old'].
      * cbn [all_chars]. rewrite Hc. apply IH; [exact Ht | lia].
      * rewrite replace_from_skip. apply IH; [by apply all_chars_slice_from|].
        pose proof (slice_from_length (String.length old') t). lia.
    + cbn [all_chars]. rewrite Hc. apply IH; [exact Ht | lia].
Qed.

Lemma contains_char c s : contains (String c "") s = has_char c s.
Proof.
  induction s as [|d s IH]; [reflexivity|].
  cbn [contains startswith has_char]. rewrite IH. by destruct s, (Ascii.eqb c d).
Qed.

Lemma no_char_all c s :
  has_char c s = false -> all_chars (fun d => negb (Ascii.eqb d c)) s = true.
Proof.
  induction s as [|d s IH]; [reflexivity|]. cbn [has_char all_chars].
  intros Hs. apply orb_false_iff in Hs as [Hd Hs].
  rewrite Ascii.eqb_sym, Hd. by apply IH.
Qed.

Lemma startswith_universal_newlines n t :
  all_chars (fun c => negb (Ascii.eqb c CR) && negb (Ascii.eqb c LF)) n = true ->
  startswith n (universal_newlines t) = startswith n t.
Proof.
  revert t. induction n as [|a n IH]; intros t Hn.
  - reflexivity.
  - cbn [all_chars] in Hn. apply andb_true_iff in Hn as [Ha Hn].
    apply andb_true_iff in Ha as [Hcr Hlf].
    apply negb_true_iff in Hcr, Hlf.
    destruct t as [|c t]; [reflexivity|]. cbn [universal_newlines].
    destruct (Ascii.eqb_spec c CR) as [->|Hc].
    + cbn [startswith]. rewrite Hcr. cbn [andb].
      destruct t as [|d t]; [|destruct (Ascii.eqb d LF)]; cbn [startswith];
        by rewrite Hlf.
    + cbn [startswith]. by rewrite IH.
Qed.

Lemma contains_universal_newlines n t :
  all_chars (fun c => negb (Ascii.eqb c CR) && negb (Ascii.eqb c LF)) n = true ->
  contains n (universal_newlines t) = contains n t.
Proof.
  intros Hn.
  remember (String.length t) as k eqn:Hk.
  assert (Hle : (String.length t <= k)%nat) by lia. clear Hk.
  revert t Hle. induction k as [|k IH]; intros [|c t] Hle; cbn [String.length] in Hle;
    try lia; try reflexivity.
  pose proof (startswith_universal_newlines n (String c t) Hn) as Hsw.
  cbn [universal_newlines] in *.
  destruct (Ascii.eqb_spec c CR) as [->|Hc].
  - destruct t as [|d t].
    + cbn [contains] in *. by rewrite Hsw.
    + destruct (Ascii.eqb_spec d LF) as [->|Hd].
      * cbn [contains] in *. rewrite Hsw, (IH t) by (cbn in Hle; lia).
        destruct n as [|a n]; [reflexivity|].
        cbn [all_chars] in Hn. apply andb_true_iff in Hn as [Ha _].
        apply andb_true_iff in Ha as [_ Hlf]. apply negb_true_iff in Hlf.
        cbn [startswith]. rewrite Hlf. reflexivity.
      * cbn [contains] in Hsw |- *. cbn [contains] in IH.
        rewrite Hsw. f_equal. apply (IH (String d t)). lia.
  - cbn [contains] in *. rewrite Hsw, (IH t) by lia. reflexivity.
Qed.

Lemma universal_newlines_id t :
  all_chars (fun c => negb (Ascii.eqb c CR)) t = true -> universal_newlines t = t.
Proof.
  induction t as [|c t IH]; [reflexivity|]. cbn [all_chars universal_newlines].
  intros Ht. apply andb_true_iff in Ht as [Hc Ht]. apply negb_true_iff in Hc.
  by rewrite Hc, IH.
Qed.

Lemma universal_newlines_no_cr t :
  all_chars (fun c => negb (Ascii.eqb c CR)) (universal_newlines t) = true.
Proof.
  remember (String.length t) as k eqn:Hk.
  assert (Hle : (String.length t <= k)%nat) by lia. clear Hk.
  revert t Hle. induction k as [|k IH]; intros [|c t] Hle; cbn [String.length] in Hle;
    try lia; try reflexivity.
  cbn [universal_newlines].
  destruct (Ascii.eqb c CR) eqn:Hc.
  - destruct t as [|d t]; [reflexivity|].
    destruct (Ascii.eqb d LF); cbn [all_chars]; cbn [String.length] in Hle;
      rewrite IH by (cbn [String.length]; lia); reflexivity.
  - cbn [all_chars]. rewrite Hc, IH by lia. reflexivity.
Qed.

Lemma write_newlines_lf t : write_newlines (String LF "") t = t.
Proof.
  induction t as [|c t IH]; [reflexivity|]. cbn [write_newlines].
  rewrite IH. destruct (Ascii.eqb_spec c LF) as [->|]; reflexivity.
Qed.

(** What was written in text mode reads back as the text that was written,
    whichever of the two line ends the platform uses. *)
Lemma universal_write_newlines linesep t :
  linesep = String LF "" \/ linesep = String CR (String LF "") ->
  all_chars (fun c => negb (Ascii.eqb c CR)) t = true ->
  universal_newlines (write_newlines linesep t) = t.
Proof.
  intros [->| ->] Ht.
  - rewrite write_newlines_lf. by apply universal_newlines_id.
  - induction t as [|c t IH]; [reflexivity|].
    cbn [all_chars] in Ht. apply andb_true_iff in Ht as [Hc Ht].
    apply negb_true_iff in Hc. cbn [write_newlines].
    destruct (Ascii.eqb_spec c LF) as [->|Hlf].
    + rewrite !append_cons, append_nil. cbn [universal_newlines].
      rewrite Ascii.eqb_refl. change (Ascii.eqb CR CR) with true. cbn iota.
      by rewrite IH.
    + cbn [universal_newlines]. by rewrite Hc, IH.
Qed.

Section NoOccurrence.
Variables (a z : ascii) (old' new : string).
Hypothesis Hlast : last_char (String a old') = Some z.
Hypothesis Hfresh : all_chars (fun c => negb (Ascii.eqb a c) && negb (Ascii.eqb z c)) new = true.
Hypothesis Hlen : (String.length (String a old') <= String.length new)%nat.

Lemma startswith_short q x :
  (String.length q <= String.length new)%nat ->
  startswith q (new +:+ x) = true -> startswith q new = true.
Proof.
  clear. revert q. induction new as [|n nw IH]; intros [|b q] Hl Hp;
    try reflexivity; [cbn in Hl; lia|].
  rewrite append_cons in Hp. cbn [startswith] in *. cbn in Hl.
  apply andb_true_iff in Hp as [Hb Hq]. rewrite Hb. cbn.
  apply IH; [lia | exact Hq].
Qed.

Lemma startswith_last q p s c :
  startswith q s = true -> last_char q = Some c -> all_chars p s = true -> p c = true.
Proof.
  clear. revert s. induction q as [|b q IH]; intros [|d s] Hp Hl Ha; cbn in *; try discriminate.
  apply andb_true_iff in Hp as [Hb Hq]. apply andb_true_iff in Ha as [Hd Ha].
  apply Ascii.eqb_eq in Hb. subst d.
  destruct q as [|b' q].
  - injection Hl as ->. exact Hd.
  - eapply IH; eauto.
Qed.

Lemma not_startswith_new q x :
  (String.length q <= String.length new)%nat -> last_char q = Some z ->
  startswith q (new +:+ x) = false.
Proof.
  intros Hl Hq. destruct (startswith q (new +:+ x)) eqn:Hp; [|reflexivity].
  apply startswith_short in Hp; [|exact Hl].
  pose proof (startswith_last _ _ _ _ Hp Hq Hfresh) as Hz.
  cbn in Hz. rewrite Ascii.eqb_refl in Hz. rewrite andb_false_r in Hz. discriminate.
Qed.

(** A suffix of [(String a old')] that does not start the text does not start the
    replaced text either. *)
Lemma startswith_replace_false q t :
  (String.length q <= String.length new)%nat -> last_char q = Some z ->
  startswith q t = false ->
  startswith q (replace_from (String a old') new O t) = false.
Proof.
  revert q. induction t as [|c t IH]; intros q Hl Hq Hp.
  - destruct q; [discriminate | reflexivity].
  - rewrite replace_from_unfold.
    destruct (startswith (String a old') (String c t)) eqn:Hm.
    + apply not_startswith_new; assumption.
    + destruct q as [|b q]; [discriminate|].
      cbn [startswith] in *. destruct (Ascii.eqb b c); [|reflexivity].
      cbn in *. destruct q as [|b' q]; [discriminate|].
      apply IH; [cbn in *; lia | exact Hq | exact Hp].
Qed.

Lemma contains_new_app x :
  contains (String a old') x = false -> contains (String a old') (new +:+ x) = false.
Proof.
  clear Hlast Hlen. revert Hfresh. induction new as [|n nw IH]; intros Hf Hx; [exact Hx|].
  cbn in Hf. apply andb_true_iff in Hf as [Hn Hf].
  apply andb_true_iff in Hn as [Hn _].
  rewrite append_cons. cbn [contains]. rewrite (IH Hf Hx), orb_false_r.
  cbn [startswith]. apply negb_true_iff in Hn. rewrite Hn. reflexivity.
Qed.

(** After the replacement no occurrence of [(String a old')] is left. *)
Lemma replace_consumes t : contains (String a old') (replace t (String a old') new) = false.
Proof.
  unfold replace.
  remember (String.length t) as n eqn:Hn.
  assert (Hle : (String.length t <= n)%nat) by lia. clear Hn.
  revert t Hle. induction n as [|n IH]; intros [|c t] Hle; cbn in Hle; try lia; try reflexivity.
  rewrite replace_from_unfold.
  destruct (startswith (String a old') (String c t)) eqn:Hm.
  - rewrite replace_from_skip.
    apply contains_new_app. apply IH.
    pose proof (slice_from_length (String.length old') t). lia.
  - cbn [contains]. rewrite (IH t) by lia. rewrite orb_false_r.
    pose proof (startswith_replace_false (String a old') (String c t) Hlen Hlast Hm) as HG.
    rewrite replace_from_unfold, Hm in HG. exact HG.
Qed.
End NoOccurrence.

(** *** A replacement that can be undone *)

Lemma slice_from_app p x : slice_from (String.length p) (p +:+ x) = x.
Proof.
  induction p as [|c p IH]; [by destruct x|].
  rewrite append_cons. cbn [String.length slice_from]. exact IH.
Qed.

Lemma startswith_split p t :
  startswith p t = true -> t = p +:+ slice_from (String.length p) t.
Proof.
  revert t. induction p as [|c p IH]; intros [|b t] Hp; cbn in Hp; try discriminate;
    try reflexivity.
  apply andb_true_iff in Hp as [Hc Hp]. apply Ascii.eqb_eq in Hc. subst b.
  rewrite append_cons. cbn [String.length slice_from]. f_equal. by apply IH.
Qed.

Lemma startswith_app_l p q s : startswith (p +:+ q) s = true -> startswith p s = true.
Proof.
  revert s. induction p as [|c p IH]; intros s Hp; [reflexivity|].
  rewrite append_cons in Hp. destruct s as [|b s]; cbn [startswith] in *; [discriminate|].
  apply andb_true_iff in Hp as [-> Hp]. by apply IH.
Qed.

Lemma replace_from_prefix old new x :
  old <> "" ->
  replace_from old new O (old +:+ x) = new +:+ replace_from old new O x.
Proof.
  intros Hold. destruct old as [|o old']; [done|].
  pose proof (startswith_app (String o old') x) as Hp. rewrite append_cons in Hp.
  rewrite append_cons, replace_from_unfold, Hp.
  f_equal. by rewrite replace_from_skip, slice_from_app.
Qed.

Lemma replace_from_match old new t :
  old <> "" -> startswith old t = true ->
  replace_from old new O t =
  new +:+ replace_from old new O (slice_from (String.length old) t).
Proof.
  intros Hold Hp. rewrite (startswith_split _ _ Hp) at 1.
  by apply replace_from_prefix.
Qed.

Section RoundTrip.
Variables (a b : ascii) (d tail : string).
Hypothesis Hd : d <> "".
Hypothesis Ha : all_chars (fun c => negb (Ascii.eqb a c)) d = true.
Hypothesis Hb : Ascii.eqb b a = false.

Lemma startswith_fresh_head q x :
  q <> "" -> all_chars (fun c => negb (Ascii.eqb a c)) q = true ->
  startswith q (String a x) = false.
Proof.
  clear. intros Hq Hall. destruct q as [|c q]; [done|].
  cbn in *. apply andb_true_iff in Hall as [Hc _].
  rewrite Ascii.eqb_sym. by destruct (Ascii.eqb a c).
Qed.

Lemma startswith_relaxed_false q t :
  q <> "" -> all_chars (fun c => negb (Ascii.eqb a c)) q = true ->
  startswith q t = false ->
  startswith q (replace_from d (String a (String b (d +:+ tail))) O t) = false.
Proof.
  revert q. induction t as [|c t IH]; intros q Hq Hall Hp.
  - destruct d; [done|]. exact Hp.
  - rewrite replace_from_unfold. destruct (startswith d (String c t)).
    + rewrite append_cons. by apply startswith_fresh_head.
    + destruct q as [|x q]; [done|]. cbn [startswith] in *.
      destruct (Ascii.eqb x c); [|reflexivity]. cbn [andb] in *.
      destruct q as [|y q]; [by destruct t|].
      apply IH; [done| |exact Hp].
      cbn [all_chars] in Hall. by apply andb_true_iff in Hall as [_ ?].
Qed.

Lemma relaxed_never_starts_with_old t :
  startswith d (replace_from d (String a (String b (d +:+ tail))) O t) = false.
Proof.
  destruct (startswith d t) eqn:Hp.
  - destruct t as [|c t]; [by apply startswith_empty_r in Hp|].
    rewrite replace_from_unfold, Hp, append_cons. by apply startswith_fresh_head.
  - by apply startswith_relaxed_false.
Qed.

Lemma replace_round_trip t :
  replace (replace t d (String a (String b (d +:+ tail))))
          (String a (String b (d +:+ tail))) d = t.
Proof.
  unfold replace.
  remember (String.length t) as n eqn:Hn.
  assert (Hle : (String.length t <= n)%nat) by lia. clear Hn.
  revert t Hle. induction n as [|n IH]; intros [|c t] Hle; cbn [String.length] in Hle; try lia.
  - destruct d; [done | reflexivity].
  - destruct d; [done | reflexivity].
  - destruct (startswith d (String c t)) eqn:Hp.
    + rewrite (replace_from_match d _ _ Hd Hp), (replace_from_prefix _ d) by done.
      rewrite IH; [symmetry; by apply startswith_split|].
      destruct d as [|x d']; [done|]. cbn [String.length slice_from].
      pose proof (slice_from_length (String.length d') t). lia.
    + rewrite replace_from_unfold, Hp, replace_from_unfold.
      assert (Hs : startswith (String a (String b (d +:+ tail)))
                     (String c (replace_from d (String a (String b (d +:+ tail))) O t)) = false).
      { cbn [startswith]. destruct (Ascii.eqb a c); [|reflexivity]. cbn [andb].
        destruct t as [|c2 t]; [by destruct d|].
        rewrite replace_from_unfold. destruct (startswith d (String c2 t)).
        - rewrite append_cons. cbn [startswith]. by rewrite Hb.
        - cbn [startswith]. destruct (Ascii.eqb b c2); [|reflexivity]. cbn [andb].
          destruct (startswith (d +:+ tail) _) eqn:Hq; [|reflexivity].
          apply startswith_app_l in Hq. by rewrite relaxed_never_starts_with_old in Hq. }
      rewrite Hs. f_equal. apply IH. lia.
Qed.

End RoundTrip.

End PyStrFacts.

(** ** Rules for runs *)

Section Logic.
Context `{H : Host}.

Lemma state_eta s : s = mk_state (core_of s) (console s) (trace s).
Proof. destruct s; reflexivity. Qed.

Lemma exec_at {A} (m : M A) s r c' evs :
  exec m (core_of s) r c' evs ->
  exists lines, m s = (r, mk_state c' (console s ++ lines) (trace s ++ evs)).
Proof.
  intros He. destruct (He (console s) (trace s)) as [lines E].
  exists lines. rewrite <- E. f_equal. apply state_eta.
Qed.

Lemma exec_det {A} (m : M A) c r1 c1 e1 r2 c2 e2 :
  exec m c r1 c1 e1 -> exec m c r2 c2 e2 -> r1 = r2 /\ c1 = c2 /\ e1 = e2.
Proof.
  intros H1 H2. destruct (H1 [] []) as [l1 E1], (H2 [] []) as [l2 E2].
  rewrite E1 in E2. inversion E2 as [[Hr Hf Hw Hc Hl Ht]].
  cbn in Ht. destruct c1, c2; cbn in *. subst. auto.
Qed.

Lemma exec_ret {A} (a : A) c : exec (ret a) c (inr a) c [].
Proof. intros con tr. exists []. unfold ret. by rewrite !app_nil_r. Qed.

Lemma exec_raise {A} e c : exec (@raise _ A e) c (inl e) c [].
Proof. intros con tr. exists []. unfold raise. by rewrite !app_nil_r. Qed.

Lemma exec_print line c : exec (print line) c (inr tt) c [].
Proof. intros con tr. exists [line]. unfold print. cbn. by rewrite app_nil_r. Qed.

Lemma exec_log_event ev c : exec (log_event ev) c (inr tt) c [ev].
Proof. intros con tr. exists []. unfold log_event. cbn. by rewrite app_nil_r. Qed.

Lemma exec_bind {A B} (m : M A) (k : A -> M B) c a c1 e1 r c2 e2 :
  exec m c (inr a) c1 e1 -> exec (k a) c1 r c2 e2 ->
  exec (bind m k) c r c2 (e1 ++ e2).
Proof.
  intros H1 H2 con tr. destruct (H1 con tr) as [l1 E1].
  destruct (H2 (con ++ l1) (tr ++ e1)) as [l2 E2].
  exists (l1 ++ l2). unfold bind. rewrite E1, E2. by rewrite !app_assoc.
Qed.

Lemma exec_bind_raise {A B} (m : M A) (k : A -> M B) c e c1 e1 :
  exec m c (inl e) c1 e1 -> exec (bind m k) c (inl e) c1 e1.
Proof.
  intros H1 con tr. destruct (H1 con tr) as [l1 E1].
  exists l1. unfold bind. by rewrite E1.
Qed.

Lemma exec_try {A} (body : M A) cl h c a c1 e1 :
  exec body c (inr a) c1 e1 -> exec (try_except body cl h) c (inr a) c1 e1.
Proof.
  intros H1 con tr. destruct (H1 con tr) as [l1 E1].
  exists l1. unfold try_except. by rewrite E1.
Qed.

Lemma exec_try_caught {A} (body : M A) cl h c e c1 e1 r c2 e2 :
  exec body c (inl e) c1 e1 -> cl e = true -> exec (h e) c1 r c2 e2 ->
  exec (try_except body cl h) c r c2 (e1 ++ e2).
Proof.
  intros H1 Hc H2 con tr. destruct (H1 con tr) as [l1 E1].
  destruct (H2 (con ++ l1) (tr ++ e1)) as [l2 E2].
  exists (l1 ++ l2). unfold try_except. rewrite E1, Hc, E2. by rewrite !app_assoc.
Qed.

Lemma exec_try_pass {A} (body : M A) cl h c e c1 e1 :
  exec body c (inl e) c1 e1 -> cl e = false ->
  exec (try_except body cl h) c (inl e) c1 e1.
Proof.
  intros H1 Hc con tr. destruct (H1 con tr) as [l1 E1].
  exists l1. unfold try_except. by rewrite E1, Hc.
Qed.

Lemma exec_start_process argv dir c fs w out :
  spawn argv (match dir with Some d => d :: c_cwd c | None => c_cwd c end)
        (c_files c) (c_world c) = (fs, w, out) ->
  exec (start_process argv dir) c (inr out) (Core fs w (c_cwd c)) [Spawned argv out].
Proof.
  intros Hs con tr. exists []. unfold start_process. cbn. rewrite Hs.
  by rewrite app_nil_r.
Qed.

Lemma exec_weaken {A} (m : M A) c r c' evs evs' :
  exec m c r c' evs -> evs = evs' -> exec m c r c' evs'.
Proof. by intros ? <-. Qed.

(** A computation that only looks at the core. *)
Lemma exec_pure {A} (f : core -> exn + A) (m : M A) c :
  (forall s, m s = (f (core_of s), s)) -> exec m c (f c) c [].
Proof.
  intros Hm con tr. exists []. rewrite Hm, !app_nil_r.
  by destruct c.
Qed.

Lemma exec_os_path_exists path c :
  exec (os_path_exists path) c
       (inr (match c_files c !! locate (c_world c) (c_cwd c) path with
             | Some _ => true
             | None => is_dir (c_world c) (locate (c_world c) (c_cwd c) path)
             end)) c [].
Proof.
  apply (exec_pure (fun c => inr (match c_files c !! locate (c_world c) (c_cwd c) path with
             | Some _ => true
             | None => is_dir (c_world c) (locate (c_world c) (c_cwd c) path)
             end))).
  reflexivity.
Qed.

Lemma exec_host_check op c :
  exec (host_check op) c
       (match io_fault (c_world c) op with
        | Some e => inl e
        | None => inr tt
        end) c [].
Proof.
  apply (exec_pure (fun c => match io_fault (c_world c) op with
        | Some e => inl e
        | None => inr tt
        end)).
  intros s. unfold host_check. cbn. by destruct (io_fault _ _).
Qed.

Lemma exec_platform c :
  exec platform_system_call c (inr (platform_system (c_world c))) c [].
Proof. by apply (exec_pure (fun c => inr (platform_system (c_world c)))). Qed.

Lemma exec_flavour c :
  exec os_path_flavour c (inr (platform_system (c_world c))) c [].
Proof. by apply (exec_pure (fun c => inr (platform_system (c_world c)))). Qed.

Lemma exec_decode b c :
  exec (decode b) c
       (match decode_utf8 b with Some t => inr t | None => inl UnicodeDecodeError end) c [].
Proof.
  unfold decode. destruct (decode_utf8 b); [apply exec_ret | apply exec_raise].
Qed.

Lemma exec_set_files fs c :
  exec (set_files fs) c (inr tt) (Core fs (c_world c) (c_cwd c)) [].
Proof. intros con tr. exists []. unfold set_files. cbn. by rewrite !app_nil_r. Qed.

Lemma exec_read_text path c :
  exec (read_text path) c
       (match io_fault (c_world c) (IoRead path) with
        | Some e => inl e
        | None =>
            match c_files c !! locate (c_world c) (c_cwd c) path with
            | Some content => inr (PyStr.universal_newlines content)
            | None => inl (open_error (c_world c) (c_cwd c) path)
            end
        end) c [].
Proof.
  apply (exec_pure (fun c => match io_fault (c_world c) (IoRead path) with
        | Some e => inl e
        | None =>
            match c_files c !! locate (c_world c) (c_cwd c) path with
            | Some content => inr (PyStr.universal_newlines content)
            | None => inl (open_error (c_world c) (c_cwd c) path)
            end
        end)).
  intros s. unfold read_text, bind, host_check. cbn.
  destruct (io_fault _ _); [reflexivity|]. by destruct (files s !! _).
Qed.

Lemma exec_write_text path content c :
  io_fault (c_world c) (IoWrite path) = None ->
  exec (write_text path content) c (inr tt)
       (Core (<[locate (c_world c) (c_cwd c) path :=
                  PyStr.write_newlines (os_linesep (platform_system (c_world c))) content]>
                (c_files c))
             (c_world c) (c_cwd c)) [].
Proof.
  intros Hio con tr. exists []. unfold write_text, bind, host_check, set_files. unfold mk_state; cbn [files world cwd console trace c_files c_world c_cwd].
  rewrite Hio. by rewrite !app_nil_r.
Qed.

Lemma exec_write_text_fault path content c e :
  io_fault (c_world c) (IoWrite path) = Some e ->
  exec (write_text path content) c (inl e) c [].
Proof.
  intros Hio con tr. exists []. unfold write_text, bind, host_check. unfold mk_state; cbn [files world cwd console trace c_files c_world c_cwd].
  rewrite Hio, !app_nil_r. by destruct c.
Qed.

Lemma exec_copyfile src dst c content :
  io_fault (c_world c) (IoCopy src dst) = None ->
  c_files c !! locate (c_world c) (c_cwd c) src = Some content ->
  exec (shutil_copyfile src dst) c (inr tt)
       (Core (<[locate (c_world c) (c_cwd c) dst := content]> (c_files c))
             (c_world c) (c_cwd c)) [].
Proof.
  intros Hio Hsrc con tr. exists []. unfold shutil_copyfile, bind, host_check, set_files. unfold mk_state; cbn [files world cwd console trace c_files c_world c_cwd].
  rewrite Hio; cbn [files world cwd console trace c_files c_world c_cwd]; rewrite Hsrc. by rewrite !app_nil_r.
Qed.

Lemma exec_copyfile_fault src dst c :
  (exists e, io_fault (c_world c) (IoCopy src dst) = Some e) \/
  c_files c !! locate (c_world c) (c_cwd c) src = None ->
  exists e, exec (shutil_copyfile src dst) c (inl e) c [].
Proof.
  intros Hf.
  destruct (io_fault (c_world c) (IoCopy src dst)) as [e|] eqn:Hio.
  - exists e. intros con tr. exists [].
    unfold shutil_copyfile, bind, host_check. unfold mk_state; cbn [files world cwd console trace c_files c_world c_cwd]. rewrite Hio, !app_nil_r. by destruct c.
  - destruct Hf as [[e Hm]|Hsrc]; [discriminate|].
    eexists. intros con tr. exists [].
    unfold shutil_copyfile, bind, host_check. unfold mk_state; cbn [files world cwd console trace c_files c_world c_cwd]. rewrite Hio; cbn [files world cwd console trace c_files c_world c_cwd]; rewrite Hsrc, !app_nil_r.
    by destruct c.
Qed.

Lemma exec_cast {A} (m : M A) c r r' c' evs evs' :
  exec m c r c' evs -> r = r' -> evs = evs' -> exec m c r' c' evs'.
Proof. by intros ? <- <-. Qed.

Lemma exec_subprocess_run argv dir check c fs w out :
  spawn argv (match dir with Some d => d :: c_cwd c | None => c_cwd c end)
        (c_files c) (c_world c) = (fs, w, out) ->
  exec (subprocess_run argv dir check) c
       (match out with
        | NotStarted msg => inl (OSError msg)
        | Exited rc o e =>
            if check && negb (rc =? 0) then inl (CalledProcessError rc argv o e)
            else inr {| returncode := rc; stdout := o; stderr := e |}
        end)
       (Core fs w (c_cwd c)) [Spawned argv out].
Proof.
  intros Hs. unfold subprocess_run.
  eapply exec_weaken.
  - eapply exec_bind; [by apply exec_start_process|].
    destruct out as [rc o e|msg]; [destruct (check && negb (rc =? 0))|];
      first [apply exec_raise | apply exec_ret].
  - reflexivity.
Qed.

Lemma exec_when_print b line c : exec (when b (print line)) c (inr tt) c [].
Proof. destruct b; [apply exec_print | apply exec_ret]. Qed.

Lemma exec_run_command cmd dir desc c fs w out :
  spawn cmd (match dir with Some d => d :: c_cwd c | None => c_cwd c end)
        (c_files c) (c_world c) = (fs, w, out) ->
  exec (run_command cmd dir desc) c (run_result cmd out)
       (Core fs w (c_cwd c)) [Spawned cmd out].
Proof.
  intros Hs. unfold run_command.
  eapply exec_weaken; [|reflexivity].
  eapply (exec_bind _ _ _ _ _ []); [apply exec_when_print|].
  eapply (exec_bind _ _ _ _ _ []); [apply exec_print|].
  pose proof (exec_subprocess_run cmd dir true c fs w out Hs) as Hrun.
  destruct out as [rc o e|msg]; cbn [run_result andb] in *.
  - destruct (rc =? 0); cbn [negb] in Hrun.
    + apply exec_try. eapply exec_weaken.
      * eapply exec_bind; [exact Hrun|].
        eapply (exec_bind _ _ _ _ _ []); [apply exec_when_print | apply exec_ret].
      * reflexivity.
    + eapply exec_weaken.
      * eapply exec_try_caught; [by apply exec_bind_raise | reflexivity |].
        eapply (exec_bind _ _ _ _ _ []); [apply exec_print|].
        eapply (exec_bind _ _ _ _ _ []); [|apply exec_raise].
        eapply (exec_bind _ _ _ _ _ []); [apply exec_print|].
        eapply (exec_bind _ _ _ _ _ []); [apply exec_print|].
        eapply (exec_bind _ _ _ _ _ []); apply exec_when_print.
      * reflexivity.
  - apply exec_try_pass; [by apply exec_bind_raise | reflexivity].
Qed.

Lemma call_run_command_described cmd d :
  call_run_command cmd [("description", ArgStr d)] = run_command cmd None (Some d).
Proof. reflexivity. Qed.

Lemma call_run_command_plain cmd : call_run_command cmd [] = run_command cmd None None.
Proof. reflexivity. Qed.

(** [run_command] has no parameter [check]: a call that passes it raises
    before anything is run. *)
Lemma call_run_command_check cmd d b :
  call_run_command cmd [("description", ArgStr d); ("check", ArgBool b)] =
  raise (TypeError "run_command() got an unexpected keyword argument 'check'").
Proof. reflexivity. Qed.

(** *** Events of a computation, whatever it meets *)

Section Sound.
Context (P : event -> Prop).

Lemma sound_of_exec {A} (m : M A) :
  (forall c, exists r, exec m c r c []) -> sound P m.
Proof. intros Hm c. destruct (Hm c) as [r Hr]. by exists r, c, []. Qed.

Lemma sound_ret {A} (a : A) : sound P (ret a).
Proof. apply sound_of_exec. intros c. eexists. apply exec_ret. Qed.

Lemma sound_raise {A} e : sound P (@raise _ A e).
Proof. apply sound_of_exec. intros c. eexists. apply exec_raise. Qed.

Lemma sound_print line : sound P (print line).
Proof. apply sound_of_exec. intros c. eexists. apply exec_print. Qed.

Lemma sound_os_path_exists path : sound P (os_path_exists path).
Proof. apply sound_of_exec. intros c. eexists. apply exec_os_path_exists. Qed.

Lemma sound_platform : sound P platform_system_call.
Proof. apply sound_of_exec. intros c. eexists. apply exec_platform. Qed.

Lemma sound_flavour : sound P os_path_flavour.
Proof. apply sound_of_exec. intros c. eexists. apply exec_flavour. Qed.

Lemma sound_decode b : sound P (decode b).
Proof. apply sound_of_exec. intros c. eexists. apply exec_decode. Qed.

Lemma sound_read_text path : sound P (read_text path).
Proof. apply sound_of_exec. intros c. eexists. apply exec_read_text. Qed.

Lemma sound_bind {A B} (m : M A) (k : A -> M B) :
  sound P m -> (forall a, sound P (k a)) -> sound P (bind m k).
Proof.
  intros Hm Hk c. destruct (Hm c) as ([e|a] & c1 & e1 & H1 & F1).
  - exists (inl e), c1, e1. split; [by apply exec_bind_raise | done].
  - destruct (Hk a c1) as (r & c2 & e2 & H2 & F2).
    exists r, c2, (e1 ++ e2). split; [by eapply exec_bind | by apply Forall_app].
Qed.

Lemma sound_try {A} (body : M A) cl h :
  sound P body -> (forall e, sound P (h e)) -> sound P (try_except body cl h).
Proof.
  intros Hb Hh c. destruct (Hb c) as ([e|a] & c1 & e1 & H1 & F1).
  - destruct (cl e) eqn:Hc.
    + destruct (Hh e c1) as (r & c2 & e2 & H2 & F2).
      exists r, c2, (e1 ++ e2). split; [by eapply exec_try_caught | by apply Forall_app].
    + exists (inl e), c1, e1. split; [by apply exec_try_pass | done].
  - exists (inr a), c1, e1. split; [by apply exec_try | done].
Qed.

Lemma sound_when b m : sound P m -> sound P (when b m).
Proof. intros Hm. destruct b; [exact Hm | apply sound_ret]. Qed.

Lemma sound_for_each {A} (l : list A) body :
  (forall x, sound P (body x)) -> sound P (for_each l body).
Proof.
  intros Hb. induction l as [|x l IH]; cbn [for_each].
  - apply sound_ret.
  - apply sound_bind; [apply Hb | intros _; exact IH].
Qed.

Lemma sound_for_fold {A B} (l : list A) (acc : B) body :
  (forall x b, sound P (body x b)) -> sound P (for_fold l acc body).
Proof.
  intros Hb. revert acc. induction l as [|x l IH]; intros acc; cbn [for_fold].
  - apply sound_ret.
  - apply sound_bind; [apply Hb | intros b; apply IH].
Qed.

Lemma sound_log_event ev : P ev -> sound P (log_event ev).
Proof.
  intros Hev c. exists (inr tt), c, [ev]. split; [apply exec_log_event | by constructor].
Qed.

Lemma sound_host_check op : sound P (host_check op).
Proof. apply sound_of_exec. intros c. eexists. apply exec_host_check. Qed.

Lemma sound_os_chdir path : sound P (os_chdir path).
Proof.
  unfold os_chdir. apply sound_bind; [apply sound_host_check|].
  intros _ c. eexists (inr tt), (Core _ _ _), []. split; [|done].
  intros con tr. exists []. cbn. by rewrite !app_nil_r.
Qed.

Lemma sound_write_text path content : sound P (write_text path content).
Proof.
  intros c. destruct (io_fault (c_world c) (IoWrite path)) eqn:Hio.
  - eexists _, _, []. split; [by eapply exec_write_text_fault | done].
  - eexists _, _, []. split; [by eapply exec_write_text | done].
Qed.

Lemma sound_copyfile src dst : sound P (shutil_copyfile src dst).
Proof.
  intros c. destruct (io_fault (c_world c) (IoCopy src dst)) as [e0|] eqn:Hio.
  - destruct (exec_copyfile_fault src dst c) as [e He]; [left; eauto|].
    by exists (inl e), c, [].
  - destruct (c_files c !! locate (c_world c) (c_cwd c) src) eqn:Hsrc.
    + eexists _, _, []. split; [by eapply exec_copyfile | done].
    + destruct (exec_copyfile_fault src dst c) as [e He]; [by right|].
      by exists (inl e), c, [].
Qed.

Lemma sound_subprocess_run argv dir check :
  (forall out, P (Spawned argv out)) -> sound P (subprocess_run argv dir check).
Proof.
  intros HP c.
  destruct (spawn argv (match dir with Some d => d :: c_cwd c | None => c_cwd c end)
                  (c_files c) (c_world c)) as [[fs w] out] eqn:Hs.
  eexists _, _, _. split; [by eapply exec_subprocess_run|].
  by repeat constructor.
Qed.

Lemma sound_run_command cmd dir desc :
  (forall out, P (Spawned cmd out)) -> sound P (run_command cmd dir desc).
Proof.
  intros HP c.
  destruct (spawn cmd (match dir with Some d => d :: c_cwd c | None => c_cwd c end)
                  (c_files c) (c_world c)) as [[fs w] out] eqn:Hs.
  eexists _, _, _. split; [by eapply exec_run_command|].
  by repeat constructor.
Qed.

Lemma sound_call_run_command cmd kwargs :
  (forall out, P (Spawned cmd out)) -> sound P (call_run_command cmd kwargs).
Proof.
  intros HP. unfold call_run_command.
  destruct (find _ kwargs) as [[k v]|]; [apply sound_raise | by apply sound_run_command].
Qed.

Lemma sound_check_output argv :
  (forall out, P (Spawned argv out)) -> sound P (subprocess_check_output argv).
Proof.
  intros HP. unfold subprocess_check_output.
  apply sound_bind; [by apply sound_subprocess_run | intros r; apply sound_ret].
Qed.

End Sound.

(** *** Cleanup *)

Lemma remove_if_running_noop container_name s :
  remove_if_running container_name s = (inr tt, s).
Proof. reflexivity. Qed.

Lemma for_each_noop {A} (l : list A) body s :
  (forall x s, body x s = (inr tt, s)) -> for_each l body s = (inr tt, s).
Proof.
  intros Hb. induction l as [|x l IH]; [reflexivity|].
  cbn [for_each]. unfold bind. by rewrite Hb.
Qed.

Lemma remove_if_exists_note container n s :
  remove_if_exists container n s =
  (inr n, {| files := files s; world := world s; cwd := cwd s;
             console := console s ++
               ["Note: Could not process " +:+ container +:+ ": " +:+
                "run_command() got an unexpected keyword argument 'check'"];
             trace := trace s |}).
Proof. reflexivity. Qed.

Lemma exec_remove_if_exists container n c :
  exec (remove_if_exists container n) c (inr n) c [].
Proof.
  intros con tr. eexists. rewrite remove_if_exists_note.
  unfold mk_state; cbn [files world cwd console trace].
  rewrite (app_nil_r tr). reflexivity.
Qed.

Lemma exec_for_fold_remove l n c :
  exec (for_fold l n remove_if_exists) c (inr n) c [].
Proof.
  induction l as [|x l IH]; cbn [for_fold]; [apply exec_ret|].
  eapply (exec_bind _ _ _ _ _ []); [apply exec_remove_if_exists | exact IH].
Qed.

Lemma exec_comprehensive_cleanup c fs w out :
  spawn prune_cmd (c_cwd c) (c_files c) (c_world c) = (fs, w, out) ->
  exec comprehensive_cleanup c (inr tt) (Core fs w (c_cwd c)) [Spawned prune_cmd out].
Proof.
  intros Hs. unfold comprehensive_cleanup.
  eapply exec_weaken; [|reflexivity].
  eapply (exec_bind _ _ _ _ _ []); [apply exec_print|].
  eapply (exec_bind _ _ _ _ _ []); [apply exec_for_fold_remove|].
  eapply (exec_bind _ _ _ _ _ []); [apply exec_print|].
  rewrite call_run_command_described.
  pose proof (exec_run_command prune_cmd None
    (Some "Clean up unused Docker networks") c fs w out Hs) as Hrun.
  destruct (run_result prune_cmd out) as [e|r] eqn:Hr.
  - eapply exec_cast.
    + eapply exec_try_caught;
        [apply exec_bind_raise; exact Hrun | reflexivity | apply exec_ret].
    + reflexivity.
    + by rewrite app_nil_r.
  - apply exec_try. eapply exec_cast.
    + eapply exec_bind; [exact Hrun | apply exec_ret].
    + reflexivity.
    + by rewrite app_nil_r.
Qed.

(** *** Startup of the dependent stack *)

Lemma exec_then_unit {A} (m : M A) c r c' evs :
  exec m c r c' evs -> exec (bind m (fun _ => ret tt)) c (unit_result r) c' evs.
Proof.
  intros Hm. destruct r as [e|a]; cbn [unit_result].
  - by apply exec_bind_raise.
  - eapply exec_weaken; [eapply exec_bind; [exact Hm | apply exec_ret]|].
    by rewrite app_nil_r.
Qed.

Lemma run_result_failed cmd rc o e :
  rc <> 0 -> run_result cmd (Exited rc o e) = inl (CalledProcessError rc cmd o e).
Proof. intros Hrc. cbn. by destruct (Z.eqb_spec rc 0). Qed.

Lemma exec_start_local_ai_once profile environment c fs w out :
  spawn (local_ai_cmd profile environment) (c_cwd c) (c_files c) (c_world c) = (fs, w, out) ->
  (forall rc o e, out = Exited rc o e -> rc = 0) ->
  exec (start_local_ai profile environment) c
       (unit_result (run_result (local_ai_cmd profile environment) out))
       (Core fs w (c_cwd c)) [Spawned (local_ai_cmd profile environment) out].
Proof.
  intros Hs Hout. unfold start_local_ai. cbv zeta.
  rewrite !call_run_command_described.
  eapply (exec_bind _ _ _ _ _ []); [apply exec_print|].
  pose proof (exec_then_unit _ _ _ _ _
    (exec_run_command _ None (Some "Start local AI services") c fs w out Hs)) as Hrun.
  destruct out as [rc o e|msg].
  - rewrite (Hout rc o e eq_refl) in *. by apply exec_try.
  - by apply exec_try_pass.
Qed.

Lemma exec_start_local_ai_retry profile environment c
      rc1 o1 e1 fs1 w1 fs2 w2 out2 fs3 w3 out3 :
  let cmd := local_ai_cmd profile environment in
  spawn cmd (c_cwd c) (c_files c) (c_world c) = (fs1, w1, Exited rc1 o1 e1) ->
  rc1 <> 0 ->
  spawn prune_cmd (c_cwd c) fs1 w1 = (fs2, w2, out2) ->
  spawn cmd (c_cwd c) fs2 w2 = (fs3, w3, out3) ->
  exec (start_local_ai profile environment) c
       (unit_result (run_result cmd out3))
       (Core fs3 w3 (c_cwd c))
       [Spawned cmd (Exited rc1 o1 e1); Spawned prune_cmd out2; Spawned cmd out3].
Proof.
  intros cmd Hs1 Hrc Hs2 Hs3. unfold start_local_ai. cbv zeta. fold cmd.
  rewrite !call_run_command_described.
  eapply (exec_bind _ _ _ _ _ []); [apply exec_print|].
  pose proof (exec_then_unit _ _ _ _ _
    (exec_run_command cmd None (Some "Start local AI services") c _ _ _ Hs1)) as Hrun.
  rewrite run_result_failed in Hrun by done. cbn [unit_result] in Hrun.
  eapply exec_weaken.
  - eapply exec_try_caught; [exact Hrun | reflexivity |].
    eapply (exec_bind _ _ _ _ _ []); [apply exec_print|].
    eapply exec_bind; [by apply (exec_comprehensive_cleanup (Core fs1 w1 (c_cwd c)))|].
    eapply (exec_bind _ _ _ _ _ []); [apply exec_print|].
    apply exec_then_unit.
    by apply (exec_run_command cmd None _ (Core fs2 w2 (c_cwd c))).
  - reflexivity.
Qed.

(** *** The events of each stage *)

Ltac sound_step :=
  lazymatch goal with
  | |- sound _ (bind _ _) => apply sound_bind; [|intros ?]
  | |- sound _ (ret _) => apply sound_ret
  | |- sound _ (raise _) => apply sound_raise
  | |- sound _ (print _) => apply sound_print
  | |- sound _ (when _ _) => apply sound_when
  | |- sound _ (try_except _ _ _) => apply sound_try; [|intros ?]
  | |- sound _ (for_each _ _) => apply sound_for_each; intros ?
  | |- sound _ (for_fold _ _ _) => apply sound_for_fold; intros ? ?
  | |- sound _ (os_path_exists _) => apply sound_os_path_exists
  | |- sound _ (os_chdir _) => apply sound_os_chdir
  | |- sound _ (read_text _) => apply sound_read_text
  | |- sound _ (write_text _ _) => apply sound_write_text
  | |- sound _ (shutil_copyfile _ _) => apply sound_copyfile
  | |- sound _ platform_system_call => apply sound_platform
  | |- sound _ os_path_flavour => apply sound_flavour
  | |- sound _ (decode _) => apply sound_decode
  | |- sound _ (call_run_command _ _) => apply sound_call_run_command; intros ?
  | |- sound _ (subprocess_run _ _ _) => apply sound_subprocess_run; intros ?
  | |- sound _ (subprocess_check_output _) => apply sound_check_output; intros ?
  | |- sound _ (if ?b then _ else _) => destruct b
  | |- sound _ (match ?x with _ => _ end) => destruct x
  end.

Ltac sound_auto := repeat sound_step; try reflexivity.

Lemma calm_clone : sound calm clone_supabase_repo.
Proof. unfold clone_supabase_repo. sound_auto. Qed.

Lemma calm_prepare : sound calm prepare_supabase_env.
Proof. unfold prepare_supabase_env. cbv zeta. sound_auto. Qed.

Lemma calm_generate : sound calm generate_searxng_secret_key.
Proof.
  unfold generate_searxng_secret_key, substitute_secret, report_substitution_failure.
  sound_auto.
Qed.

Lemma calm_detect : sound calm detect_first_run.
Proof. unfold detect_first_run. sound_auto. Qed.

Lemma calm_check_and_fix : sound calm check_and_fix_docker_compose_for_searxng.
Proof.
  unfold check_and_fix_docker_compose_for_searxng. cbv zeta.
  repeat first [apply calm_detect | sound_step].
Qed.

Lemma calm_check_existing : sound calm check_existing_containers.
Proof. unfold check_existing_containers. sound_auto. Qed.

Lemma calm_cleanup_stray : sound calm cleanup_stray_containers.
Proof.
  unfold cleanup_stray_containers, remove_listed, remove_if_running. cbv zeta.
  sound_auto.
Qed.

Lemma stop_cmd_calm profile : is_compose_up (stop_cmd profile) = false.
Proof. unfold stop_cmd. cbv zeta. by destruct (_ && _). Qed.

Lemma calm_stop profile : sound calm (stop_existing_containers profile).
Proof.
  unfold stop_existing_containers. cbv zeta.
  repeat first [apply calm_cleanup_stray | sound_step]; apply stop_cmd_calm.
Qed.

Lemma calm_preparation profile : sound calm (preparation profile).
Proof.
  unfold preparation.
  repeat first [apply calm_clone | apply calm_prepare | apply calm_generate
               | apply calm_check_and_fix | apply calm_check_existing
               | apply calm_stop | sound_step].
Qed.

(** *** The pipeline *)

Lemma main_after_supabase profile environment s :
  main profile environment s =
  bind (supabase_started profile environment) (fun _ =>
  bind (print "Waiting for Supabase to initialize...") (fun _ =>
  bind (time_sleep 10) (fun _ =>
  start_local_ai (Some profile) (Some environment)))) s.
Proof.
  unfold main, supabase_started, preparation, bind.
  destruct (clone_supabase_repo s) as [[?|[]] s1]; [reflexivity|].
  destruct (prepare_supabase_env s1) as [[?|[]] s2]; [reflexivity|].
  destruct (generate_searxng_secret_key s2) as [[?|[]] s3]; [reflexivity|].
  destruct (check_and_fix_docker_compose_for_searxng s3) as [[?|[]] s4]; [reflexivity|].
  destruct (check_existing_containers s4) as [[?|[]] s5]; [reflexivity|].
  destruct (stop_existing_containers (Some profile) s5) as [[?|[]] s6]; [reflexivity|].
  destruct (start_supabase (Some environment) s6) as [[?|[]] s7]; reflexivity.
Qed.

Lemma main_after_settling profile environment s :
  main profile environment s =
  bind (settled profile environment) (fun _ =>
  start_local_ai (Some profile) (Some environment)) s.
Proof.
  rewrite main_after_supabase. unfold settled, bind.
  destruct (supabase_started profile environment s) as [[?|[]] s1]; [reflexivity|].
  destruct (print _ s1) as [[?|[]] s2]; [reflexivity|].
  destruct (time_sleep 10 s2) as [[?|[]] s3]; reflexivity.
Qed.

Lemma exec_ext {A} (m m' : M A) c r c' evs :
  (forall s, m s = m' s) -> exec m' c r c' evs -> exec m c r c' evs.
Proof. intros Hm He con tr. rewrite Hm. apply He. Qed.

Lemma exec_start_supabase environment c fs w out :
  spawn (supabase_cmd environment) (c_cwd c) (c_files c) (c_world c) = (fs, w, out) ->
  exec (start_supabase environment) c
       (unit_result (run_result (supabase_cmd environment) out))
       (Core fs w (c_cwd c)) [Spawned (supabase_cmd environment) out].
Proof.
  intros Hs. unfold start_supabase. rewrite call_run_command_described.
  eapply (exec_bind _ _ _ _ _ []); [apply exec_print|].
  apply exec_then_unit. by apply exec_run_command.
Qed.





Lemma exec_run {A} (m : M A) s r c' evs :
  exec m (core_of s) r c' evs ->
  result_of m s = r /\ core_of (state_after m s) = c' /\
  trace (state_after m s) = trace s ++ evs.
Proof.
  intros He. destruct (exec_at _ _ _ _ _ He) as [l E].
  unfold result_of, state_after. rewrite E. by destruct c'.
Qed.

(** ** The claims about the two startup commands *)

(** The events of [comprehensive_cleanup]: the one process it starts is
    [docker network prune -f]. *)
Lemma comprehensive_cleanup_trace s fs w out :
  spawn prune_cmd (cwd s) (files s) (world s) = (fs, w, out) ->
  result_of comprehensive_cleanup s = inr tt /\
  trace (state_after comprehensive_cleanup s) = trace s ++ [Spawned prune_cmd out].
Proof.
  intros Hs.
  destruct (exec_run _ s _ _ _ (exec_comprehensive_cleanup (core_of s) fs w out Hs))
    as (Hr & _ & Ht).
  exact (conj Hr Ht).
Qed.

(** C7. When the first [up -d] of the local AI stack exits with a non-zero
    status, [start_local_ai] runs [comprehensive_cleanup] (whose one process is
    the network prune) and then the same command once more: the trace shows
    exactly two attempts with the cleanup between them.  The result is that of
    the second attempt; when it fails as well the [CalledProcessError] leaves
    [start_local_ai], nothing in [main] catches it, and the interpreter exits
    with status 1. *)
Theorem start_local_ai_retries_once
    profile environment s rc1 o1 e1 fs1 w1 fs2 w2 out2 fs3 w3 out3 :
  let cmd := local_ai_cmd profile environment in
  spawn cmd (cwd s) (files s) (world s) = (fs1, w1, Exited rc1 o1 e1) ->
  rc1 <> 0 ->
  spawn prune_cmd (cwd s) fs1 w1 = (fs2, w2, out2) ->
  spawn cmd (cwd s) fs2 w2 = (fs3, w3, out3) ->
  trace (state_after (start_local_ai profile environment) s) =
    trace s ++ [Spawned cmd (Exited rc1 o1 e1); Spawned prune_cmd out2; Spawned cmd out3] /\
  (forall s', core_of s' = Core fs1 w1 (cwd s) ->
     trace (state_after comprehensive_cleanup s') = trace s' ++ [Spawned prune_cmd out2]) /\
  result_of (start_local_ai profile environment) s = unit_result (run_result cmd out3) /\
  (forall rc3 o3 e3, out3 = Exited rc3 o3 e3 -> rc3 <> 0 ->
     result_of (start_local_ai profile environment) s =
       inl (CalledProcessError rc3 cmd o3 e3) /\
     forall p0 e0 s0, profile = Some p0 -> environment = Some e0 ->
       settled p0 e0 s0 = (inr tt, s) ->
       result_of (main p0 e0) s0 = inl (CalledProcessError rc3 cmd o3 e3) /\
       exit_status (result_of (main p0 e0) s0) = 1).
Proof.
  intros cmd Hs1 Hrc Hs2 Hs3.
  destruct (exec_run _ s _ _ _
    (exec_start_local_ai_retry profile environment (core_of s)
       rc1 o1 e1 fs1 w1 fs2 w2 out2 fs3 w3 out3 Hs1 Hrc Hs2 Hs3)) as (Hr & _ & Ht).
  fold cmd in Hr, Ht.
  split; [exact Ht|]. split; [|split; [exact Hr|]].
  - intros s' Hs'. apply (comprehensive_cleanup_trace s' fs2 w2 out2).
    injection Hs' as -> -> ->. exact Hs2.
  - intros rc3 o3 e3 -> Hrc3.
    rewrite run_result_failed in Hr by exact Hrc3. cbn [unit_result] in Hr.
    split; [exact Hr|].
    intros p0 e0 s0 -> -> Hset.
    assert (Hm : result_of (main p0 e0) s0 = inl (CalledProcessError rc3 cmd o3 e3)).
    { unfold result_of in *. rewrite main_after_settling. unfold bind.
      rewrite Hset. exact Hr. }
    rewrite Hm. split; reflexivity.
Qed.


(** The processes of [start_local_ai]: its command once, or its command, the
    network pruning of the cleanup, and its command again. *)
Lemma start_local_ai_events profile environment c :
  let cmd := local_ai_cmd profile environment in
  exists r c' evs,
    exec (start_local_ai profile environment) c r c' evs /\
    ((exists out, evs = [Spawned cmd out]) \/
     (exists out1 out2 out3,
        evs = [Spawned cmd out1; Spawned prune_cmd out2; Spawned cmd out3])).
Proof.
  intros cmd. unfold cmd.
  destruct (spawn (local_ai_cmd profile environment) (c_cwd c) (c_files c) (c_world c))
    as [[fs1 w1] out1] eqn:Hs1.
  assert (Hcase : (forall rc o e, out1 = Exited rc o e -> rc = 0) \/
                  exists rc o e, out1 = Exited rc o e /\ rc <> 0).
  { destruct out1 as [rc o e|msg].
    - destruct (Z.eq_dec rc 0) as [->|Hrc]; [left; congruence | right; eauto].
    - left. discriminate. }
  destruct Hcase as [Hok|(rc & o & e & -> & Hrc)].
  - eexists _, _, _. split; [by apply exec_start_local_ai_once|]. left. by eexists.
  - destruct (spawn prune_cmd (c_cwd c) fs1 w1) as [[fs2 w2] out2] eqn:Hs2.
    destruct (spawn (local_ai_cmd profile environment) (c_cwd c) fs2 w2)
      as [[fs3 w3] out3] eqn:Hs3.
    eexists _, _, _. split; [by eapply exec_start_local_ai_retry|].
    right. by eexists _, _, _.
Qed.

(** C6. For the environments [private] and [public] the command of
    [start_local_ai] names, after the base file, exactly one override file,
    the one of the environment; the command of [start_supabase] names its
    public override when and only when the environment is [public].  These
    are the commands the two functions start: [start_local_ai] starts its
    command once, or twice with the network pruning of its cleanup in
    between, and nothing else; [start_supabase] starts its command once and
    nothing else. *)
Theorem override_files profile environment :
  In profile profile_choices -> In environment environment_choices ->
  flag_values "-f" (local_ai_cmd (Some profile) (Some environment)) =
    ["docker-compose.yml"; "docker-compose.override." +:+ environment +:+ ".yml"] /\
  flag_values "-f" (supabase_cmd (Some environment)) =
    "supabase/docker/docker-compose.yml" ::
    (if String.eqb environment "public"
     then ["docker-compose.override.public.supabase.yml"] else []) /\
  (forall env : option string,
     In "docker-compose.override.public.supabase.yml" (supabase_cmd env) <->
     env = Some "public") /\
  (forall s, exists evs,
     trace (state_after (start_local_ai (Some profile) (Some environment)) s) =
       trace s ++ evs /\
     ((exists out, evs = [Spawned (local_ai_cmd (Some profile) (Some environment)) out]) \/
      (exists out1 out2 out3,
         evs = [Spawned (local_ai_cmd (Some profile) (Some environment)) out1;
                Spawned prune_cmd out2;
                Spawned (local_ai_cmd (Some profile) (Some environment)) out3]))) /\
  (forall s, exists out,
     trace (state_after (start_supabase (Some environment)) s) =
       trace s ++ [Spawned (supabase_cmd (Some environment)) out]).
Proof.
  intros Hp He. split; [|split; [|split; [|split]]].
  4:{ intros s.
      destruct (start_local_ai_events (Some profile) (Some environment) (core_of s))
        as (r & c' & evs & Hex & Hev).
      exists evs. split; [|exact Hev].
      by destruct (exec_run _ s _ _ _ Hex) as (_ & _ & Ht). }
  4:{ intros s.
      destruct (spawn (supabase_cmd (Some environment)) (cwd s) (files s) (world s))
        as [[fs w] out] eqn:Hs.
      exists out.
      pose proof (exec_start_supabase (Some environment) (core_of s) fs w out Hs) as Hex.
      by destruct (exec_run _ s _ _ _ Hex) as (_ & _ & Ht). }
  - cbn in Hp, He.
    destruct Hp as [<-|[<-|[<-|[<-|[]]]]], He as [<-|[<-|[]]]; by vm_compute.
  - cbn in He. destruct He as [<-|[<-|[]]]; by vm_compute.
  - intros env. unfold supabase_cmd. cbv zeta.
    destruct env as [e|]; cbn [PyStr.truthy_opt default]; unfold id.
    + destruct (String.eqb_spec e "public") as [->|Hne].
      * split; [done|]. intros _. cbn. tauto.
      * rewrite andb_false_r. split; [|congruence].
        cbn. intros [?|[?|[?|[?|[?|[?|[?|[?|[]]]]]]]]]; discriminate.
    + split; [|discriminate].
      cbn. intros [?|[?|[?|[?|[?|[?|[?|[?|[]]]]]]]]]; discriminate.
Qed.


(** ** The compose patch *)

(** What [detect_first_run] concludes from the output of the probe. *)
Lemma exec_detect_listing c fs w out :
  spawn listing_cmd (c_cwd c) (c_files c) (c_world c) = (fs, w, out) ->
  match out with
  | Exited rc o _ => rc <> 0 \/ listed o = []
  | NotStarted _ => True
  end ->
  exec detect_first_run c (inr true) (Core fs w (c_cwd c)) [Spawned listing_cmd out].
Proof.
  intros Hs Hout. unfold detect_first_run.
  pose proof (exec_subprocess_run listing_cmd None true c fs w out Hs) as Hrun.
  destruct out as [rc o e|msg].
  - destruct (Z.eqb_spec rc 0) as [->|Hrc].
    + destruct Hout as [Hne|Hl]; [done|].
      cbn [andb negb Z.eqb] in Hrun. apply exec_try.
      eapply exec_cast; [eapply exec_bind; [exact Hrun|] | reflexivity | reflexivity].
      cbn [stdout]. unfold listed in Hl. rewrite Hl.
      eapply (exec_bind _ _ _ _ _ []); [apply exec_print | apply exec_ret].
    + cbn [andb negb] in Hrun.
      eapply exec_cast; [|reflexivity | apply app_nil_r].
      eapply exec_try_caught; [apply exec_bind_raise; exact Hrun | reflexivity |].
      eapply (exec_bind _ _ _ _ _ []); [apply exec_print | apply exec_ret].
  - eapply exec_cast; [|reflexivity | apply app_nil_r].
    eapply exec_try_caught; [apply exec_bind_raise; exact Hrun | reflexivity |].
    eapply (exec_bind _ _ _ _ _ []); [apply exec_print | apply exec_ret].
Qed.

Lemma exec_detect_probe c fs w o e name rest fs' w' out' :
  spawn listing_cmd (c_cwd c) (c_files c) (c_world c) = (fs, w, Exited 0 o e) ->
  listed o = name :: rest ->
  spawn (probe_cmd name) (c_cwd c) fs w = (fs', w', out') ->
  exec detect_first_run c
       (inr (match out' with
             | Exited _ o' _ => negb (PyStr.contains "found" o')
             | NotStarted _ => true
             end))
       (Core fs' w' (c_cwd c))
       [Spawned listing_cmd (Exited 0 o e); Spawned (probe_cmd name) out'].
Proof.
  intros Hs Hl Hp. unfold detect_first_run.
  pose proof (exec_subprocess_run listing_cmd None true c fs w _ Hs) as Hrun.
  cbn [andb negb Z.eqb] in Hrun.
  pose proof (exec_subprocess_run (probe_cmd name) None false
                (Core fs w (c_cwd c)) fs' w' out' Hp) as Hprobe.
  cbn [andb] in Hprobe. unfold listed in Hl.
  destruct out' as [rc' o' e'|msg].
  - apply exec_try.
    eapply exec_cast; [eapply exec_bind; [exact Hrun|] | reflexivity | reflexivity].
    cbn [stdout]. rewrite Hl.
    eapply (exec_bind _ _ _ _ _ []); [apply exec_print|].
    eapply exec_cast; [eapply exec_bind; [exact Hprobe|] | reflexivity | apply app_nil_r].
    cbn [stdout]. destruct (PyStr.contains "found" o');
      (eapply (exec_bind _ _ _ _ _ []); [apply exec_print | apply exec_ret]).
  - eapply exec_cast; [|reflexivity|].
    + eapply exec_try_caught; [|reflexivity|].
      * eapply exec_bind; [exact Hrun|].
        cbn [stdout]. rewrite Hl.
        eapply (exec_bind _ _ _ _ _ []); [apply exec_print|].
        apply exec_bind_raise. exact Hprobe.
      * eapply (exec_bind _ _ _ _ _ []); [apply exec_print | apply exec_ret].
    + reflexivity.
Qed.

Lemma detect_without_found s :
  probe_without_found s ->
  exists c' evs, exec detect_first_run (core_of s) (inr true) c' evs /\
                 c_cwd c' = cwd s.
Proof.
  intros [fs w msg Hs|fs w rc o e Hs Hrc|fs w o e Hs Hl
         |fs w o e name rest fs' w' msg Hs Hl Hp
         |fs w o e name rest fs' w' rc o' e' Hs Hl Hp Hf].
  - eexists _, _. split; [by eapply (exec_detect_listing (core_of s))|reflexivity].
  - eexists _, _. split; [eapply (exec_detect_listing (core_of s)); [exact Hs|by left]|].
    reflexivity.
  - eexists _, _. split; [eapply (exec_detect_listing (core_of s)); [exact Hs|by right]|].
    reflexivity.
  - eexists _, _.
    split; [exact (exec_detect_probe (core_of s) _ _ _ _ _ _ _ _ _ Hs Hl Hp)|].
    reflexivity.
  - pose proof (exec_detect_probe (core_of s) _ _ _ _ _ _ _ _ _ Hs Hl Hp) as He.
    cbn in He. rewrite Hf in He.
    eexists _, _. split; [exact He | reflexivity].
Qed.

Lemma detect_with_found s :
  probe_with_found s ->
  exists c' evs, exec detect_first_run (core_of s) (inr false) c' evs /\
                 c_cwd c' = cwd s.
Proof.
  intros [fs w o e name rest fs' w' rc o' e' Hs Hl Hp Hf].
  pose proof (exec_detect_probe (core_of s) _ _ _ _ _ _ _ _ _ Hs Hl Hp) as He.
  cbn in He. rewrite Hf in He.
  eexists _, _. split; [exact He | reflexivity].
Qed.

(** [detect_first_run] always gives an answer, keeps the working directory
    and starts nothing but the container engine. *)
Lemma detect_total c :
  exists b c' evs, exec detect_first_run c (inr b) c' evs /\
    c_cwd c' = c_cwd c /\
    (docker_leaves_files -> c_files c' = c_files c).
Proof.
  destruct (spawn listing_cmd (c_cwd c) (c_files c) (c_world c)) as [[fs w] out] eqn:Hs.
  assert (Hfs : docker_leaves_files -> fs = c_files c).
  { intros Hd. specialize (Hd listing_cmd (c_cwd c) (c_files c) (c_world c) eq_refl).
    by rewrite Hs in Hd. }
  assert (Hcase : match out with
                  | Exited rc o _ => rc <> 0 \/ listed o = []
                  | NotStarted _ => True
                  end \/
                  exists o e name rest, out = Exited 0 o e /\ listed o = name :: rest).
  { destruct out as [rc o e|msg]; [|by left].
    destruct (Z.eq_dec rc 0) as [->|Hrc]; [|left; by left].
    destruct (listed o) as [|name rest] eqn:Hl; [left; by right|].
    right. by exists o, e, name, rest. }
  destruct Hcase as [Hout|(o & e & name & rest & -> & Hl)].
  - eexists _, _, _. split; [by apply exec_detect_listing|]. split; [reflexivity|exact Hfs].
  - destruct (spawn (probe_cmd name) (c_cwd c) fs w) as [[fs' w'] out'] eqn:Hp.
    eexists _, _, _. split; [by eapply exec_detect_probe|]. split; [reflexivity|].
    intros Hd. cbn. rewrite <- (Hfs Hd).
    specialize (Hd (probe_cmd name) (c_cwd c) fs w eq_refl). by rewrite Hp in Hd.
Qed.


(** Paths that hold no backslash are kept under their own name. *)
Lemma canonical_plain system path :
  PyStr.has_char PyStr.BACKSLASH path = false -> canonical system path = path.
Proof.
  intros Hp. unfold canonical. destruct (String.eqb system "Windows"); [|reflexivity].
  apply PyStrFacts.replace_absent. by rewrite PyStrFacts.contains_char.
Qed.

Lemma locate_plain w dir path :
  PyStr.has_char PyStr.BACKSLASH path = false -> locate w dir path = resolve dir path.
Proof. intros Hp. unfold locate. by rewrite canonical_plain. Qed.

Lemma os_linesep_cases system :
  os_linesep system = String PyStr.LF "" \/
  os_linesep system = String PyStr.CR (String PyStr.LF "").
Proof. unfold os_linesep. destruct (String.eqb system "Windows"); auto. Qed.

(** The two texts the patch looks for hold no line end, so it finds them in
    the text it reads exactly when the stored text holds them. *)
Lemma contains_directive_read content :
  PyStr.contains directive (PyStr.universal_newlines content) =
  PyStr.contains directive content.
Proof. by apply PyStrFacts.contains_universal_newlines. Qed.

Lemma contains_sentinel_read content :
  PyStr.contains sentinel (PyStr.universal_newlines content) =
  PyStr.contains sentinel content.
Proof. by apply PyStrFacts.contains_universal_newlines. Qed.

Lemma exec_check_and_fix c content b c1 evs :
  c_files c !! resolve (c_cwd c) docker_compose_path = Some content ->
  io_fault (c_world c) (IoRead docker_compose_path) = None ->
  exec detect_first_run c (inr b) c1 evs ->
  (b && PyStr.contains directive content
   || negb b && PyStr.contains sentinel content = true ->
   io_fault (c_world c1) (IoWrite docker_compose_path) = None) ->
  exec check_and_fix_docker_compose_for_searxng c (inr tt)
       (if b && PyStr.contains directive content then
          Core (<[resolve (c_cwd c1) docker_compose_path :=
                    PyStr.write_newlines (os_linesep (platform_system (c_world c1)))
                      (PyStr.replace (PyStr.universal_newlines content) directive sentinel)]>
                  (c_files c1))
               (c_world c1) (c_cwd c1)
        else if negb b && PyStr.contains sentinel content then
          Core (<[resolve (c_cwd c1) docker_compose_path :=
                    PyStr.write_newlines (os_linesep (platform_system (c_world c1)))
                      (PyStr.replace (PyStr.universal_newlines content) sentinel directive)]>
                  (c_files c1))
               (c_world c1) (c_cwd c1)
        else c1)
       evs.
Proof.
  intros Hfile Hread Hdetect Hwrite.
  unfold check_and_fix_docker_compose_for_searxng.
  pose proof (exec_os_path_exists docker_compose_path c) as Hex.
  rewrite (locate_plain _ _ docker_compose_path eq_refl), Hfile in Hex.
  eapply (exec_bind _ _ _ _ _ []); [exact Hex|]. cbn [negb].
  apply exec_try.
  pose proof (exec_read_text docker_compose_path c) as Hrd.
  rewrite (locate_plain _ _ docker_compose_path eq_refl), Hread, Hfile in Hrd.
  eapply (exec_bind _ _ _ _ _ []); [exact Hrd|].
  eapply exec_cast; [eapply exec_bind; [exact Hdetect|] | reflexivity | apply app_nil_r].
  rewrite contains_directive_read, contains_sentinel_read.
  destruct (b && PyStr.contains directive content) eqn:Hrelax.
  - eapply (exec_bind _ _ _ _ _ []); [apply exec_print|]. cbv zeta.
    eapply (exec_bind _ _ _ _ _ []); [|apply exec_print].
    rewrite <- (locate_plain (c_world c1) _ docker_compose_path eq_refl).
    apply exec_write_text. by apply Hwrite.
  - destruct (negb b && PyStr.contains sentinel content) eqn:Hharden.
    + eapply (exec_bind _ _ _ _ _ []); [apply exec_print|]. cbv zeta.
      rewrite <- (locate_plain (c_world c1) _ docker_compose_path eq_refl).
      apply exec_write_text. by apply Hwrite.
    + apply exec_ret.
Qed.

(** The two rewriting passes.  For a compose file that can be read and
    written: when the probe shows no [found] (the listing fails or is empty,
    the probe cannot be started, or it prints no text containing [found])
    and the file contains the directive, the file is rewritten with every
    occurrence of the directive replaced by the sentinel, and then contains
    the sentinel; when the probe prints a text containing [found] and the
    file contains the sentinel, the file is rewritten with every sentinel
    replaced by the directive, and then contains the directive.  The text
    that is rewritten is the text as it is read, every line end a line feed;
    it is stored with the line ends of the platform. *)
Theorem compose_patch_rewrites s content :
  let text := PyStr.universal_newlines content in
  let stored :=
    PyStr.write_newlines
      (os_linesep (platform_system (world (state_after detect_first_run s)))) in
  files s !! resolve (cwd s) docker_compose_path = Some content ->
  io_fault (world s) (IoRead docker_compose_path) = None ->
  io_fault (world (state_after detect_first_run s)) (IoWrite docker_compose_path) = None ->
  (probe_without_found s -> PyStr.contains directive content = true ->
   files (state_after check_and_fix_docker_compose_for_searxng s)
     !! resolve (cwd s) docker_compose_path =
     Some (stored (PyStr.replace text directive sentinel)) /\
   PyStr.contains sentinel (PyStr.replace text directive sentinel) = true) /\
  (probe_with_found s -> PyStr.contains sentinel content = true ->
   files (state_after check_and_fix_docker_compose_for_searxng s)
     !! resolve (cwd s) docker_compose_path =
     Some (stored (PyStr.replace text sentinel directive)) /\
   PyStr.contains directive (PyStr.replace text sentinel directive) = true).
Proof.
  intros text stored Hfile Hread Hwrite. subst text stored. split.
  - intros Hev Hin. split.
    2:{ apply PyStrFacts.contains_replace; [done|]. by rewrite contains_directive_read. }
    destruct (detect_without_found s Hev) as (c1 & evs & Hd & Hcwd).
    destruct (exec_run _ s _ _ _ Hd) as (_ & Hc1 & _).
    rewrite <- Hc1 in Hd, Hcwd.
    pose proof (exec_check_and_fix (core_of s) content true _ evs Hfile Hread Hd
                  (fun _ => Hwrite)) as Hck.
    cbn [andb] in Hck. rewrite Hin in Hck.
    destruct (exec_run _ s _ _ _ Hck) as (_ & Hc & _).
    apply (f_equal c_files) in Hc. cbn [c_files c_cwd c_world core_of] in Hc. rewrite Hc.
    cbn [c_cwd core_of] in Hcwd. rewrite Hcwd. apply lookup_insert_eq.
  - intros Hev Hin. split.
    2:{ apply PyStrFacts.contains_replace; [done|]. by rewrite contains_sentinel_read. }
    destruct (detect_with_found s Hev) as (c1 & evs & Hd & Hcwd).
    destruct (exec_run _ s _ _ _ Hd) as (_ & Hc1 & _).
    rewrite <- Hc1 in Hd, Hcwd.
    pose proof (exec_check_and_fix (core_of s) content false _ evs Hfile Hread Hd
                  (fun _ => Hwrite)) as Hck.
    cbn [andb negb] in Hck. rewrite Hin in Hck.
    destruct (exec_run _ s _ _ _ Hck) as (_ & Hc & _).
    apply (f_equal c_files) in Hc. cbn [c_files c_cwd c_world core_of] in Hc. rewrite Hc.
    cbn [c_cwd core_of] in Hcwd. rewrite Hcwd. apply lookup_insert_eq.
Qed.

(** C10. Without a compose file the function prints its warning and does
    nothing else.  With one, when the file holds no directive while
    [is_first_run] is true, or no sentinel while it is false, the function
    ends right after the probe: it writes nothing, and the files are those
    the container engine left, which are the files before the call when the
    engine does not touch them. *)
Theorem compose_patch_frame s :
  (files s !! resolve (cwd s) docker_compose_path = None ->
   is_dir (world s) (resolve (cwd s) docker_compose_path) = false ->
   check_and_fix_docker_compose_for_searxng s =
   (inr tt, printed s ["Warning: Docker Compose file not found at docker-compose.yml"])) /\
  (forall content b,
     files s !! resolve (cwd s) docker_compose_path = Some content ->
     io_fault (world s) (IoRead docker_compose_path) = None ->
     result_of detect_first_run s = inr b ->
     (if b then PyStr.contains directive content = false
      else PyStr.contains sentinel content = false) ->
     result_of check_and_fix_docker_compose_for_searxng s = inr tt /\
     core_of (state_after check_and_fix_docker_compose_for_searxng s) =
       core_of (state_after detect_first_run s) /\
     trace (state_after check_and_fix_docker_compose_for_searxng s) =
       trace (state_after detect_first_run s) /\
     (docker_leaves_files ->
      files (state_after check_and_fix_docker_compose_for_searxng s) = files s)).
Proof.
  split.
  - intros Hfile Hdir.
    unfold check_and_fix_docker_compose_for_searxng, bind, os_path_exists, path_present.
    rewrite (canonical_plain _ docker_compose_path eq_refl), Hfile, Hdir. reflexivity.
  - intros content b Hfile Hread Hb Hcontent.
    destruct (detect_total (core_of s)) as (b' & c1 & evs & Hd & _ & Hfs).
    destruct (exec_run _ s _ _ _ Hd) as (Hr & Hc1 & Ht1).
    rewrite Hb in Hr. injection Hr as <-.
    assert (Hidle : b && PyStr.contains directive content
                    || negb b && PyStr.contains sentinel content = false).
    { destruct b; cbn; by rewrite Hcontent. }
    pose proof (exec_check_and_fix (core_of s) content b c1 evs Hfile Hread Hd) as Hck.
    rewrite Hidle in Hck. apply orb_false_iff in Hidle as [H1 H2].
    rewrite H1, H2 in Hck.
    destruct (exec_run _ s _ _ _ (Hck ltac:(discriminate))) as (Hr & Hc & Ht).
    split; [exact Hr|]. split; [by rewrite Hc, Hc1|]. split; [by rewrite Ht, Ht1|].
    intros Hd'. apply (f_equal c_files) in Hc. cbn [c_files core_of] in Hc.
    rewrite Hc. by apply Hfs.
Qed.


(** ** Secret provisioning *)

Lemma print_printed line s : print line s = (inr tt, printed s [line]).
Proof. reflexivity. Qed.

Lemma printed_printed s a b : printed (printed s a) b = printed s (a ++ b).
Proof. unfold printed. cbn. by rewrite app_assoc. Qed.

Lemma for_each_print lines s : for_each lines print s = (inr tt, printed s lines).
Proof.
  revert s. induction lines as [|l lines IH]; intros s; cbn [for_each].
  - unfold ret, printed. rewrite app_nil_r. by destruct s.
  - unfold bind. rewrite print_printed, IH, printed_printed. reflexivity.
Qed.

Lemma report_substitution_failure_eq e s :
  report_substitution_failure e s =
  (inr tt, printed s (("Error generating SearXNG secret key: " +:+ exn_str e)
                        :: remediation_lines)).
Proof.
  unfold report_substitution_failure, bind.
  rewrite print_printed, for_each_print, printed_printed. reflexivity.
Qed.

(** The guarded substitution never raises. *)
Lemma guarded_substitution_eq s :
  guarded_substitution s =
  match substitute_secret (platform_system (world s))
          (settings_path_on (platform_system (world s))) s with
  | (inr tt, s') => (inr tt, s')
  | (inl e, s') =>
      (inr tt, printed s' (("Error generating SearXNG secret key: " +:+ exn_str e)
                             :: remediation_lines))
  end.
Proof.
  unfold guarded_substitution, try_except. cbv zeta.
  destruct (substitute_secret _ _ s) as [[e|[]] s'].
  - cbn [is_Exception]. apply report_substitution_failure_eq.
  - reflexivity.
Qed.

(** The paths of the stage name the two files, on every platform. *)
Lemma canonical_settings system :
  canonical system (settings_path_on system) = settings_path.
Proof.
  unfold canonical, settings_path_on, os_path_join, os_sep.
  by destruct (String.eqb system "Windows").
Qed.

Lemma canonical_settings_base system :
  canonical system (settings_base_path_on system) = settings_base_path.
Proof.
  unfold canonical, settings_base_path_on, os_path_join, os_sep.
  by destruct (String.eqb system "Windows").
Qed.

Lemma posix_settings system :
  String.eqb system "Windows" = false -> settings_path_on system = settings_path.
Proof. intros E. unfold settings_path_on, os_path_join, os_sep. by rewrite E. Qed.

Lemma generate_no_template s :
  path_present s settings_base_path = false ->
  generate_searxng_secret_key s =
  (inr tt, printed s ["Checking SearXNG settings...";
                      "Warning: SearXNG base settings file not found at " +:+
                      settings_base_path_on (platform_system (world s))]).
Proof.
  intros Hb. unfold generate_searxng_secret_key, bind, os_path_flavour, os_path_exists.
  rewrite print_printed. cbn [printed files cwd world].
  fold (settings_base_path_on (platform_system (world s))).
  rewrite canonical_settings_base.
  unfold path_present in *. cbn [printed files cwd world]. rewrite Hb. cbn [negb].
  rewrite print_printed, printed_printed. reflexivity.
Qed.

Lemma path_present_printed s lines path :
  path_present (printed s lines) path = path_present s path.
Proof. reflexivity. Qed.

Lemma copyfile_printed src dst s lines :
  shutil_copyfile src dst (printed s lines) =
  (result_of (shutil_copyfile src dst) s,
   printed (state_after (shutil_copyfile src dst) s) lines).
Proof.
  unfold result_of, state_after, shutil_copyfile, bind, host_check, set_files.
  cbn [printed files world cwd console trace].
  destruct (io_fault (world s) (IoCopy src dst)); [reflexivity|].
  cbn [printed files world cwd console trace].
  destruct (files s !! locate (world s) (cwd s) src); reflexivity.
Qed.

Lemma generate_copy_failed s e :
  let system := platform_system (world s) in
  path_present s settings_base_path = true ->
  path_present s settings_path = false ->
  result_of (create_settings system) s = inl e ->
  generate_searxng_secret_key s =
  (inr tt, printed (state_after (create_settings system) s)
     ["Checking SearXNG settings...";
      "SearXNG settings.yml not found. Creating from " +:+ settings_base_path_on system
        +:+ "...";
      "Error creating settings.yml: " +:+ exn_str e]).
Proof.
  intros system Hb Hs Hcopy. subst system. unfold create_settings in *.
  unfold generate_searxng_secret_key, bind, os_path_flavour, os_path_exists.
  rewrite print_printed. cbn [printed files cwd world].
  fold (settings_base_path_on (platform_system (world s))).
  fold (settings_path_on (platform_system (world s))).
  rewrite canonical_settings_base.
  rewrite path_present_printed, Hb. cbn [negb].
  cbn [printed world]. rewrite canonical_settings.
  rewrite path_present_printed, Hs. cbn [negb].
  rewrite print_printed, printed_printed.
  unfold try_except, bind. rewrite copyfile_printed, Hcopy. cbn [is_Exception].
  rewrite print_printed, printed_printed. reflexivity.
Qed.

Lemma copyfile_world src dst s :
  world (state_after (shutil_copyfile src dst) s) = world s.
Proof.
  unfold state_after, shutil_copyfile, bind, host_check, set_files.
  destruct (io_fault (world s) (IoCopy src dst)); [reflexivity|].
  by destruct (files s !! locate (world s) (cwd s) src).
Qed.

Lemma generate_created s :
  let system := platform_system (world s) in
  path_present s settings_base_path = true ->
  path_present s settings_path = false ->
  result_of (create_settings system) s = inr tt ->
  generate_searxng_secret_key s =
  guarded_substitution
    (printed (state_after (create_settings system) s) (created_lines system)).
Proof.
  intros system Hb Hs Hcopy. subst system. unfold create_settings in *.
  unfold generate_searxng_secret_key, bind, os_path_flavour, os_path_exists.
  rewrite print_printed. cbn [printed files cwd world].
  fold (settings_base_path_on (platform_system (world s))).
  fold (settings_path_on (platform_system (world s))).
  rewrite canonical_settings_base.
  rewrite path_present_printed, Hb. cbn [negb].
  cbn [printed world]. rewrite canonical_settings.
  rewrite path_present_printed, Hs. cbn [negb].
  rewrite print_printed, printed_printed.
  unfold try_except at 1, bind. rewrite copyfile_printed, Hcopy.
  rewrite print_printed, printed_printed. unfold ret at 1. cbn [negb].
  rewrite print_printed, printed_printed.
  unfold platform_system_call, guarded_substitution. cbv zeta.
  cbn [printed world]. rewrite copyfile_world. reflexivity.
Qed.

Lemma generate_existing s :
  path_present s settings_base_path = true ->
  path_present s settings_path = true ->
  generate_searxng_secret_key s =
  guarded_substitution (printed s (existing_lines (platform_system (world s)))).
Proof.
  intros Hb Hs.
  unfold generate_searxng_secret_key, bind, os_path_flavour, os_path_exists.
  rewrite print_printed. cbn [printed files cwd world].
  fold (settings_base_path_on (platform_system (world s))).
  fold (settings_path_on (platform_system (world s))).
  rewrite canonical_settings_base.
  rewrite path_present_printed, Hb. cbn [negb].
  cbn [printed world]. rewrite canonical_settings.
  rewrite path_present_printed, Hs. cbn [negb].
  rewrite print_printed, printed_printed. unfold ret at 1. cbn [negb].
  rewrite print_printed, printed_printed. reflexivity.
Qed.

Lemma guarded_substitution_returns s : exists s', guarded_substitution s = (inr tt, s').
Proof.
  rewrite guarded_substitution_eq.
  destruct (substitute_secret _ _ s) as [[e|[]] s']; eauto.
Qed.

(** The stage returns, whatever it meets. *)
Lemma generate_returns s : result_of generate_searxng_secret_key s = inr tt.
Proof.
  unfold result_of.
  destruct (path_present s settings_base_path) eqn:Hb;
    [|by rewrite generate_no_template].
  destruct (path_present s settings_path) eqn:Hs.
  - rewrite generate_existing by done.
    by destruct (guarded_substitution_returns
                   (printed s (existing_lines (platform_system (world s))))) as [s' ->].
  - destruct (result_of (create_settings (platform_system (world s))) s)
      as [e|[]] eqn:Hc.
    + by rewrite (generate_copy_failed s e).
    + rewrite generate_created by done.
      by destruct (guarded_substitution_returns (printed
        (state_after (create_settings (platform_system (world s))) s)
        (created_lines (platform_system (world s))))) as [s' ->].
Qed.

(** *** The substitution, given tools that do what their manuals say *)

Lemma substituted_effect k dir fs fs' w' out c :
  is_key k = true -> c_cwd c = dir -> c_files c = fs ->
  substituted k dir fs fs' out ->
  substitution_effect c
    (match out with
     | NotStarted msg => inl (OSError msg)
     | Exited rc o e =>
         if true && negb (rc =? 0) then inl (CalledProcessError rc [] o e) else inr tt
     end)
    (Core fs' w' dir).
Proof.
  intros Hk <- <- Hsub. split; [reflexivity|].
  destruct out as [rc o e|msg]; [|exact Hsub].
  destruct rc as [|p|p]; cbn in *; [|exact Hsub..].
  destruct Hsub as (content & Hc & ->). by exists content, k.
Qed.

Lemma powershell_branch (Htools : tools_ok) c :
  exists r c' evs,
    exec (bind (print "Detected Windows platform, using PowerShell to generate secret key...")
            (fun _ => bind (subprocess_run ps_command None true) (fun _ => ret tt)))
         c r c' evs /\
    substitution_effect c r c'.
Proof.
  destruct (spawn ps_command (c_cwd c) (c_files c) (c_world c)) as [[fs' w'] out] eqn:Hs.
  pose proof (powershell_ok Htools (c_cwd c) (c_files c) (c_world c)) as Hps.
  rewrite Hs in Hps. destruct Hps as (k & Hk & Hsub).
  pose proof (substituted_effect k _ _ _ w' out c Hk eq_refl eq_refl Hsub) as Heff.
  pose proof (exec_then_unit _ _ _ _ _
                (exec_subprocess_run ps_command None true c fs' w' out Hs)) as Hrun.
  eexists _, _, _. split.
  - eapply (exec_bind _ _ _ _ _ []); [apply exec_print | exact Hrun].
  - destruct out as [rc o e|msg]; [destruct (true && negb (rc =? 0))|]; exact Heff.
Qed.

Lemma sed_branch (Htools : tools_ok) (line : string) (argv : string -> list string) c :
  (forall k dir fs w, is_key k = true ->
     let '(fs', _, out) := spawn (argv k) dir fs w in substituted k dir fs fs' out) ->
  exists r c' evs,
    exec (bind (print line) (fun _ =>
          bind (subprocess_check_output openssl_cmd) (fun out =>
          bind (decode out) (fun text =>
          bind (subprocess_run (argv (PyStr.strip text)) None true) (fun _ => ret tt)))))
         c r c' evs /\
    substitution_effect c r c'.
Proof.
  intros Hsed.
  destruct (spawn openssl_cmd (c_cwd c) (c_files c) (c_world c)) as [[fs1 w1] out1] eqn:Hs1.
  pose proof (openssl_ok Htools (c_cwd c) (c_files c) (c_world c)) as Hossl.
  rewrite Hs1 in Hossl. destruct Hossl as [-> Hkey].
  pose proof (exec_subprocess_run openssl_cmd None true c _ w1 out1 Hs1) as Hrun1.
  assert (Hfail : forall e,
    exec (subprocess_run openssl_cmd None true) c (inl e)
         (Core (c_files c) w1 (c_cwd c)) [Spawned openssl_cmd out1] ->
    exists r c' evs,
      exec (bind (print line) (fun _ =>
            bind (subprocess_check_output openssl_cmd) (fun out =>
            bind (decode out) (fun text =>
            bind (subprocess_run (argv (PyStr.strip text)) None true) (fun _ => ret tt)))))
           c r c' evs /\ substitution_effect c r c').
  { intros e He.
    exists (inl e), (Core (c_files c) w1 (c_cwd c)), [Spawned openssl_cmd out1].
    split; [|by split].
    eapply (exec_bind _ _ _ _ _ []); [apply exec_print|].
    apply exec_bind_raise. unfold subprocess_check_output.
    apply exec_bind_raise. exact He. }
  destruct out1 as [rc o e|msg]; [|eapply Hfail; exact Hrun1].
  destruct rc as [|p|p];
    [|cbn [andb negb Z.eqb] in Hrun1; eapply Hfail; exact Hrun1..].
  cbn [andb negb Z.eqb] in Hrun1.
  destruct Hkey as (text & Hdec & Hk).
  destruct (spawn (argv (PyStr.strip text)) (c_cwd c) (c_files c) w1)
    as [[fs2 w2] out2] eqn:Hs2.
  pose proof (Hsed (PyStr.strip text) (c_cwd c) (c_files c) w1 Hk) as Hsub.
  rewrite Hs2 in Hsub.
  pose proof (substituted_effect _ _ _ _ w2 out2 c Hk eq_refl eq_refl Hsub) as Heff.
  pose proof (exec_then_unit _ _ _ _ _
    (exec_subprocess_run (argv (PyStr.strip text)) None true
       (Core (c_files c) w1 (c_cwd c)) fs2 w2 out2 Hs2)) as Hrun2.
  pose proof (exec_decode o (Core (c_files c) w1 (c_cwd c))) as Hd.
  rewrite Hdec in Hd.
  eexists _, _, _. split.
  - eapply (exec_bind _ _ _ _ _ []); [apply exec_print|].
    eapply exec_bind.
    + unfold subprocess_check_output.
      eapply (exec_bind _ _ _ _ _ _ _ _ []); [exact Hrun1 | apply exec_ret].
    + cbn [stdout]. eapply (exec_bind _ _ _ _ _ []); [exact Hd | exact Hrun2].
  - destruct out2 as [rc2 o2 e2|msg2]; [destruct (true && negb (rc2 =? 0))|]; exact Heff.
Qed.

Lemma substitute_secret_effect (Htools : tools_ok) system c :
  exists r c' evs,
    exec (substitute_secret system (settings_path_on system)) c r c' evs /\
    substitution_effect c r c'.
Proof.
  unfold substitute_secret.
  assert (Hwrap : forall m : M unit,
    (exists r c' evs, exec m c r c' evs /\ substitution_effect c r c') ->
    exists r c' evs,
      exec (bind m (fun _ => print "SearXNG secret key generated successfully."))
           c r c' evs /\ substitution_effect c r c').
  { intros m (r & c' & evs & He & Heff). destruct r as [e|[]].
    - exists (inl e), c', evs. split; [by apply exec_bind_raise | exact Heff].
    - exists (inr tt), c', (evs ++ []).
      split; [eapply exec_bind; [exact He | apply exec_print] | exact Heff]. }
  apply Hwrap.
  destruct (String.eqb system "Windows") eqn:Ewin; [by apply powershell_branch|].
  rewrite (posix_settings system Ewin).
  destruct (String.eqb system "Darwin").
  - apply (sed_branch Htools _
             (fun k => ["sed"; "-i"; ""; sed_script k; settings_path])).
    apply (sed_darwin_ok Htools).
  - apply (sed_branch Htools _ (fun k => ["sed"; "-i"; sed_script k; settings_path])).
    apply (sed_ok Htools).
Qed.

Lemma hex_digit_fresh c :
  is_hex_digit c = true ->
  negb (Ascii.eqb "u" c) && negb (Ascii.eqb "y" c) = true.
Proof.
  intros Hc.
  destruct (Ascii.eqb_spec "u" c) as [<-|_]; [discriminate|].
  destruct (Ascii.eqb_spec "y" c) as [<-|_]; [discriminate|].
  reflexivity.
Qed.

Lemma all_chars_impl (p q : ascii -> bool) s :
  (forall c, p c = true -> q c = true) ->
  PyStr.all_chars p s = true -> PyStr.all_chars q s = true.
Proof.
  intros Hpq. induction s as [|c s IH]; [reflexivity|].
  cbn. intros [Hc Hs]%andb_true_iff. by rewrite (Hpq c Hc), (IH Hs).
Qed.

(** After the substitution of a key, the placeholder is gone. *)
Lemma key_consumes k content :
  is_key k = true ->
  PyStr.contains placeholder (PyStr.replace content placeholder k) = false.
Proof.
  unfold is_key. intros [Hlen Hhex]%andb_true_iff.
  apply Nat.eqb_eq in Hlen.
  apply (PyStrFacts.replace_consumes "u" "y" "ltrasecretkey" k).
  - reflexivity.
  - apply (all_chars_impl is_hex_digit); [intros c; apply hex_digit_fresh | exact Hhex].
  - rewrite Hlen. cbn. lia.
Qed.

Lemma substitute_success_line system path s s' :
  substitute_secret system path s = (inr tt, s') ->
  last (console s') = Some success_line.
Proof.
  unfold substitute_secret, bind.
  match goal with |- context [match ?m s with _ => _ end] =>
    destruct (m s) as [[e|[]] s1] end; [discriminate|].
  rewrite print_printed. intros [= <-]. cbn [printed console]. apply last_snoc.
Qed.

Lemma guarded_substitution_settings (Htools : tools_ok) s :
  let s' := snd (guarded_substitution s) in
  let p := resolve (cwd s) settings_path in
  cwd s' = cwd s /\
  ((last (console s') = Some success_line /\
    exists content k,
      is_key k = true /\ files s !! p = Some content /\
      files s' = <[p := PyStr.replace content placeholder k]> (files s)) \/
   (last (console s') <> Some success_line /\ files s' = files s)).
Proof.
  cbv zeta. rewrite guarded_substitution_eq.
  destruct (substitute_secret_effect Htools (platform_system (world s)) (core_of s))
    as (r & c' & evs & He & Hcwd & Heff).
  destruct (exec_run _ s _ _ _ He) as (Hr & Hc & _).
  unfold result_of, state_after in Hr, Hc.
  destruct (substitute_secret (platform_system (world s)) _ s) as [r' s1] eqn:Hsub.
  cbn [fst snd] in Hr, Hc. subst r' c'. cbn [core_of c_cwd c_files] in Hcwd, Heff.
  destruct r as [e|[]]; cbn [snd].
  - split; [exact Hcwd|]. right. split; [|exact Heff].
    cbn [printed console]. rewrite last_app. discriminate.
  - split; [exact Hcwd|]. left. split; [by eapply substitute_success_line|].
    exact Heff.
Qed.

Lemma copyfile_failed_state src dst s e :
  result_of (shutil_copyfile src dst) s = inl e ->
  state_after (shutil_copyfile src dst) s = s.
Proof.
  unfold result_of, state_after, shutil_copyfile, bind, host_check, set_files.
  destruct (io_fault (world s) (IoCopy src dst)); [reflexivity|].
  destruct (files s !! locate (world s) (cwd s) src); [discriminate | reflexivity].
Qed.

Lemma copyfile_cwd src dst s :
  cwd (state_after (shutil_copyfile src dst) s) = cwd s.
Proof.
  unfold state_after, shutil_copyfile, bind, host_check, set_files.
  destruct (io_fault (world s) (IoCopy src dst)); [reflexivity|].
  by destruct (files s !! locate (world s) (cwd s) src).
Qed.

(** What a run of the stage does to the settings file. *)
Lemma generate_settings (Htools : tools_ok) s :
  let s1 := state_after generate_searxng_secret_key s in
  let p := resolve (cwd s) settings_path in
  cwd s1 = cwd s /\
  ((last (console s1) = Some success_line /\
    exists content k,
      is_key k = true /\
      files s1 !! p = Some (PyStr.replace content placeholder k) /\
      forall c0, files s !! p = Some c0 -> content = c0) \/
   (last (console s1) <> Some success_line /\
    forall c0, files s !! p = Some c0 -> files s1 !! p = Some c0)).
Proof.
  cbv zeta. unfold state_after.
  destruct (path_present s settings_base_path) eqn:Hb.
  2:{ rewrite generate_no_template by done. cbn [snd printed cwd console files].
      split; [reflexivity|]. right. split; [|done].
      rewrite last_app. cbn [last]. unfold settings_base_path_on, success_line.
      intros [= Heq]. }
  destruct (path_present s settings_path) eqn:Hs.
  - rewrite generate_existing by done.
    destruct (guarded_substitution_settings Htools
                (printed s (existing_lines (platform_system (world s)))))
      as [Hcwd Hcase].
    cbn [printed cwd files] in Hcwd, Hcase.
    split; [exact Hcwd|].
    destruct Hcase as [(Hlast & content & k & Hk & Hc & Hf)|(Hlast & Hf)].
    + left. split; [exact Hlast|]. exists content, k. split; [exact Hk|].
      split; [rewrite Hf; apply lookup_insert_eq | congruence].
    + right. split; [exact Hlast|]. by rewrite Hf.
  - assert (Hnone : files s !! resolve (cwd s) settings_path = None).
    { unfold path_present in Hs. by destruct (files s !! _). }
    destruct (result_of (create_settings (platform_system (world s))) s)
      as [e|[]] eqn:Hc.
    + rewrite (generate_copy_failed s e) by done. cbn [snd printed cwd console].
      unfold create_settings in *.
      rewrite (copyfile_failed_state _ _ s e Hc). split; [reflexivity|]. right. split; [|congruence].
      rewrite last_app. cbn [last]. intros [= Heq].
    + rewrite generate_created by done.
      pose proof (copyfile_cwd (settings_base_path_on (platform_system (world s)))
                    (settings_path_on (platform_system (world s))) s) as Hcwd0.
      fold (create_settings (platform_system (world s))) in Hcwd0.
      destruct (guarded_substitution_settings Htools (printed
        (state_after (create_settings (platform_system (world s))) s)
        (created_lines (platform_system (world s))))) as [Hcwd Hcase].
      cbn [printed cwd files] in Hcwd, Hcase. rewrite Hcwd0 in Hcwd, Hcase.
      split; [exact Hcwd|].
      destruct Hcase as [(Hlast & content & k & Hk & Hcont & Hf)|(Hlast & Hf)].
      * left. split; [exact Hlast|]. exists content, k. split; [exact Hk|].
        split; [rewrite Hf; apply lookup_insert_eq | congruence].
      * right. split; [exact Hlast | congruence].
Qed.

(** C4. With tools that do what their manuals say: a run that reports
    success leaves a settings file without the placeholder, and the run after
    it leaves that file byte for byte as it is; and a run that finds a
    settings file without the placeholder never changes it, so the
    placeholder does not come back. *)
Theorem secret_provisioning_idempotent (Htools : tools_ok) s :
  let p := resolve (cwd s) settings_path in
  let s1 := state_after generate_searxng_secret_key s in
  let s2 := state_after generate_searxng_secret_key s1 in
  (last (console s1) = Some success_line ->
   exists c1, files s1 !! p = Some c1 /\
              PyStr.contains placeholder c1 = false /\
              files s2 !! p = Some c1) /\
  (forall c, files s !! p = Some c -> PyStr.contains placeholder c = false ->
             files s1 !! p = Some c).
Proof.
  cbv zeta.
  assert (Hkeep : forall s0 c,
    files s0 !! resolve (cwd s0) settings_path = Some c ->
    PyStr.contains placeholder c = false ->
    files (state_after generate_searxng_secret_key s0)
      !! resolve (cwd s0) settings_path = Some c).
  { intros s0 c Hc Hfree.
    destruct (generate_settings Htools s0)
      as [_ [(_ & content & k & _ & Hf & Hsame)|(_ & Hsame)]].
    - rewrite Hf, (Hsame c Hc). f_equal. by apply PyStrFacts.replace_absent.
    - by apply Hsame. }
  split; [|apply Hkeep].
  intros Hlast.
  destruct (generate_settings Htools s)
    as [Hcwd [(_ & content & k & Hk & Hf & _)|(Hno & _)]]; [|contradiction].
  exists (PyStr.replace content placeholder k).
  split; [exact Hf|]. split; [by apply key_consumes|].
  rewrite <- Hcwd. apply Hkeep; [by rewrite Hcwd | by apply key_consumes].
Qed.

(** C8, as the code has it.  The stage returns without an exception from
    every state, so the next stage runs.  Its four ways through, by what it
    finds: without the base template it prints its warning and does nothing
    else; when the settings file is missing and cannot be created, the
    exception is caught and logged in one line, without the remediation
    commands, and the stage returns; with a settings file that exists, and
    with one it has just created, the stage ends with the guarded
    substitution.  In the guarded substitution every exception is caught and
    logged together with the remediation commands. *)
Theorem secret_provisioning_never_fatal s :
  let system := platform_system (world s) in
  result_of generate_searxng_secret_key s = inr tt /\
  (forall A (next : unit -> M A),
     bind generate_searxng_secret_key next s =
     next tt (state_after generate_searxng_secret_key s)) /\
  (path_present s settings_base_path = false ->
   generate_searxng_secret_key s =
   (inr tt, printed s ["Checking SearXNG settings...";
      "Warning: SearXNG base settings file not found at " +:+
      settings_base_path_on system])) /\
  (forall e,
     path_present s settings_base_path = true ->
     path_present s settings_path = false ->
     result_of (create_settings system) s = inl e ->
     generate_searxng_secret_key s =
     (inr tt, printed s
        ["Checking SearXNG settings...";
         "SearXNG settings.yml not found. Creating from " +:+
           settings_base_path_on system +:+ "...";
         "Error creating settings.yml: " +:+ exn_str e])) /\
  (path_present s settings_base_path = true ->
   path_present s settings_path = true ->
   generate_searxng_secret_key s =
   guarded_substitution (printed s (existing_lines system))) /\
  (path_present s settings_base_path = true ->
   path_present s settings_path = false ->
   result_of (create_settings system) s = inr tt ->
   generate_searxng_secret_key s =
   guarded_substitution
     (printed (state_after (create_settings system) s) (created_lines system))) /\
  (forall s1 e s2,
     substitute_secret (platform_system (world s1))
       (settings_path_on (platform_system (world s1))) s1 = (inl e, s2) ->
     guarded_substitution s1 =
     (inr tt, printed s2 (("Error generating SearXNG secret key: " +:+ exn_str e)
                            :: remediation_lines))).
Proof.
  cbv zeta. pose proof (generate_returns s) as Hret.
  split; [exact Hret|]. split; [|split; [|split; [|split; [|split]]]].
  - intros A next. unfold result_of, state_after, bind in *.
    destruct (generate_searxng_secret_key s) as [[e|[]] s']; [discriminate|reflexivity].
  - apply generate_no_template.
  - intros e Hb Hs Hc. rewrite (generate_copy_failed s e Hb Hs Hc).
    unfold create_settings in *. by rewrite (copyfile_failed_state _ _ s e Hc).
  - apply generate_existing.
  - apply generate_created.
  - intros s1 e s2 Hsub. by rewrite guarded_substitution_eq, Hsub.
Qed.

(** ** Further properties of the stages *)

Lemma exec_os_chdir path c :
  io_fault (c_world c) (IoChdir path) = None ->
  exec (os_chdir path) c (inr tt)
       (Core (c_files c) (c_world c)
             (if String.eqb path ".." then tail (c_cwd c) else path :: c_cwd c)) [].
Proof.
  intros Hio con tr. exists []. unfold os_chdir, bind, host_check.
  unfold mk_state; cbn [files world cwd console trace c_files c_world c_cwd].
  rewrite Hio. cbn [files world cwd console trace]. by rewrite !app_nil_r.
Qed.

Lemma exec_os_chdir_fault path c e :
  io_fault (c_world c) (IoChdir path) = Some e ->
  exec (os_chdir path) c (inl e) c [].
Proof.
  intros Hio con tr. exists []. unfold os_chdir, bind, host_check.
  unfold mk_state; cbn [files world cwd console trace c_files c_world c_cwd].
  rewrite Hio, !app_nil_r. by destruct c.
Qed.

Lemma shows_cons cmd out evs cmds :
  shows evs cmds -> shows (Spawned cmd out :: evs) (cmd :: cmds).
Proof. unfold shows. cbn. by intros ->. Qed.

Lemma runs_ret : runs [] id (ret tt).
Proof.
  intros c. exists (inr tt), c, [], 0%nat. split; [apply exec_ret|]. by split.
Qed.

Lemma runs_print line full f m :
  runs full f m -> runs full f (bind (print line) (fun _ => m)).
Proof.
  intros Hm c. destruct (Hm c) as (r & c' & evs & k & He & Hk & Hr).
  exists r, c', evs, k. split; [|by split].
  eapply (exec_bind _ _ _ _ _ []); [apply exec_print | exact He].
Qed.

Lemma runs_chdir path full f m :
  runs full f m ->
  runs full (fun d => f (if String.eqb path ".." then tail d else path :: d))
       (bind (os_chdir path) (fun _ => m)).
Proof.
  intros Hm c. destruct (io_fault (c_world c) (IoChdir path)) as [e|] eqn:Hio.
  - exists (inl e), c, [], 0%nat.
    split; [apply exec_bind_raise; by apply exec_os_chdir_fault|]. by split.
  - destruct (Hm (Core (c_files c) (c_world c)
                 (if String.eqb path ".." then tail (c_cwd c) else path :: c_cwd c)))
      as (r & c' & evs & k & He & Hk & Hr).
    exists r, c', evs, k. split; [|by split].
    eapply (exec_bind _ _ _ _ _ []); [by apply exec_os_chdir | exact He].
Qed.

Lemma runs_run_command cmd desc full f (m : M unit) :
  runs full f m ->
  runs (cmd :: full) f (bind (run_command cmd None desc) (fun _ => m)).
Proof.
  intros Hm c.
  destruct (spawn cmd (c_cwd c) (c_files c) (c_world c)) as [[fs w] out] eqn:Hs.
  pose proof (exec_run_command cmd None desc c fs w out Hs) as Hrun.
  destruct (run_result cmd out) as [e|r0].
  - exists (inl e), (Core fs w (c_cwd c)), [Spawned cmd out], 1%nat.
    split; [by apply exec_bind_raise|]. split; [reflexivity | done].
  - destruct (Hm (Core fs w (c_cwd c))) as (r & c' & evs & k & He & Hk & Hr).
    exists r, c', (Spawned cmd out :: evs), (S k).
    split; [exact (exec_bind _ _ _ _ _ _ _ _ _ Hrun He)|].
    split; [by apply shows_cons|].
    intros Hok. destruct (Hr Hok) as [Hc Hd]. split; [by apply shows_cons | exact Hd].
Qed.

Lemma runs_clone_fresh :
  runs clone_cmds id
    (bind (print "Cloning the Supabase repository...") (fun _ =>
     bind (call_run_command ["git"; "clone"; "--filter=blob:none"; "--no-checkout";
                             "https://github.com/supabase/supabase.git"] []) (fun _ =>
     bind (os_chdir "supabase") (fun _ =>
     bind (call_run_command ["git"; "sparse-checkout"; "init"; "--cone"] []) (fun _ =>
     bind (call_run_command ["git"; "sparse-checkout"; "set"; "docker"] []) (fun _ =>
     bind (call_run_command ["git"; "checkout"; "master"] []) (fun _ =>
     os_chdir ".."))))))).
Proof.
  rewrite !call_run_command_plain.
  apply runs_print, runs_run_command.
  apply (runs_chdir "supabase" _ (fun d => id (tail d))).
  do 3 apply runs_run_command.
  intros c. destruct (runs_chdir ".." [] id (ret tt) runs_ret c)
    as (r & c' & evs & k & He & Hk & Hr).
  exists r, c', evs, k. split; [|by split].
  intros con tr. destruct (He con tr) as [l E]. exists l. rewrite <- E.
  unfold bind. by destruct (os_chdir ".." _) as [[?|[]] ?].
Qed.

Lemma runs_clone_update :
  runs pull_cmds id
    (bind (print "Supabase repository already exists, updating...") (fun _ =>
     bind (os_chdir "supabase") (fun _ =>
     bind (call_run_command ["git"; "pull"] []) (fun _ =>
     os_chdir "..")))).
Proof.
  rewrite !call_run_command_plain.
  apply runs_print.
  apply (runs_chdir "supabase" _ (fun d => id (tail d))).
  apply runs_run_command.
  intros c. destruct (runs_chdir ".." [] id (ret tt) runs_ret c)
    as (r & c' & evs & k & He & Hk & Hr).
  exists r, c', evs, k. split; [|by split].
  intros con tr. destruct (He con tr) as [l E]. exists l. rewrite <- E.
  unfold bind. by destruct (os_chdir ".." _) as [[?|[]] ?].
Qed.

(** X2. [clone_supabase_repo] runs [git pull] when [supabase] exists, and
    otherwise the clone, the two sparse-checkout commands and the checkout,
    in this order.  It stops at the first step that raises, so the events of
    a run are a prefix of that list and nothing else.  A run that returns has
    started all of them and is back in the directory it started in. *)
Theorem clone_supabase_repo_commands s :
  let full := if path_present s "supabase" then pull_cmds else clone_cmds in
  exists evs k,
    trace (state_after clone_supabase_repo s) = trace s ++ evs /\
    shows evs (take k full) /\
    (result_of clone_supabase_repo s = inr tt ->
     shows evs full /\ cwd (state_after clone_supabase_repo s) = cwd s).
Proof.
  cbv zeta.
  assert (Hruns : exists r c' evs k,
    exec clone_supabase_repo (core_of s) r c' evs /\
    shows evs (take k (if path_present s "supabase" then pull_cmds else clone_cmds)) /\
    (r = inr tt -> shows evs (if path_present s "supabase" then pull_cmds else clone_cmds)
                   /\ c_cwd c' = cwd s)).
  { unfold clone_supabase_repo.
    pose proof (exec_os_path_exists "supabase" (core_of s)) as Hex.
    rewrite (locate_plain _ _ "supabase" eq_refl) in Hex.
    change (match c_files (core_of s) !! _ with Some _ => true | None => _ end)
      with (path_present s "supabase") in Hex.
    destruct (path_present s "supabase"); cbn [negb].
    - destruct (runs_clone_update (core_of s)) as (r & c' & evs & k & He & Hk & Hr).
      exists r, c', evs, k. split; [|by split].
      eapply (exec_bind _ _ _ _ _ []); [exact Hex | exact He].
    - destruct (runs_clone_fresh (core_of s)) as (r & c' & evs & k & He & Hk & Hr).
      exists r, c', evs, k. split; [|by split].
      eapply (exec_bind _ _ _ _ _ []); [exact Hex | exact He]. }
  destruct Hruns as (r & c' & evs & k & He & Hk & Hr).
  destruct (exec_run _ s _ _ _ He) as (Hres & Hc & Ht).
  exists evs, k. split; [exact Ht|]. split; [exact Hk|].
  intros Hok. rewrite Hres in Hok. destruct (Hr Hok) as [Hcmds Hcwd].
  split; [exact Hcmds|]. rewrite <- Hcwd, <- Hc. reflexivity.
Qed.


(** *** Inventory *)

Lemma exec_bind_cons {A B} (m : M A) (k : A -> M B) c a c1 ev r c2 e2 :
  exec m c (inr a) c1 [ev] -> exec (k a) c1 r c2 e2 ->
  exec (bind m k) c r c2 (ev :: e2).
Proof. intros H1 H2. exact (exec_bind _ _ _ _ _ _ _ _ _ H1 H2). Qed.

Lemma exec_swallow (body : M unit) (note : exn -> string) c r c' evs :
  exec body c r c' evs ->
  exec (try_except body is_Exception (fun e => print (note e))) c (inr tt) c' evs.
Proof.
  intros He. destruct r as [e|[]].
  - eapply exec_cast; [|reflexivity | apply app_nil_r].
    eapply exec_try_caught; [exact He | reflexivity | apply exec_print].
  - by apply exec_try.
Qed.

Lemma runs_inventory :
  runs inventory_cmds id
    (bind (call_run_command ["docker"; "ps"; "-a"; "--filter"; "name=localai"; "--format";
                             table_format "{{.Image}}"]
                            [("description", ArgStr "List existing localai containers")])
       (fun _ =>
     bind (call_run_command ["docker"; "ps"; "-a"; "--filter"; "name=n8n"; "--format";
                             table_format "{{.Image}}"]
                            [("description", ArgStr "List existing n8n containers")])
       (fun _ =>
     bind (print (String PyStr.LF "=== Checking for port conflicts ===")) (fun _ =>
     bind (call_run_command ["docker"; "ps"; "--filter"; "publish=5678"; "--format";
                             table_format "{{.Ports}}"]
                            [("description", ArgStr "Check for port 5678 usage (n8n default)")])
       (fun _ => ret tt))))).
Proof.
  rewrite !call_run_command_described.
  do 2 apply runs_run_command. apply runs_print, runs_run_command, runs_ret.
Qed.

(** X4. [check_existing_containers] never raises: whatever the three
    listings meet, it returns.  What it starts is a prefix of the three
    [docker ps] listings, in their order: a listing that fails ends the
    inventory. *)
Theorem inventory_never_fatal s :
  result_of check_existing_containers s = inr tt /\
  exists evs k,
    trace (state_after check_existing_containers s) = trace s ++ evs /\
    shows evs (take k inventory_cmds).
Proof.
  destruct (runs_inventory (core_of s)) as (r & c' & evs & k & He & Hk & _).
  assert (Hck : exec check_existing_containers (core_of s) (inr tt) c' evs).
  { unfold check_existing_containers.
    eapply (exec_bind _ _ _ _ _ []); [apply exec_print|].
    eapply exec_cast; [|reflexivity | apply app_nil_r].
    eapply exec_bind; [|apply exec_print].
    eapply exec_swallow. exact He. }
  destruct (exec_run _ s _ _ _ Hck) as (Hres & _ & Ht).
  split; [exact Hres|]. by exists evs, k.
Qed.

(** *** The light cleanup pass *)

Lemma listed_names o :
  filter (fun c => PyStr.truthy c = true)
         (if PyStr.truthy o then PyStr.split PyStr.LF (PyStr.strip o) else []) =
  listed o.
Proof. by destruct o. Qed.

Lemma removal_events_shows names evs :
  removal_events names evs -> exists k, shows evs (map rm_cmd (take k names)).
Proof.
  revert evs. induction names as [|x names IH]; intros evs.
  - intros ->. by exists 0%nat.
  - intros (out & evs' & -> & Hrest).
    destruct (run_result (rm_cmd x) out).
    + subst evs'. by exists 1%nat.
    + destruct (IH _ Hrest) as [k Hk]. exists (S k). by apply shows_cons.
Qed.

Lemma exec_remove_listed names c :
  exists r c' evs,
    exec (for_each names remove_listed) c r c' evs /\
    removal_events names evs /\ c_cwd c' = c_cwd c.
Proof.
  revert c. induction names as [|x names IH]; intros c.
  - exists (inr tt), c, []. split; [apply exec_ret | by split].
  - destruct (spawn (rm_cmd x) (c_cwd c) (c_files c) (c_world c)) as [[fs w] out] eqn:Hs.
    assert (Hx : exec (remove_listed x) c (unit_result (run_result (rm_cmd x) out))
                   (Core fs w (c_cwd c)) [Spawned (rm_cmd x) out]).
    { unfold remove_listed. rewrite call_run_command_described.
      eapply (exec_bind _ _ _ _ _ []); [apply exec_print|].
      apply exec_then_unit. by apply exec_run_command. }
    destruct (run_result (rm_cmd x) out) as [e|done] eqn:Hout; cbn [unit_result] in Hx.
    + exists (inl e), (Core fs w (c_cwd c)), [Spawned (rm_cmd x) out].
      split; [by apply exec_bind_raise|]. split; [|reflexivity].
      exists out, []. by rewrite Hout.
    + destruct (IH (Core fs w (c_cwd c))) as (r & c' & evs & He & Hk & Hd).
      exists r, c', (Spawned (rm_cmd x) out :: evs).
      split; [exact (exec_bind _ _ _ _ _ _ _ _ _ Hx He)|].
      split; [|exact Hd]. exists out, evs. by rewrite Hout.
Qed.

Lemma exec_cleanup_stray c fs w out :
  spawn Scenario.n8n_listing_cmd (c_cwd c) (c_files c) (c_world c) = (fs, w, out) ->
  exists c' evs,
    exec cleanup_stray_containers c (inr tt) c' (Spawned Scenario.n8n_listing_cmd out :: evs) /\
    removal_events (n8n_names out) evs /\ c_cwd c' = c_cwd c.
Proof.
  intros Hs.
  pose proof (exec_run_command Scenario.n8n_listing_cmd None
                (Some "Find all n8n containers") c fs w out Hs) as Hrun.
  assert (Hbody : exists r c' evs,
    exec (bind (call_run_command Scenario.n8n_listing_cmd
                  [("description", ArgStr "Find all n8n containers")]) (fun result =>
          bind (match filter (fun c => PyStr.truthy c = true)
                        (if PyStr.truthy (stdout result)
                         then PyStr.split PyStr.LF (PyStr.strip (stdout result)) else []) with
                | x :: l =>
                    bind (print ("Found existing n8n containers: " +:+
                                 PyStr.repr_list (filter (fun c => PyStr.truthy c = true)
                        (if PyStr.truthy (stdout result)
                         then PyStr.split PyStr.LF (PyStr.strip (stdout result)) else []))))
                      (fun _ => for_each (filter (fun c => PyStr.truthy c = true)
                        (if PyStr.truthy (stdout result)
                         then PyStr.split PyStr.LF (PyStr.strip (stdout result)) else []))
                                  remove_listed)
                | [] => print "No existing n8n containers found"
                end) (fun _ =>
          bind (print (String PyStr.LF "=== Checking for other potential conflicts ==="))
            (fun _ => for_each conflicting_containers remove_if_running))))
         c r c' (Spawned Scenario.n8n_listing_cmd out :: evs) /\
    removal_events (n8n_names out) evs /\ c_cwd c' = c_cwd c).
  { rewrite call_run_command_described.
    destruct out as [rc o e|msg]; cbn [run_result] in Hrun.
    - destruct (Z.eqb_spec rc 0) as [->|Hrc].
      + cbn [n8n_names].
        assert (Hrest : forall c1, exec
                  (bind (print (String PyStr.LF "=== Checking for other potential conflicts ==="))
                     (fun _ => for_each conflicting_containers remove_if_running))
                  c1 (inr tt) c1 []).
        { intros c1. eapply (exec_bind _ _ _ _ _ []); [apply exec_print|].
          apply (exec_pure (fun _ => inr tt)). intros s0.
          rewrite for_each_noop; [by destruct s0 | apply remove_if_running_noop]. }
        destruct (exec_remove_listed (listed o) (Core fs w (c_cwd c)))
          as (r & c' & evs & He & Hk & Hd).
        destruct (listed o) as [|x l] eqn:Hl.
        * exists (inr tt), (Core fs w (c_cwd c)), []. split; [|by split].
          eapply exec_bind_cons; [exact Hrun|]. cbn [stdout]. rewrite listed_names, Hl.
          eapply (exec_bind _ _ _ _ _ []); [apply exec_print | apply Hrest].
        * destruct r as [e0|[]].
          -- exists (inl e0), c', evs. split; [|by split].
             eapply exec_bind_cons; [exact Hrun|]. cbn [stdout]. rewrite !listed_names, Hl.
             apply exec_bind_raise.
             eapply (exec_bind _ _ _ _ _ []); [apply exec_print | exact He].
          -- exists (inr tt), c', evs. split; [|by split].
             eapply exec_bind_cons; [exact Hrun|]. cbn [stdout]. rewrite !listed_names, Hl.
             eapply exec_cast; [|reflexivity | apply app_nil_r].
             eapply exec_bind; [|apply Hrest].
             eapply (exec_bind _ _ _ _ _ []); [apply exec_print | exact He].
      + exists (inl (CalledProcessError rc Scenario.n8n_listing_cmd o e)),
          (Core fs w (c_cwd c)), [].
        split; [by apply exec_bind_raise|]. split; [|reflexivity].
        unfold n8n_names. by destruct rc.
    - exists (inl (OSError msg)), (Core fs w (c_cwd c)), [].
      split; [by apply exec_bind_raise|]. by split. }
  destruct Hbody as (r & c' & evs & He & Hk & Hd).
  exists c', evs. split; [|by split].
  unfold cleanup_stray_containers. cbv zeta.
  eapply (exec_bind _ _ _ _ _ []); [apply exec_print|].
  eapply exec_cast; [|reflexivity | apply app_nil_r].
  eapply exec_bind; [|apply exec_print].
  eapply exec_swallow. exact He.
Qed.

(** X5. [cleanup_stray_containers] never raises.  It starts the listing of
    the n8n containers and then [docker rm -f] for every name the listing
    printed, in the order of the listing: each name is removed as long as the
    removal before it ended with status 0, and the first removal that fails
    or cannot be started is the last process of the pass.  It starts nothing
    else, in particular no [docker inspect] and no removal of a container of
    its fixed list. *)
Theorem light_cleanup_removes_listed_prefix s :
  let '(_, _, out) := spawn Scenario.n8n_listing_cmd (cwd s) (files s) (world s) in
  result_of cleanup_stray_containers s = inr tt /\
  exists evs,
    trace (state_after cleanup_stray_containers s) =
      trace s ++ Spawned Scenario.n8n_listing_cmd out :: evs /\
    removal_events (n8n_names out) evs.
Proof.
  destruct (spawn _ _ _ _) as [[fs w] out] eqn:Hs.
  destruct (exec_cleanup_stray (core_of s) fs w out Hs) as (c' & evs & He & Hk & _).
  destruct (exec_run _ s _ _ _ He) as (Hres & _ & Ht).
  split; [exact Hres|]. by exists evs.
Qed.


(** *** Teardown *)

Lemma exec_stop_once profile c fs w out :
  spawn (stop_cmd profile) (c_cwd c) (c_files c) (c_world c) = (fs, w, out) ->
  (forall rc o e, out = Exited rc o e -> rc = 0) ->
  exec (stop_existing_containers profile) c
       (unit_result (run_result (stop_cmd profile) out))
       (Core fs w (c_cwd c)) [Spawned (stop_cmd profile) out].
Proof.
  intros Hs Hout. unfold stop_existing_containers. cbv zeta.
  rewrite !call_run_command_described.
  eapply (exec_bind _ _ _ _ _ []); [apply exec_print|].
  pose proof (exec_then_unit _ _ _ _ _
    (exec_run_command _ None (Some "Stop and remove localai containers") c fs w out Hs))
    as Hrun.
  destruct out as [rc o e|msg].
  - rewrite (Hout rc o e eq_refl) in *. by apply exec_try.
  - by apply exec_try_pass.
Qed.

Lemma exec_stop_retry profile c rc1 o1 e1 fs1 w1 :
  let cmd := stop_cmd profile in
  spawn cmd (c_cwd c) (c_files c) (c_world c) = (fs1, w1, Exited rc1 o1 e1) ->
  rc1 <> 0 ->
  exists listing evs k c3 out3,
    exec (stop_existing_containers profile) c (unit_result (run_result cmd out3)) c3
         ([Spawned cmd (Exited rc1 o1 e1); Spawned Scenario.n8n_listing_cmd listing] ++
          evs ++ [Spawned cmd out3]) /\
    shows evs (map rm_cmd (take k (n8n_names listing))).
Proof.
  intros cmd Hs1 Hrc.
  destruct (spawn Scenario.n8n_listing_cmd (c_cwd c) fs1 w1) as [[fs2 w2] listing] eqn:Hs2.
  destruct (exec_cleanup_stray (Core fs1 w1 (c_cwd c)) fs2 w2 listing Hs2)
    as (c2 & evs & Hclean & Hrem & Hd).
  destruct (removal_events_shows _ _ Hrem) as [k Hk].
  destruct (spawn cmd (c_cwd c2) (c_files c2) (c_world c2)) as [[fs3 w3] out3] eqn:Hs3.
  exists listing, evs, k, (Core fs3 w3 (c_cwd c2)), out3. split; [|exact Hk].
  unfold stop_existing_containers. cbv zeta. fold cmd.
  rewrite !call_run_command_described.
  eapply (exec_bind _ _ _ _ _ []); [apply exec_print|].
  pose proof (exec_then_unit _ _ _ _ _
    (exec_run_command cmd None (Some "Stop and remove localai containers") c _ _ _ Hs1))
    as Hrun.
  rewrite run_result_failed in Hrun by done. cbn [unit_result] in Hrun.
  eapply exec_cast; [|reflexivity|].
  - eapply exec_try_caught; [exact Hrun | reflexivity |].
    eapply (exec_bind _ _ _ _ _ []); [apply exec_print|].
    eapply exec_bind; [exact Hclean|].
    apply exec_then_unit. by apply exec_run_command.
  - reflexivity.
Qed.

(** X6. [stop_existing_containers], every outcome of the first
    [docker compose ... down]: with exit status 0 it is the only process and
    the function returns; when the program cannot be started the [OSError]
    leaves the function without a second attempt; with another status
    [cleanup_stray_containers] runs (its listing, then removals of names the
    listing printed) and the same command is started a second and last time,
    whose result is the result of the function. *)
Theorem teardown_retries_once profile s :
  let cmd := stop_cmd profile in
  let '(_, _, out1) := spawn cmd (cwd s) (files s) (world s) in
  let s' := state_after (stop_existing_containers profile) s in
  let r := result_of (stop_existing_containers profile) s in
  match out1 with
  | Exited rc _ _ =>
      if rc =? 0 then r = inr tt /\ trace s' = trace s ++ [Spawned cmd out1]
      else exists listing evs k out2,
             trace s' = trace s ++
               [Spawned cmd out1; Spawned Scenario.n8n_listing_cmd listing] ++
               evs ++ [Spawned cmd out2] /\
             shows evs (map rm_cmd (take k (n8n_names listing))) /\
             r = unit_result (run_result cmd out2)
  | NotStarted msg => r = inl (OSError msg) /\ trace s' = trace s ++ [Spawned cmd out1]
  end.
Proof.
  cbv zeta.
  destruct (spawn (stop_cmd profile) (cwd s) (files s) (world s)) as [[fs1 w1] out1] eqn:Hs1.
  destruct out1 as [rc o e|msg].
  - destruct (Z.eqb_spec rc 0) as [->|Hrc].
    + destruct (exec_run _ s _ _ _
        (exec_stop_once profile (core_of s) fs1 w1 _ Hs1 ltac:(congruence)))
        as (Hres & _ & Ht).
      exact (conj Hres Ht).
    + destruct (exec_stop_retry profile (core_of s) rc o e fs1 w1 Hs1 Hrc)
        as (listing & evs & k & c3 & out3 & He & Hk).
      destruct (exec_run _ s _ _ _ He) as (Hres & _ & Ht).
      exists listing, evs, k, out3. exact (conj Ht (conj Hk Hres)).
  - destruct (exec_run _ s _ _ _
      (exec_stop_once profile (core_of s) fs1 w1 _ Hs1 ltac:(discriminate)))
      as (Hres & _ & Ht).
    exact (conj Hres Ht).
Qed.

(** *** Failures before the stacks are started *)

Lemma git_clone : sound is_git clone_supabase_repo.
Proof. unfold clone_supabase_repo. sound_auto. Qed.

(** X3. When no [.env] is there once the repository is synchronised,
    [main] ends with exit status 1 at [prepare_supabase_env] (or before it,
    when the synchronisation fails): all it has started are git commands, no
    command of the container engine. *)
Theorem missing_env_stops_before_docker profile environment s :
  files (state_after clone_supabase_repo s)
    !! resolve (cwd (state_after clone_supabase_repo s)) ".env" = None ->
  exit_status (result_of (main profile environment) s) = 1 /\
  exists evs,
    trace (state_after (main profile environment) s) = trace s ++ evs /\
    Forall is_git evs.
Proof.
  intros Henv.
  destruct (git_clone (core_of s)) as (r & c1 & evs & Hclone & Hgit).
  destruct (exec_run _ s _ _ _ Hclone) as (_ & Hc1 & _).
  assert (Hmain : exists e, exec (main profile environment) (core_of s) (inl e) c1 evs).
  { destruct r as [e|[]].
    - exists e. unfold main. by apply exec_bind_raise.
    - destruct (exec_copyfile_fault ".env"
                  (os_path_join (platform_system (c_world c1))
                     (os_path_join (platform_system (c_world c1)) "supabase" "docker")
                     ".env") c1) as [e He].
      { right. rewrite (locate_plain _ _ ".env" eq_refl), <- Hc1. exact Henv. }
      exists e. unfold main.
      eapply exec_cast; [|reflexivity | apply app_nil_r].
      eapply exec_bind; [exact Hclone|].
      apply exec_bind_raise. unfold prepare_supabase_env. cbv zeta.
      eapply (exec_bind _ _ _ _ _ []); [apply exec_flavour|].
      eapply (exec_bind _ _ _ _ _ []); [apply exec_print | exact He]. }
  destruct Hmain as [e Hmain].
  destruct (exec_run _ s _ _ _ Hmain) as (Hres & _ & Ht).
  rewrite Hres. split; [reflexivity|]. by exists evs.
Qed.

(** X9. An exception in a stage before [start_supabase] ends [main] there:
    [main] returns that exception in the state the stage left, the exit
    status is 1, and the run holds no [up -d] of either stack and no
    sleep. *)
Theorem preparation_failure_is_fatal profile environment s e :
  result_of (preparation profile) s = inl e ->
  result_of (main profile environment) s = inl e /\
  exit_status (result_of (main profile environment) s) = 1 /\
  state_after (main profile environment) s = state_after (preparation profile) s /\
  exists evs,
    trace (state_after (main profile environment) s) = trace s ++ evs /\
    Forall calm evs.
Proof.
  intros Hprep.
  assert (Hmain : main profile environment s = preparation profile s).
  { rewrite main_after_supabase. unfold supabase_started, bind.
    unfold result_of in Hprep.
    destruct (preparation profile s) as [[e'|[]] s1]; [reflexivity | discriminate]. }
  unfold result_of, state_after. rewrite Hmain.
  fold (result_of (preparation profile) s). fold (state_after (preparation profile) s).
  rewrite Hprep. split; [reflexivity|]. split; [reflexivity|]. split; [reflexivity|].
  destruct (calm_preparation profile (core_of s)) as (r & c' & evs & He & Hcalm).
  destruct (exec_run _ s _ _ _ He) as (_ & _ & Ht).
  by exists evs.
Qed.

(** X8. [start_supabase] is not retried: when the preparation went through
    and the [up -d] of the Supabase stack fails (a non-zero status, or the
    program cannot be started), that exception leaves [main], the exit status
    is 1, and the failed command is the last event of the run: no sleep and
    no start of the local AI stack follow. *)
Theorem supabase_failure_is_fatal profile environment s e :
  let s1 := state_after (preparation profile) s in
  let cmd := supabase_cmd (Some environment) in
  let out := (spawn cmd (cwd s1) (files s1) (world s1)).2 in
  result_of (preparation profile) s = inr tt ->
  run_result cmd out = inl e ->
  result_of (main profile environment) s = inl e /\
  exit_status (result_of (main profile environment) s) = 1 /\
  trace (state_after (main profile environment) s) = trace s1 ++ [Spawned cmd out].
Proof.
  intros s1 cmd out Hprep Hfail. subst out.
  destruct (spawn cmd (cwd s1) (files s1) (world s1)) as [[fs w] out] eqn:Hs.
  cbn [snd] in *.
  pose proof (exec_start_supabase (Some environment) (core_of s1) fs w out Hs) as Hsup.
  fold cmd in Hsup. rewrite Hfail in Hsup. cbn [unit_result] in Hsup.
  destruct (exec_at _ _ _ _ _ Hsup) as [l E].
  assert (Hmain : main profile environment s =
                  (inl e, mk_state (Core fs w (c_cwd (core_of s1))) (console s1 ++ l)
                            (trace s1 ++ [Spawned cmd out]))).
  { rewrite main_after_supabase. unfold supabase_started, bind.
    unfold result_of in Hprep. subst s1. unfold state_after in *.
    destruct (preparation profile s) as [[e'|[]] s1]; [discriminate|].
    cbn [snd] in E. by rewrite E. }
  unfold result_of, state_after. rewrite Hmain. by repeat split.
Qed.


(** *** [run_command] *)

(** X1. [run_command] starts exactly one process, the command it was
    given, in the directory [cwd] names (the working directory without one).
    It returns the completed process when the exit status is 0; a non-zero
    status is reported and raised again as the [CalledProcessError] that
    carries status, command and both outputs, and a program that cannot be
    started leaves as [OSError]: nothing is swallowed.  The files and the
    world are as the process left them, the working directory is
    unchanged. *)
Theorem run_command_outcome cmd dir description s :
  let '(fs, w, out) :=
    spawn cmd (match dir with Some d => d :: cwd s | None => cwd s end)
          (files s) (world s) in
  let s' := state_after (run_command cmd dir description) s in
  result_of (run_command cmd dir description) s = run_result cmd out /\
  files s' = fs /\ world s' = w /\ cwd s' = cwd s /\
  trace s' = trace s ++ [Spawned cmd out].
Proof.
  destruct (spawn _ _ _ _) as [[fs w] out] eqn:Hs. cbv zeta.
  destruct (exec_run _ s _ _ _
    (exec_run_command cmd dir description (core_of s) fs w out Hs)) as (Hres & Hc & Ht).
  split; [exact Hres|].
  destruct (state_after (run_command cmd dir description) s).
  injection Hc as -> -> ->. by repeat split.
Qed.

(** *** The three compose commands *)

(** X7. The teardown command and the startup command of the local AI
    stack carry the same [--profile] arguments, whatever the profile and the
    environment; all three compose commands begin with
    [docker compose -p localai], the one project the two stacks share; and
    the teardown command ends in [down]. *)
Theorem teardown_matches_startup profile environment :
  flag_values "--profile" (stop_cmd profile) =
    flag_values "--profile" (local_ai_cmd profile environment) /\
  Forall (fun cmd => take 4 cmd = ["docker"; "compose"; "-p"; "localai"])
         [stop_cmd profile; supabase_cmd environment; local_ai_cmd profile environment] /\
  last (stop_cmd profile) = Some "down".
Proof.
  unfold stop_cmd, supabase_cmd, local_ai_cmd. cbv zeta.
  destruct (PyStr.truthy_opt profile && _),
           (PyStr.truthy_opt environment && String.eqb _ "private"),
           (PyStr.truthy_opt environment && String.eqb _ "public");
    (split; [|split; [by repeat constructor | reflexivity]]);
    cbn [app flag_values String.eqb Ascii.eqb Bool.eqb];
    try destruct (String.eqb (default "" profile) "--profile"); reflexivity.
Qed.

(** *** The compose patch, whatever it meets *)

Lemma detect_shape c :
  exists b c' evs, exec detect_first_run c (inr b) c' evs /\
    c_cwd c' = c_cwd c /\ probe_events evs /\
    (docker_leaves_files -> c_files c' = c_files c).
Proof.
  destruct (spawn listing_cmd (c_cwd c) (c_files c) (c_world c)) as [[fs w] out] eqn:Hs.
  assert (Hfs : docker_leaves_files -> fs = c_files c).
  { intros Hd. specialize (Hd listing_cmd (c_cwd c) (c_files c) (c_world c) eq_refl).
    by rewrite Hs in Hd. }
  assert (Hcase : match out with
                  | Exited rc o _ => rc <> 0 \/ listed o = []
                  | NotStarted _ => True
                  end \/
                  exists o e name rest, out = Exited 0 o e /\ listed o = name :: rest).
  { destruct out as [rc o e|msg]; [|by left].
    destruct (Z.eq_dec rc 0) as [->|Hrc]; [|left; by left].
    destruct (listed o) as [|name rest] eqn:Hl; [left; by right|].
    right. by exists o, e, name, rest. }
  destruct Hcase as [Hout|(o & e & name & rest & -> & Hl)].
  - eexists _, _, _. split; [by apply exec_detect_listing|]. split; [reflexivity|].
    split; [left; by eexists | exact Hfs].
  - destruct (spawn (probe_cmd name) (c_cwd c) fs w) as [[fs' w'] out'] eqn:Hp.
    eexists _, _, _. split; [by eapply exec_detect_probe|]. split; [reflexivity|].
    split.
    + right. exists o, e, name, out'. by rewrite Hl.
    + intros Hd. cbn. rewrite <- (Hfs Hd).
      specialize (Hd (probe_cmd name) (c_cwd c) fs w eq_refl). by rewrite Hp in Hd.
Qed.

Lemma silent_nil (evs : list event) : Forall (fun _ => False) evs -> evs = [].
Proof. destruct evs; [done | by inversion 1]. Qed.

Lemma exec_check_total c :
  exists c' evs,
    exec check_and_fix_docker_compose_for_searxng c (inr tt) c' evs /\
    (evs = [] \/ probe_events evs) /\
    c_cwd c' = c_cwd c /\
    (docker_leaves_files -> forall q,
       q <> resolve (c_cwd c) docker_compose_path -> c_files c' !! q = c_files c !! q).
Proof.
  unfold check_and_fix_docker_compose_for_searxng.
  pose proof (exec_os_path_exists docker_compose_path c) as Hex.
  destruct (match c_files c !! _ with Some _ => true | None => _ end).
  2:{ exists c, []. split; [|by auto].
      eapply (exec_bind _ _ _ _ _ []); [exact Hex | apply exec_print]. }
  cbn [negb].
  assert (Hbody : exists r c' evs,
    exec (bind (read_text docker_compose_path) (fun content =>
          bind detect_first_run (fun is_first_run =>
          if is_first_run && PyStr.contains directive content then
            bind (print "First run detected for SearXNG. Temporarily removing 'cap_drop: - ALL' directive...") (fun _ =>
            bind (write_text docker_compose_path (PyStr.replace content directive sentinel)) (fun _ =>
            print "Note: After the first run completes successfully, you should re-add 'cap_drop: - ALL' to docker-compose.yml for security reasons."))
          else if negb is_first_run && PyStr.contains sentinel content then
            bind (print "SearXNG has been initialized. Re-enabling 'cap_drop: - ALL' directive for security...") (fun _ =>
            write_text docker_compose_path (PyStr.replace content sentinel directive))
          else ret tt))) c r c' evs /\
    (evs = [] \/ probe_events evs) /\ c_cwd c' = c_cwd c /\
    (docker_leaves_files -> forall q,
       q <> resolve (c_cwd c) docker_compose_path -> c_files c' !! q = c_files c !! q)).
  { pose proof (exec_read_text docker_compose_path c) as Hrd.
    destruct (match io_fault (c_world c) (IoRead docker_compose_path) with
              | Some e0 => inl e0
              | None => _ end) as [e|content].
    { exists (inl e), c, []. split; [by apply exec_bind_raise | by auto]. }
    destruct (detect_shape c) as (b & c1 & evs & Hd & Hcwd & Hev & Hfs).
    assert (Hwrite : forall text (next : M unit),
      (forall c2, exec next c2 (inr tt) c2 []) ->
      exists r c', exec (bind (write_text docker_compose_path text) (fun _ => next))
                        c1 r c' [] /\
        c_cwd c' = c_cwd c1 /\
        forall q, q <> resolve (c_cwd c1) docker_compose_path ->
                  c_files c' !! q = c_files c1 !! q).
    { intros text next Hnext.
      destruct (io_fault (c_world c1) (IoWrite docker_compose_path)) as [e0|] eqn:Hio.
      - exists (inl e0), c1.
        split; [apply exec_bind_raise; by apply exec_write_text_fault | by auto].
      - eexists (inr tt), _.
        split; [eapply (exec_bind _ _ _ _ _ []); [by apply exec_write_text | apply Hnext]|].
        split; [reflexivity|]. intros q Hq. cbn [c_files].
        rewrite (locate_plain _ _ docker_compose_path eq_refl). by rewrite lookup_insert_ne. }
    assert (Htail : exists r c',
      exec (if b && PyStr.contains directive content then
            bind (print "First run detected for SearXNG. Temporarily removing 'cap_drop: - ALL' directive...") (fun _ =>
            bind (write_text docker_compose_path (PyStr.replace content directive sentinel)) (fun _ =>
            print "Note: After the first run completes successfully, you should re-add 'cap_drop: - ALL' to docker-compose.yml for security reasons."))
          else if negb b && PyStr.contains sentinel content then
            bind (print "SearXNG has been initialized. Re-enabling 'cap_drop: - ALL' directive for security...") (fun _ =>
            write_text docker_compose_path (PyStr.replace content sentinel directive))
          else ret tt) c1 r c' [] /\
      c_cwd c' = c_cwd c1 /\
      forall q, q <> resolve (c_cwd c1) docker_compose_path ->
                c_files c' !! q = c_files c1 !! q).
    { destruct (b && PyStr.contains directive content).
      - destruct (Hwrite (PyStr.replace content directive sentinel) (print "Note: After the first run completes successfully, you should re-add 'cap_drop: - ALL' to docker-compose.yml for security reasons.") (exec_print _))
          as (r & c' & He & Hrest).
        exists r, c'. split; [|exact Hrest].
        eapply (exec_bind _ _ _ _ _ []); [apply exec_print | exact He].
      - destruct (negb b && PyStr.contains sentinel content).
        + destruct (Hwrite (PyStr.replace content sentinel directive) (ret tt)
                      (exec_ret tt)) as (r & c' & He & Hrest).
          exists r, c'. split; [|exact Hrest].
          eapply (exec_bind _ _ _ _ _ []); [apply exec_print|].
          intros con tr. destruct (He con tr) as [l E]. exists l. rewrite <- E.
          unfold bind. by destruct (write_text _ _ _) as [[?|[]] ?].
        + exists (inr tt), c1. split; [apply exec_ret | by auto]. }
    destruct Htail as (r & c' & He & Hcwd' & Hfr).
    exists r, c', evs. split.
    - eapply (exec_bind _ _ _ _ _ []); [exact Hrd|].
      eapply exec_cast; [eapply exec_bind; [exact Hd | exact He] | reflexivity | apply app_nil_r].
    - split; [by right|]. split; [congruence|].
      intros Hdl q Hq. rewrite Hfr, (Hfs Hdl); [reflexivity|]. by rewrite Hcwd. }
  destruct Hbody as (r & c' & evs & He & Hrest).
  exists c', evs. split; [|exact Hrest].
  eapply (exec_bind _ _ _ _ _ []); [exact Hex|].
  eapply exec_swallow. exact He.
Qed.

(** X16. [check_and_fix_docker_compose_for_searxng] never raises and keeps
    the working directory; it starts nothing, or the listing, or the listing
    followed by the probe of the first container listed. *)
Theorem compose_patch_never_fatal s :
  let s' := state_after check_and_fix_docker_compose_for_searxng s in
  result_of check_and_fix_docker_compose_for_searxng s = inr tt /\
  cwd s' = cwd s /\
  exists evs, trace s' = trace s ++ evs /\ (evs = [] \/ probe_events evs).
Proof.
  cbv zeta.
  destruct (exec_check_total (core_of s)) as (c' & evs & He & Hev & Hcwd & _).
  destruct (exec_run _ s _ _ _ He) as (Hres & Hc & Ht).
  split; [exact Hres|]. split; [by rewrite <- Hc in Hcwd|]. by exists evs.
Qed.

(** X17. When the container engine leaves the files of the host alone, the
    compose patch changes no file but [docker-compose.yml]. *)
Theorem compose_patch_touches_one_file s q :
  docker_leaves_files ->
  q <> resolve (cwd s) docker_compose_path ->
  files (state_after check_and_fix_docker_compose_for_searxng s) !! q = files s !! q.
Proof.
  intros Hdl Hq.
  destruct (exec_check_total (core_of s)) as (c' & evs & He & _ & _ & Hfr).
  destruct (exec_run _ s _ _ _ He) as (_ & Hc & _).
  rewrite <- Hc in Hfr. by apply Hfr.
Qed.

(** *** The verdict of the probe *)

Lemma probe_cases s : probe_without_found s \/ probe_with_found s.
Proof.
  destruct (spawn listing_cmd (cwd s) (files s) (world s)) as [[fs w] out] eqn:Hs.
  destruct out as [rc o e|msg]; [|left; by eapply listing_not_started].
  destruct (Z.eq_dec rc 0) as [->|Hrc]; [|left; by eapply listing_failed].
  destruct (listed o) as [|name rest] eqn:Hl; [left; by eapply nothing_listed|].
  destruct (spawn (probe_cmd name) (cwd s) fs w) as [[fs' w'] out'] eqn:Hp.
  destruct out' as [rc' o' e'|msg]; [|left; by eapply probe_not_started].
  destruct (PyStr.contains "found" o') eqn:Hf.
  - right. by eapply probe_found.
  - left. by eapply probe_silent.
Qed.

(** X15. The verdict of the probe.  [detect_first_run] always gives an
    answer.  [is_first_run] ends as [False] exactly when the listing exits
    with status 0 and names a container whose probe was started and printed a
    text containing [found]; in every other case (the listing failed or is
    empty, the probe was not started, no [found] was printed) it ends as
    [True]. *)
Theorem first_run_verdict s :
  (exists b, result_of detect_first_run s = inr b) /\
  (result_of detect_first_run s = inr false <-> probe_with_found s) /\
  (result_of detect_first_run s = inr true <-> probe_without_found s).
Proof.
  assert (Hw : probe_with_found s -> result_of detect_first_run s = inr false).
  { intros Hp. destruct (detect_with_found s Hp) as (c' & evs & He & _).
    by destruct (exec_run _ s _ _ _ He) as (Hres & _). }
  assert (Hwo : probe_without_found s -> result_of detect_first_run s = inr true).
  { intros Hp. destruct (detect_without_found s Hp) as (c' & evs & He & _).
    by destruct (exec_run _ s _ _ _ He) as (Hres & _). }
  split.
  { destruct (probe_cases s) as [Hp|Hp]; eauto. }
  split; (split; [|assumption]); intros Hr.
  - destruct (probe_cases s) as [Hp|Hp]; [|exact Hp].
    rewrite (Hwo Hp) in Hr. discriminate.
  - destruct (probe_cases s) as [Hp|Hp]; [exact Hp|].
    rewrite (Hw Hp) in Hr. discriminate.
Qed.


(** *** Relaxing and hardening *)

Lemma relax_harden_round_trip content :
  PyStr.replace (PyStr.replace content directive sentinel) sentinel directive = content.
Proof.
  apply (PyStrFacts.replace_round_trip "#" " " directive
           "  # Temporarily commented out for first run"); by vm_compute.
Qed.

Lemma relaxed_text_read linesep content :
  linesep = String PyStr.LF "" \/ linesep = String PyStr.CR (String PyStr.LF "") ->
  PyStr.universal_newlines
    (PyStr.write_newlines linesep
       (PyStr.replace (PyStr.universal_newlines content) directive sentinel)) =
  PyStr.replace (PyStr.universal_newlines content) directive sentinel.
Proof.
  intros Hsep. apply PyStrFacts.universal_write_newlines; [exact Hsep|].
  apply PyStrFacts.all_chars_replace; [apply PyStrFacts.universal_newlines_no_cr | reflexivity].
Qed.

(** X18. Hardening undoes relaxing, for every compose file.  When a
    first-run pass has rewritten a file that held [content], a later pass
    that finds the rewritten file and a probe printing [found] leaves the
    text of [content] with the line ends of the platform; read in text mode
    it is the text [content] is read as; and it is [content] itself, byte
    for byte, on a platform whose line end is the line feed when [content]
    holds no carriage return. *)
Theorem hardening_undoes_relaxing s s2 content :
  files s !! resolve (cwd s) docker_compose_path = Some content ->
  PyStr.contains directive content = true ->
  io_fault (world s) (IoRead docker_compose_path) = None ->
  io_fault (world (state_after detect_first_run s)) (IoWrite docker_compose_path) = None ->
  probe_without_found s ->
  files s2 !! resolve (cwd s2) docker_compose_path =
    files (state_after check_and_fix_docker_compose_for_searxng s)
      !! resolve (cwd s) docker_compose_path ->
  io_fault (world s2) (IoRead docker_compose_path) = None ->
  io_fault (world (state_after detect_first_run s2)) (IoWrite docker_compose_path) = None ->
  probe_with_found s2 ->
  exists restored,
    files (state_after check_and_fix_docker_compose_for_searxng s2)
      !! resolve (cwd s2) docker_compose_path = Some restored /\
    restored =
      PyStr.write_newlines
        (os_linesep (platform_system (world (state_after detect_first_run s2))))
        (PyStr.universal_newlines content) /\
    PyStr.universal_newlines restored = PyStr.universal_newlines content /\
    (String.eqb (platform_system (world (state_after detect_first_run s2))) "Windows"
       = false ->
     PyStr.has_char PyStr.CR content = false ->
     restored = content).
Proof.
  intros Hfile Hin Hread Hwrite Hfirst Hsame Hread2 Hwrite2 Hlater.
  destruct (compose_patch_rewrites s content Hfile Hread Hwrite) as [Hrelax _].
  destruct (Hrelax Hfirst Hin) as [Hrelaxed Hmarked].
  rewrite Hrelaxed in Hsame.
  pose proof (relaxed_text_read _ content
    (os_linesep_cases (platform_system (world (state_after detect_first_run s)))))
    as Hreadback.
  destruct (compose_patch_rewrites s2 _ Hsame Hread2 Hwrite2) as [_ Hharden].
  destruct Hharden as [Hhardened _]; [exact Hlater | |].
  { by rewrite <- contains_sentinel_read, Hreadback. }
  rewrite Hreadback, relax_harden_round_trip in Hhardened.
  eexists. split; [exact Hhardened|]. split; [reflexivity|].
  split.
  - apply PyStrFacts.universal_write_newlines; [apply os_linesep_cases|].
    apply PyStrFacts.universal_newlines_no_cr.
  - intros Hposix Hcr. unfold os_linesep. rewrite Hposix.
    rewrite PyStrFacts.write_newlines_lf. apply PyStrFacts.universal_newlines_id.
    by apply PyStrFacts.no_char_all.
Qed.

(** *** Secret provisioning and the other files *)

Lemma append_inj_l x y z : x +:+ y = x +:+ z -> y = z.
Proof.
  induction x as [|c x IH]; [done|].
  rewrite !PyStrFacts.append_cons. intros [= Heq]. by apply IH.
Qed.

Lemma join_snoc_inj sep l a b :
  PyStr.join sep (l ++ [a]) = PyStr.join sep (l ++ [b]) -> a = b.
Proof.
  unfold PyStr.join. induction l as [|x l IH]; [done|].
  destruct l as [|y l]; cbn [app String.concat] in *.
  - intros Heq. apply append_inj_l in Heq. by apply append_inj_l in Heq.
  - intros Heq. apply append_inj_l in Heq. apply append_inj_l in Heq. by apply IH.
Qed.

Lemma resolve_inj dir a b : resolve dir a = resolve dir b -> a = b.
Proof. apply join_snoc_inj. Qed.

Lemma copyfile_ok_state src dst s :
  result_of (shutil_copyfile src dst) s = inr tt ->
  exists t, files s !! locate (world s) (cwd s) src = Some t /\
            files (state_after (shutil_copyfile src dst) s) =
              <[locate (world s) (cwd s) dst := t]> (files s).
Proof.
  unfold result_of, state_after, shutil_copyfile, bind, host_check, set_files.
  destruct (io_fault (world s) (IoCopy src dst)); [discriminate|].
  destruct (files s !! locate (world s) (cwd s) src) as [t|]; [|discriminate].
  intros _. by exists t.
Qed.

(** The copy that creates the settings file, when it succeeds. *)
Lemma create_settings_ok s :
  result_of (create_settings (platform_system (world s))) s = inr tt ->
  exists t, files s !! resolve (cwd s) settings_base_path = Some t /\
            files (state_after (create_settings (platform_system (world s))) s) =
              <[resolve (cwd s) settings_path := t]> (files s).
Proof.
  intros Hc. destruct (copyfile_ok_state _ _ s Hc) as (t & Ht & Hf).
  unfold locate in Ht, Hf. rewrite canonical_settings_base in Ht.
  rewrite canonical_settings in Hf. by exists t.
Qed.

Lemma generate_files (Htools : tools_ok) s :
  let s1 := state_after generate_searxng_secret_key s in
  let p := resolve (cwd s) settings_path in
  (forall q, q <> p -> files s1 !! q = files s !! q) /\
  (forall t, files s !! resolve (cwd s) settings_base_path = Some t ->
             path_present s settings_path = false ->
             last (console s1) = Some success_line ->
             exists k, is_key k = true /\
                       files s1 !! p = Some (PyStr.replace t placeholder k)).
Proof.
  cbv zeta. unfold state_after.
  destruct (path_present s settings_base_path) eqn:Hb.
  2:{ rewrite generate_no_template by done. cbn [snd printed cwd console files].
      split; [done|]. intros t Ht. unfold path_present in Hb. by rewrite Ht in Hb. }
  destruct (path_present s settings_path) eqn:Hs.
  - rewrite generate_existing by done. split; [|done].
    destruct (guarded_substitution_settings Htools
                (printed s (existing_lines (platform_system (world s)))))
      as [_ Hcase].
    cbn [printed cwd files] in Hcase. intros q Hq.
    destruct Hcase as [(_ & content & k & _ & _ & ->)|(_ & ->)]; [|reflexivity].
    by rewrite lookup_insert_ne.
  - destruct (result_of (create_settings (platform_system (world s))) s)
      as [e|[]] eqn:Hc.
    + rewrite (generate_copy_failed s e) by done. cbn [snd printed cwd console files].
      unfold create_settings in *.
      rewrite (copyfile_failed_state _ _ s e Hc). split; [done|].
      intros t _ _. rewrite last_app. cbn [last]. intros [= Heq].
    + rewrite generate_created by done.
      pose proof (copyfile_cwd (settings_base_path_on (platform_system (world s)))
                    (settings_path_on (platform_system (world s))) s) as Hcwd0.
      fold (create_settings (platform_system (world s))) in Hcwd0.
      destruct (create_settings_ok s Hc) as (t0 & Ht0 & Hcopied).
      destruct (guarded_substitution_settings Htools (printed
        (state_after (create_settings (platform_system (world s))) s)
        (created_lines (platform_system (world s))))) as [_ Hcase].
      cbn [printed cwd files] in Hcase. rewrite Hcwd0, Hcopied in Hcase.
      split.
      * intros q Hq.
        destruct Hcase as [(_ & content & k & _ & _ & ->)|(_ & ->)];
          by rewrite ?lookup_insert_ne.
      * intros t Ht _ Hlast.
        destruct Hcase as [(_ & content & k & Hk & Hcont & ->)|(Hno & _)];
          [|contradiction].
        exists k. split; [exact Hk|].
        rewrite lookup_insert_eq in Hcont. rewrite lookup_insert_eq.
        congruence.
Qed.

(** X13. With tools that do what their manuals say, secret provisioning
    changes no file but [searxng/settings.yml]: every other path holds what
    it held before, the base template among them. *)
Theorem provisioning_touches_only_settings (Htools : tools_ok) s :
  let s1 := state_after generate_searxng_secret_key s in
  (forall q, q <> resolve (cwd s) settings_path -> files s1 !! q = files s !! q) /\
  files s1 !! resolve (cwd s) settings_base_path =
    files s !! resolve (cwd s) settings_base_path.
Proof.
  cbv zeta. split; [apply (generate_files Htools s)|].
  apply (generate_files Htools s). intros Heq. by apply resolve_inj in Heq.
Qed.

(** X14. With such tools, a first provisioning that reports success (no
    settings file before, a template with text [t]) leaves as settings file
    the template with every placeholder replaced by one 64-digit key, and no
    placeholder in it. *)
Theorem first_provisioning_from_template (Htools : tools_ok) s t :
  files s !! resolve (cwd s) settings_base_path = Some t ->
  path_present s settings_path = false ->
  last (console (state_after generate_searxng_secret_key s)) = Some success_line ->
  exists k, is_key k = true /\
    files (state_after generate_searxng_secret_key s) !! resolve (cwd s) settings_path =
      Some (PyStr.replace t placeholder k) /\
    PyStr.contains placeholder (PyStr.replace t placeholder k) = false.
Proof.
  intros Ht Hs Hlast.
  destruct (proj2 (generate_files Htools s) t Ht Hs Hlast) as (k & Hk & Hf).
  exists k. split; [exact Hk|]. split; [exact Hf | by apply key_consumes].
Qed.
(** *** Startup of the dependent stack, every outcome *)

(** X10. [start_local_ai], every outcome of the first attempt: with exit
    status 0 it is the only process and the function returns; when the
    program cannot be started the [OSError] leaves at once, without cleanup
    and without retry; with another status the network prune of
    [comprehensive_cleanup] and one second attempt follow, and the result of
    that attempt is the result of the function. *)
Theorem local_ai_attempts profile environment s :
  let cmd := local_ai_cmd profile environment in
  let '(_, _, out1) := spawn cmd (cwd s) (files s) (world s) in
  let s' := state_after (start_local_ai profile environment) s in
  let r := result_of (start_local_ai profile environment) s in
  match out1 with
  | Exited rc _ _ =>
      if rc =? 0 then r = inr tt /\ trace s' = trace s ++ [Spawned cmd out1]
      else exists out2 out3,
             trace s' = trace s ++
               [Spawned cmd out1; Spawned prune_cmd out2; Spawned cmd out3] /\
             r = unit_result (run_result cmd out3)
  | NotStarted msg => r = inl (OSError msg) /\ trace s' = trace s ++ [Spawned cmd out1]
  end.
Proof.
  cbv zeta.
  destruct (spawn (local_ai_cmd profile environment) (cwd s) (files s) (world s))
    as [[fs1 w1] out1] eqn:Hs1.
  destruct out1 as [rc o e|msg].
  - destruct (Z.eqb_spec rc 0) as [->|Hrc].
    + destruct (exec_run _ s _ _ _
        (exec_start_local_ai_once profile environment (core_of s) fs1 w1 _ Hs1
           ltac:(congruence))) as (Hres & _ & Ht).
      exact (conj Hres Ht).
    + destruct (spawn prune_cmd (cwd s) fs1 w1) as [[fs2 w2] out2] eqn:Hs2.
      destruct (spawn (local_ai_cmd profile environment) (cwd s) fs2 w2)
        as [[fs3 w3] out3] eqn:Hs3.
      destruct (exec_run _ s _ _ _
        (exec_start_local_ai_retry profile environment (core_of s)
           rc o e fs1 w1 fs2 w2 out2 fs3 w3 out3 Hs1 Hrc Hs2 Hs3)) as (Hres & _ & Ht).
      exists out2, out3. exact (conj Ht Hres).
  - destruct (exec_run _ s _ _ _
      (exec_start_local_ai_once profile environment (core_of s) fs1 w1 _ Hs1
         ltac:(discriminate))) as (Hres & _ & Ht).
    exact (conj Hres Ht).
Qed.

(** *** The exhaustive cleanup, from every state *)

Lemma for_fold_remove_eq l n s :
  for_fold l n remove_if_exists s =
  (inr n, printed s (map (fun container =>
             "Note: Could not process " +:+ container +:+ ": " +:+
             "run_command() got an unexpected keyword argument 'check'") l)).
Proof.
  revert s. induction l as [|x l IH]; intros s.
  - cbn. unfold ret, printed. rewrite app_nil_r. by destruct s.
  - cbn [for_fold map]. unfold bind. rewrite remove_if_exists_note, IH.
    unfold printed. cbn [files world cwd console trace]. by rewrite <- app_assoc.
Qed.

(** X11. [comprehensive_cleanup], from every state and on every host: it
    returns without an exception, the one process it starts is
    [docker network prune -f], and the count it prints is 0: no container of
    its list is inspected or removed. *)
Theorem exhaustive_cleanup_only_prunes s :
  let '(_, _, out) := spawn prune_cmd (cwd s) (files s) (world s) in
  let s' := state_after comprehensive_cleanup s in
  result_of comprehensive_cleanup s = inr tt /\
  trace s' = trace s ++ [Spawned prune_cmd out] /\
  exists lines,
    console s' = console s ++ lines /\
    In ("=== Cleanup completed. Removed 0 containers ===" +:+ String PyStr.LF "") lines.
Proof.
  destruct (spawn _ _ _ _) as [[fs w] out] eqn:Hs. cbv zeta.
  destruct (exec_run _ s _ _ _ (exec_comprehensive_cleanup (core_of s) fs w out Hs))
    as (Hres & _ & Ht).
  split; [exact Hres|]. split; [exact Ht|].
  unfold state_after, comprehensive_cleanup, bind.
  rewrite print_printed, for_fold_remove_eq, !print_printed, !printed_printed.
  match goal with |- context [try_except ?b ?cl ?h ?s0] =>
    assert (Hgrow : exists lines, console (snd (try_except b cl h s0)) = console s0 ++ lines)
  end.
  { rewrite call_run_command_described.
    pose proof (exec_run_command prune_cmd None
      (Some "Clean up unused Docker networks") (core_of s) fs w out Hs) as Hrun.
    match goal with |- context [try_except ?b ?cl ?h ?s0] =>
      assert (Hex : exists r c' evs, exec (try_except b cl h) (core_of s0) r c' evs)
    end.
    { destruct (run_result prune_cmd out) as [e|r0].
      - eexists _, _, _.
        eapply exec_try_caught;
          [apply exec_bind_raise; exact Hrun | reflexivity | apply exec_ret].
      - eexists _, _, _. apply exec_try. eapply exec_bind; [exact Hrun | apply exec_ret]. }
    destruct Hex as (r & c' & evs & Hex).
    destruct (exec_at _ _ _ _ _ Hex) as [lines E].
    exists lines. by rewrite E. }
  destruct Hgrow as [lines ->].
  cbn [printed console]. eexists. split; [symmetry; apply app_assoc|].
  rewrite !in_app_iff. left. right. right. left. reflexivity.
Qed.

(** *** A run that succeeds *)

Lemma exec_local_ai_last profile environment c :
  exists r c' pre out,
    exec (start_local_ai profile environment) c r c'
         (pre ++ [Spawned (local_ai_cmd profile environment) out]) /\
    r = unit_result (run_result (local_ai_cmd profile environment) out).
Proof.
  destruct (spawn (local_ai_cmd profile environment) (c_cwd c) (c_files c) (c_world c))
    as [[fs1 w1] out1] eqn:Hs1.
  assert (Hcase : (forall rc o e, out1 = Exited rc o e -> rc = 0) \/
                  exists rc o e, out1 = Exited rc o e /\ rc <> 0).
  { destruct out1 as [rc o e|msg].
    - destruct (Z.eq_dec rc 0) as [->|Hrc]; [left; congruence | right; eauto].
    - left. discriminate. }
  destruct Hcase as [Hok|(rc & o & e & -> & Hrc)].
  - exists (unit_result (run_result (local_ai_cmd profile environment) out1)),
      (Core fs1 w1 (c_cwd c)), [], out1.
    split; [by apply exec_start_local_ai_once | reflexivity].
  - destruct (spawn prune_cmd (c_cwd c) fs1 w1) as [[fs2 w2] out2] eqn:Hs2.
    destruct (spawn (local_ai_cmd profile environment) (c_cwd c) fs2 w2)
      as [[fs3 w3] out3] eqn:Hs3.
    exists (unit_result (run_result (local_ai_cmd profile environment) out3)),
      (Core fs3 w3 (c_cwd c)),
      [Spawned (local_ai_cmd profile environment) (Exited rc o e); Spawned prune_cmd out2],
      out3.
    split; [by eapply exec_start_local_ai_retry | reflexivity].
Qed.

Lemma sound_mono {A} (P Q : event -> Prop) (m : M A) :
  (forall ev, P ev -> Q ev) -> sound P m -> sound Q m.
Proof.
  intros HPQ Hm c. destruct (Hm c) as (r & c' & evs & He & HP).
  exists r, c', evs. split; [exact He|]. by eapply Forall_impl.
Qed.

Lemma any_settled profile environment : sound (fun _ => True) (settled profile environment).
Proof.
  unfold settled, supabase_started, time_sleep.
  apply sound_bind; [apply sound_bind|].
  - by apply (sound_mono calm), calm_preparation.
  - intros _. unfold start_supabase. sound_auto.
  - intros _. apply sound_bind; [apply sound_print|].
    intros _. by apply sound_log_event.
Qed.

(** X19. A run of [main] that returns ends with a start of the local AI
    stack that exited with status 0: it is the last event of the trace. *)
Theorem successful_run_ends_with_started_stack profile environment s :
  result_of (main profile environment) s = inr tt ->
  exists pre o e,
    trace (state_after (main profile environment) s) =
      trace s ++ pre ++
      [Spawned (local_ai_cmd (Some profile) (Some environment)) (Exited 0 o e)].
Proof.
  intros Hok.
  destruct (any_settled profile environment (core_of s)) as (r1 & c1 & evs1 & Hset & _).
  destruct r1 as [e1|[]].
  { exfalso. destruct (exec_at _ _ _ _ _ Hset) as [l E].
    unfold result_of in Hok. rewrite main_after_settling in Hok.
    unfold bind in Hok. rewrite E in Hok. discriminate. }
  destruct (exec_local_ai_last (Some profile) (Some environment) c1)
    as (r & c' & pre & out & Hai & Hr).
  assert (Hmain : exec (main profile environment) (core_of s) r c'
            (evs1 ++ pre ++ [Spawned (local_ai_cmd (Some profile) (Some environment)) out])).
  { eapply exec_ext; [apply main_after_settling|]. by eapply exec_bind. }
  destruct (exec_run _ s _ _ _ Hmain) as (Hres & _ & Ht).
  rewrite Hres, Hr in Hok. clear Hr.
  destruct out as [rc o e|msg]; [|discriminate].
  cbn in Hok. destruct (Z.eqb_spec rc 0) as [->|]; [|discriminate].
  exists (evs1 ++ pre), o, e. by rewrite Ht, <- app_assoc.
Qed.

(** *** The tools of the platform *)

Lemma exec_then_print {A} (m : M A) line c r c' evs :
  exec m c r c' evs ->
  exists r', exec (bind m (fun _ => print line)) c r' c' evs.
Proof.
  intros He. destruct r as [e|a].
  - exists (inl e). by apply exec_bind_raise.
  - exists (inr tt). eapply exec_cast; [|reflexivity | apply app_nil_r].
    eapply exec_bind; [exact He | apply exec_print].
Qed.

Lemma exec_keyed (line : string) (argv : string -> list string) c :
  exists r c' evs,
    exec (bind (print line) (fun _ =>
          bind (subprocess_check_output openssl_cmd) (fun out =>
          bind (decode out) (fun text =>
          bind (subprocess_run (argv (PyStr.strip text)) None true) (fun _ => ret tt)))))
         c r c' evs /\
    ((exists out, evs = [Spawned openssl_cmd out] /\ key_unread out) \/
     (exists o e text out',
        evs = [Spawned openssl_cmd (Exited 0 o e); Spawned (argv (PyStr.strip text)) out'] /\
        decode_utf8 o = Some text)).
Proof.
  destruct (spawn openssl_cmd (c_cwd c) (c_files c) (c_world c)) as [[fs w] out] eqn:Hs.
  pose proof (exec_subprocess_run openssl_cmd None true c fs w out Hs) as Hrun.
  assert (Hfail : forall e0,
    key_unread out ->
    exec (subprocess_run openssl_cmd None true) c (inl e0) (Core fs w (c_cwd c))
         [Spawned openssl_cmd out] ->
    exists r c' evs,
      exec (bind (print line) (fun _ =>
            bind (subprocess_check_output openssl_cmd) (fun out =>
            bind (decode out) (fun text =>
            bind (subprocess_run (argv (PyStr.strip text)) None true) (fun _ => ret tt)))))
           c r c' evs /\
      ((exists out, evs = [Spawned openssl_cmd out] /\ key_unread out) \/
       (exists o e text out',
          evs = [Spawned openssl_cmd (Exited 0 o e); Spawned (argv (PyStr.strip text)) out'] /\
          decode_utf8 o = Some text))).
  { intros e0 Hno He0. exists (inl e0), (Core fs w (c_cwd c)), [Spawned openssl_cmd out].
    split; [|left; by eexists].
    eapply (exec_bind _ _ _ _ _ []); [apply exec_print|].
    apply exec_bind_raise. unfold subprocess_check_output. by apply exec_bind_raise. }
  destruct out as [rc o e|msg]; [|by apply (Hfail (OSError msg))].
  destruct (Z.eqb_spec rc 0) as [->|Hrc]; cbn [andb negb Z.eqb] in Hrun;
    [|apply (Hfail (CalledProcessError rc openssl_cmd o e)); [by left | exact Hrun]].
  clear Hfail.
  assert (Hout : exec (subprocess_check_output openssl_cmd) c (inr o)
                   (Core fs w (c_cwd c)) [Spawned openssl_cmd (Exited 0 o e)]).
  { unfold subprocess_check_output.
    eapply exec_cast; [|reflexivity | apply app_nil_r].
    eapply exec_bind; [exact Hrun | apply exec_ret]. }
  pose proof (exec_decode o (Core fs w (c_cwd c))) as Hdec.
  destruct (decode_utf8 o) as [text|] eqn:Ho.
  - destruct (spawn (argv (PyStr.strip text)) (c_cwd c) fs w) as [[fs' w'] out'] eqn:Hs'.
    pose proof (exec_then_unit _ _ _ _ _
      (exec_subprocess_run (argv (PyStr.strip text)) None true
         (Core fs w (c_cwd c)) fs' w' out' Hs')) as Hsed.
    eexists _, _, _. split.
    + eapply (exec_bind _ _ _ _ _ []); [apply exec_print|].
      eapply exec_bind; [exact Hout|].
      eapply (exec_bind _ _ _ _ _ []); [exact Hdec | exact Hsed].
    + right. by exists o, e, text, out'.
  - exists (inl UnicodeDecodeError), (Core fs w (c_cwd c)), [Spawned openssl_cmd (Exited 0 o e)].
    split.
    + eapply (exec_bind _ _ _ _ _ []); [apply exec_print|].
      eapply exec_cast; [|reflexivity | apply app_nil_r].
      eapply exec_bind; [exact Hout|]. by apply exec_bind_raise.
    + left. eexists. split; [reflexivity|]. by right.
Qed.

Lemma exec_substitute_events system c :
  exists r c' evs,
    exec (substitute_secret system (settings_path_on system)) c r c' evs /\
    substitution_events system evs.
Proof.
  unfold substitute_secret, substitution_events, sed_cmd.
  destruct (String.eqb system "Windows") eqn:Ewin.
  - destruct (spawn ps_command (c_cwd c) (c_files c) (c_world c)) as [[fs w] out] eqn:Hs.
    pose proof (exec_then_unit _ _ _ _ _
      (exec_subprocess_run ps_command None true c fs w out Hs)) as Hrun.
    edestruct (exec_then_print
      (bind (print "Detected Windows platform, using PowerShell to generate secret key...")
         (fun _ => bind (subprocess_run ps_command None true) (fun _ => ret tt))))
      as [r' He].
    { eapply (exec_bind _ _ _ _ _ []); [apply exec_print | exact Hrun]. }
    eexists _, _, _. split; [exact He | by eexists].
  - rewrite (posix_settings system Ewin). destruct (String.eqb system "Darwin").
    + destruct (exec_keyed
        "Detected macOS platform, using sed command with empty string parameter..."
        (fun k => ["sed"; "-i"; ""; sed_script k; settings_path]) c)
        as (r & c' & evs & He & Hev).
      destruct (exec_then_print _ "SearXNG secret key generated successfully." _ _ _ _ He)
        as [r' He'].
      by exists r', c', evs.
    + destruct (exec_keyed
        "Detected Linux/Unix platform, using standard sed command..."
        (fun k => ["sed"; "-i"; sed_script k; settings_path]) c)
        as (r & c' & evs & He & Hev).
      destruct (exec_then_print _ "SearXNG secret key generated successfully." _ _ _ _ He)
        as [r' He'].
      by exists r', c', evs.
Qed.

Lemma guarded_substitution_events s :
  exists evs, trace (snd (guarded_substitution s)) = trace s ++ evs /\
              substitution_events (platform_system (world s)) evs.
Proof.
  destruct (exec_substitute_events (platform_system (world s)) (core_of s))
    as (r & c' & evs & He & Hev).
  exists evs. split; [|exact Hev].
  destruct (exec_at _ _ _ _ _ He) as [l E].
  rewrite guarded_substitution_eq, E. by destruct r as [e|[]].
Qed.

Lemma copyfile_frame src dst s :
  world (state_after (shutil_copyfile src dst) s) = world s /\
  trace (state_after (shutil_copyfile src dst) s) = trace s.
Proof.
  unfold state_after, shutil_copyfile, bind, host_check, set_files.
  destruct (io_fault (world s) (IoCopy src dst)); [done|].
  by destruct (files s !! locate (world s) (cwd s) src).
Qed.

(** X12. The processes of [generate_searxng_secret_key] are those of the
    platform.  It starts none when the template is missing or the settings
    file cannot be created.  Otherwise: on Windows the one PowerShell command;
    on macOS and elsewhere [openssl rand -hex 32], alone only when it gave no
    key (it could not be started, exited with another status than 0, or
    printed what cannot be decoded), and otherwise followed by the [sed -i]
    of the platform (with the empty suffix argument on macOS), whose script
    holds the stripped output of [openssl] as the key. *)
Theorem key_generation_uses_platform_tool s :
  let system := platform_system (world s) in
  exists evs,
    trace (state_after generate_searxng_secret_key s) = trace s ++ evs /\
    if negb (path_present s settings_base_path) then evs = []
    else if path_present s settings_path
    then substitution_events system evs
    else match result_of (create_settings system) s with
         | inl _ => evs = []
         | inr _ => substitution_events system evs
         end.
Proof.
  cbv zeta. unfold state_after.
  destruct (path_present s settings_base_path) eqn:Hb; cbn [negb].
  2:{ rewrite generate_no_template by done. exists []. split; [|reflexivity].
      cbn [snd printed trace]. by rewrite app_nil_r. }
  destruct (path_present s settings_path) eqn:Hs.
  - rewrite generate_existing by done.
    destruct (guarded_substitution_events
                (printed s (existing_lines (platform_system (world s)))))
      as (evs & Ht & Hev).
    by exists evs.
  - destruct (result_of (create_settings (platform_system (world s))) s)
      as [e|[]] eqn:Hc.
    + rewrite (generate_copy_failed s e) by done. exists []. split; [|reflexivity].
      cbn [snd printed trace]. unfold create_settings in *.
      rewrite (copyfile_failed_state _ _ s e Hc).
      by rewrite app_nil_r.
    + rewrite generate_created by done.
      destruct (copyfile_frame (settings_base_path_on (platform_system (world s)))
                  (settings_path_on (platform_system (world s))) s) as [Hw Htr].
      fold (create_settings (platform_system (world s))) in Hw, Htr.
      destruct (guarded_substitution_events (printed
        (state_after (create_settings (platform_system (world s))) s)
        (created_lines (platform_system (world s))))) as (evs & Ht & Hev).
      cbn [printed world trace] in Ht, Hev. rewrite Hw in Hev. rewrite Htr in Ht.
      by exists evs.
Qed.

End Logic.

(** ** The simulated host keeps the contracts *)

Module SimFacts.
Import Sim.

Ltac hex_cases Hc :=
  unfold is_hex_digit in Hc; cbn [existsb list_ascii_of_string] in Hc;
  repeat match type of Hc with
         | (Ascii.eqb ?c ?x || _) = true =>
             let Heq := fresh "Heq" in
             destruct (Ascii.eqb_spec c x) as [Heq|_];
               [subst c; reflexivity|]; cbn [orb] in Hc
         end;
  try discriminate Hc.

Lemma hex_not_space c : is_hex_digit c = true -> PyStr.isspace c = false.
Proof. intros Hc. hex_cases Hc. Qed.

Lemma hex_is_ascii c : is_hex_digit c = true -> (Ascii.nat_of_ascii c <? 128)%nat = true.
Proof. intros Hc. hex_cases Hc. Qed.

Lemma hex_not_bar c : is_hex_digit c = true -> Ascii.eqb c "|" = false.
Proof. intros Hc. hex_cases Hc. Qed.

Lemma rstrip_hex_line k :
  PyStr.all_chars is_hex_digit k = true ->
  PyStr.rstrip (k +:+ String PyStr.LF "") = k.
Proof.
  induction k as [|c k IH]; [reflexivity|].
  cbn [PyStr.all_chars]. intros [Hc Hk]%andb_true_iff.
  rewrite PyStrFacts.append_cons. cbn [PyStr.rstrip]. rewrite (IH Hk).
  destruct k; [by rewrite (hex_not_space c Hc) | reflexivity].
Qed.

Lemma strip_key_line k :
  is_key k = true -> PyStr.strip (k +:+ String PyStr.LF "") = k.
Proof.
  unfold is_key. intros [Hlen Hhex]%andb_true_iff.
  unfold PyStr.strip. destruct k as [|c k]; [discriminate|].
  rewrite PyStrFacts.append_cons. cbn [PyStr.lstrip].
  cbn [PyStr.all_chars] in Hhex. apply andb_true_iff in Hhex as [Hc Hk].
  rewrite (hex_not_space c Hc). rewrite <- PyStrFacts.append_cons.
  apply rstrip_hex_line. cbn [PyStr.all_chars]. by rewrite Hc, Hk.
Qed.

Lemma ascii_only_key_line k :
  is_key k = true -> ascii_only (k +:+ String PyStr.LF "") = true.
Proof.
  unfold is_key, ascii_only. intros [_ Hhex]%andb_true_iff.
  induction k as [|c k IH]; [reflexivity|].
  cbn [PyStr.all_chars] in Hhex. apply andb_true_iff in Hhex as [Hc Hk].
  rewrite PyStrFacts.append_cons. cbn [PyStr.all_chars].
  by rewrite (hex_is_ascii c Hc), (IH Hk).
Qed.

Lemma until_bar_key k rest :
  PyStr.all_chars is_hex_digit k = true ->
  until_bar (k +:+ String "|" rest) = (k, String "|" rest).
Proof.
  induction k as [|c k IH]; [reflexivity|].
  cbn [PyStr.all_chars]. intros [Hc Hk]%andb_true_iff.
  rewrite PyStrFacts.append_cons. cbn [until_bar].
  by rewrite (hex_not_bar c Hc), (IH Hk).
Qed.

Lemma sed_replacement_key k :
  is_key k = true -> sed_replacement (sed_script k) = Some k.
Proof.
  unfold is_key. intros [_ Hhex]%andb_true_iff.
  unfold sed_replacement, sed_script.
  change (strip_prefix "s|ultrasecretkey|" ("s|ultrasecretkey|" +:+ k +:+ "|g"))
    with (Some (k +:+ "|g")).
  cbv beta iota. by rewrite (until_bar_key k "g" Hhex).
Qed.

Lemma substitute_substituted k dir fs :
  let '(fs', out) := substitute k (resolve dir settings_path) fs in
  @substituted k dir fs fs' out.
Proof.
  unfold substitute, substituted.
  destruct (fs !! resolve dir settings_path) as [c|] eqn:Hc; [|reflexivity].
  by exists c.
Qed.

Lemma zeros_key : is_key (String.concat "" (replicate 64 "0")) = true.
Proof. reflexivity. Qed.

(** The simulated host keeps the contracts of the tools. *)
Lemma tools_ok_sim : @tools_ok host.
Proof.
  split.
  - intros dir fs w. cbn [spawn host]. unfold run.
    change (argv_eqb openssl_cmd openssl_cmd) with true. cbn match.
    destruct (keys w) as [|k ks]; [done|].
    destruct (is_key k) eqn:Hk; [|done].
    split; [reflexivity|]. exists (k +:+ String PyStr.LF "").
    cbn [decode_utf8 host]. rewrite (ascii_only_key_line k Hk).
    split; [reflexivity|]. by rewrite (strip_key_line k Hk).
  - intros k dir fs w Hk. cbn [spawn host]. unfold run.
    change (argv_eqb ["sed"; "-i"; sed_script k; settings_path] openssl_cmd) with false.
    change (argv_eqb ["sed"; "-i"; sed_script k; settings_path] ps_command) with false.
    cbn match. unfold sed_request. rewrite (sed_replacement_key k Hk).
    cbn [fmap option_fmap option_map].
    pose proof (substitute_substituted k dir fs) as Hsub.
    destruct (sed_script k); cbv beta iota;
      by destruct (substitute k (resolve dir settings_path) fs).
  - intros k dir fs w Hk. cbn [spawn host]. unfold run.
    change (argv_eqb ["sed"; "-i"; ""; sed_script k; settings_path] openssl_cmd) with false.
    change (argv_eqb ["sed"; "-i"; ""; sed_script k; settings_path] ps_command) with false.
    cbn match. unfold sed_request. rewrite (sed_replacement_key k Hk).
    cbn [fmap option_fmap option_map].
    pose proof (substitute_substituted k dir fs) as Hsub.
    destruct (sed_script k); cbv beta iota;
      by destruct (substitute k (resolve dir settings_path) fs).
  - intros dir fs w. cbn [spawn host]. unfold run.
    change (argv_eqb ps_command openssl_cmd) with false.
    change (argv_eqb ps_command ps_command) with true.
    cbn match.
    destruct (keys w) as [|k ks].
    + pose proof (substitute_substituted (String.concat "" (replicate 64 "0")) dir fs) as Hsub.
      change (resolve dir "searxng/settings.yml") with (resolve dir settings_path).
      destruct (substitute _ (resolve dir settings_path) fs).
      eexists. split; [exact zeros_key | exact Hsub].
    + destruct (is_key k) eqn:Hk.
      * pose proof (substitute_substituted k dir fs) as Hsub.
        change (resolve dir "searxng/settings.yml") with (resolve dir settings_path).
        destruct (substitute _ (resolve dir settings_path) fs).
        by exists k.
      * exists (String.concat "" (replicate 64 "0")). split; [exact zeros_key | reflexivity].
Qed.

(** The simulated container engine touches no file. *)
Lemma docker_leaves_files_sim : @docker_leaves_files host.
Proof.
  intros argv dir fs w Hhead.
  destruct argv as [|a rest]; [discriminate|]. injection Hhead as ->.
  cbn [spawn host]. unfold run.
  assert (Ho : argv_eqb ("docker" :: rest) openssl_cmd = false).
  { unfold argv_eqb. cbn. apply andb_false_r. }
  assert (Hp : argv_eqb ("docker" :: rest) ps_command = false).
  { unfold argv_eqb. cbn. apply andb_false_r. }
  rewrite Ho, Hp.
  assert (Hsed : sed_request ("docker" :: rest) = None).
  { by destruct rest as [|? [|? [|? [|? [|? ?]]]]]. }
  rewrite Hsed. by destruct (take_reply _ _) as [[out l]|].
Qed.

End SimFacts.

(** ** Runs on the simulated host *)

Import Scenario.

(** C2, at a host where a container named ollama runs.  Both cleanup loops
    call [run_command] with the keyword [check], which it does not have: the
    call raises [TypeError] before any process is started, the loop swallows
    it, and so neither [docker inspect] nor [docker rm -f] is ever run.  The
    light pass runs only its listing of n8n containers, the exhaustive pass
    only the network prune. *)
Theorem cleanup_removes_nothing :
  remove_if_running "ollama" ollama_running = (inr tt, ollama_running) /\
  trace (state_after cleanup_stray_containers ollama_running) =
    [Spawned n8n_listing_cmd (Exited 0 "" "")] /\
  trace (state_after comprehensive_cleanup ollama_running) =
    [Spawned prune_cmd (Exited 0 "" "")] /\
  Sim.replies (world (state_after comprehensive_cleanup ollama_running)) =
    Sim.replies (world ollama_running).
Proof.
  split; [apply remove_if_running_noop|].
  repeat split; vm_compute; reflexivity.
Qed.

(** C3, at a host with two leftover n8n containers where the removal of
    the first is refused.  The loop over the listed containers has no
    handler of its own: the [CalledProcessError] ends it, the second
    container is never attempted, and the rest of the pass is skipped. *)
Theorem refused_removal_ends_pass :
  result_of cleanup_stray_containers first_removal_refused = inr tt /\
  trace (state_after cleanup_stray_containers first_removal_refused) =
    [Spawned n8n_listing_cmd (Exited 0 ("n8n" +:+ nl +:+ "n8n-import" +:+ nl) "");
     Spawned ["docker"; "rm"; "-f"; "n8n"]
       (Exited 1 "" "Error response from daemon: removal already in progress")] /\
  ~ In ["docker"; "rm"; "-f"; "n8n-import"]
       (omap (fun ev => match ev with Spawned argv _ => Some argv | Slept _ => None end)
             (trace (state_after cleanup_stray_containers first_removal_refused))).
Proof.
  split; [reflexivity|]. split; [reflexivity|].
  vm_compute. intros [?|[?|[]]]; discriminate.
Qed.

(** C1, at a host where a searxng container runs without the marker file:
    the probe answers [not_found].  The test of the script finds [found] in
    that answer, so [is_first_run] becomes false, the branch that relaxes is
    not taken, and the file keeps the active directive: no sentinel appears. *)
Theorem unmarked_container_not_relaxed :
  PyStr.contains directive compose_text = true /\
  trace (state_after check_and_fix_docker_compose_for_searxng
           (searxng_running compose_text "not_found")) =
    [Spawned listing_cmd (Exited 0 ("searxng" +:+ nl) "");
     Spawned (probe_cmd "searxng") (Exited 0 ("not_found" +:+ nl) "")] /\
  result_of detect_first_run (searxng_running compose_text "not_found") = inr false /\
  compose_after (searxng_running compose_text "not_found") = Some compose_text /\
  PyStr.contains sentinel compose_text = false.
Proof. repeat split; vm_compute; reflexivity. Qed.

(** The same kind of test, [directive in content], also finds the
    directive inside the sentinel: a relaxed file still counts as holding the
    directive, a second relaxing pass comments the line once more, and the
    hardening pass then leaves a sentinel behind. *)
Lemma relaxing_twice :
  compose_after (before_first_start compose_text) = Some relaxed_text /\
  PyStr.contains directive relaxed_text = true /\
  compose_after (before_first_start relaxed_text) = Some twice_relaxed_text /\
  compose_after (searxng_running twice_relaxed_text "found") = Some relaxed_text.
Proof. repeat split; vm_compute; reflexivity. Qed.

(** On a host where nothing runs the listing is empty. *)
Lemma nothing_listed_before_first_start text :
  probe_without_found (before_first_start text).
Proof.
  eapply (nothing_listed (H:=Sim.host)); [reflexivity|reflexivity].
Defined.

(** The relaxing pass on the host where nothing runs yet. *)
Lemma compose_patch_rewrites_example :
  compose_after (before_first_start compose_text) = Some relaxed_text /\
  PyStr.contains sentinel relaxed_text = true.
Proof.
  exact (proj1 (compose_patch_rewrites (H:=Sim.host)
           (before_first_start compose_text) compose_text
           eq_refl eq_refl eq_refl)
         (nothing_listed_before_first_start compose_text) eq_refl).
Defined.

(** C10, on a host without a compose file. *)
Lemma compose_patch_frame_witness :
  check_and_fix_docker_compose_for_searxng (Sim.boot ∅ (Sim.linux [])) =
  (inr tt, printed (Sim.boot ∅ (Sim.linux []))
             ["Warning: Docker Compose file not found at docker-compose.yml"]).
Proof.
  exact (proj1 (compose_patch_frame (H:=Sim.host) (Sim.boot ∅ (Sim.linux [])))
           eq_refl eq_refl).
Defined.


(** C6, for the profile [cpu] and the environment [public]. *)
Lemma override_files_witness :
  flag_values "-f" (local_ai_cmd (Some "cpu") (Some "public")) =
  ["docker-compose.yml"; "docker-compose.override.public.yml"].
Proof.
  exact (proj1 (override_files (H:=Sim.host) "cpu" "public"
                  (or_introl eq_refl) (or_intror (or_introl eq_refl)))).
Defined.

(** C7, on the host whose first start of the local AI stack fails. *)
Lemma start_local_ai_retries_once_witness :
  trace (state_after (start_local_ai (Some "cpu") (Some "private")) local_ai_stuck_once) =
  [Spawned cpu_private_cmd (Exited 1 "" "container name already in use");
   Spawned prune_cmd (Exited 0 "" "");
   Spawned cpu_private_cmd (Exited 0 "" "")].
Proof.
  refine (proj1 (start_local_ai_retries_once (H:=Sim.host)
            (Some "cpu") (Some "private") local_ai_stuck_once
            1 "" "container name already in use" ∅ (Sim.linux [])
            ∅ (Sim.linux []) (Exited 0 "" "") ∅ (Sim.linux []) (Exited 0 "" "")
            eq_refl _ eq_refl eq_refl)).
  discriminate.
Defined.

(** C4, on a checkout that holds only the template. *)
Lemma secret_provisioning_idempotent_witness :
  exists c1,
    files (state_after generate_searxng_secret_key first_provisioning)
      !! "searxng/settings.yml" = Some c1 /\
    PyStr.contains placeholder c1 = false /\
    files (state_after generate_searxng_secret_key
             (state_after generate_searxng_secret_key first_provisioning))
      !! "searxng/settings.yml" = Some c1.
Proof.
  refine (proj1 (secret_provisioning_idempotent (H:=Sim.host) SimFacts.tools_ok_sim
                   first_provisioning) _).
  vm_compute. reflexivity.
Defined.

(** C8, on a host without the template. *)
Lemma secret_provisioning_never_fatal_witness :
  generate_searxng_secret_key (Sim.boot ∅ (Sim.linux [])) =
  (inr tt, printed (Sim.boot ∅ (Sim.linux []))
     ["Checking SearXNG settings...";
      "Warning: SearXNG base settings file not found at searxng/settings-base.yml"]).
Proof.
  exact (proj1 (proj2 (proj2 (secret_provisioning_never_fatal (H:=Sim.host)
           (Sim.boot ∅ (Sim.linux []))))) eq_refl).
Defined.

(** C8 does not hold as stated: when the host refuses to create the settings
    file, the exception is caught and logged in one line, and none of the
    remediation lines is printed. *)
Lemma copy_failure_logged_without_remediation :
  result_of (shutil_copyfile settings_base_path settings_path) settings_refused =
    inl (OSError "[Errno 13] Permission denied: 'searxng/settings.yml'") /\
  console (state_after generate_searxng_secret_key settings_refused) =
    ["Checking SearXNG settings...";
     "SearXNG settings.yml not found. Creating from searxng/settings-base.yml...";
     "Error creating settings.yml: [Errno 13] Permission denied: 'searxng/settings.yml'"] /\
  Forall (fun line => ~ In line (console (state_after generate_searxng_secret_key
                                            settings_refused)))
         remediation_lines.
Proof.
  split; [reflexivity|]. split; [reflexivity|].
  vm_compute. repeat constructor; intros [?|[?|[?|[]]]]; discriminate.
Qed.


(** ** Further runs on the simulated host *)

(** On a host where searxng runs and the probe answers [found]. *)
Lemma found_when_initialised text : probe_with_found (searxng_running text "found").
Proof.
  eapply (probe_found (H:=Sim.host) (searxng_running text "found")
            {["docker-compose.yml" := text]}
            (Sim.linux [(probe_cmd "searxng", Exited 0 ("found" +:+ nl) "")])
            ("searxng" +:+ nl) "" "searxng" []
            {["docker-compose.yml" := text]} (Sim.linux [])
            0 ("found" +:+ nl) ""); reflexivity.
Defined.

(** X3, in a directory that holds nothing. *)
Lemma missing_env_stops_before_docker_witness :
  exit_status (result_of (main "cpu" "private") empty_directory) = 1.
Proof.
  refine (proj1 (missing_env_stops_before_docker (H:=Sim.host) "cpu" "private"
                   empty_directory _)).
  vm_compute. reflexivity.
Defined.

(** X9, in a directory that holds nothing: [prepare_supabase_env] fails. *)
Lemma preparation_failure_is_fatal_witness :
  state_after (main "cpu" "private") empty_directory =
  state_after (preparation "cpu") empty_directory.
Proof.
  refine (proj1 (proj2 (proj2 (preparation_failure_is_fatal (H:=Sim.host) "cpu" "private"
                   empty_directory (OSError "[Errno 2] No such file or directory: '.env'") _)))).
  vm_compute. reflexivity.
Defined.

(** X8, on a host where the Supabase stack does not come up. *)
Lemma supabase_failure_is_fatal_witness :
  exit_status (result_of (main "cpu" "private") supabase_refused) = 1.
Proof.
  refine (proj1 (proj2 (supabase_failure_is_fatal (H:=Sim.host) "cpu" "private"
            supabase_refused
            (CalledProcessError 1 (supabase_cmd (Some "private")) ""
               "Bind for 0.0.0.0:5432 failed: port is already allocated") _ _)));
    vm_compute; reflexivity.
Defined.

(** X18: a pass before the first start, a pass once searxng is initialised. *)
Lemma hardening_undoes_relaxing_witness :
  compose_after (searxng_running relaxed_text "found") = Some compose_text.
Proof.
  destruct (hardening_undoes_relaxing (H:=Sim.host) (before_first_start compose_text)
              (searxng_running relaxed_text "found") compose_text)
    as (restored & Hfile & _ & _ & Hsame); [try (vm_compute; reflexivity)..|].
  - apply nothing_listed_before_first_start.
  - apply found_when_initialised.
  - rewrite (Hsame eq_refl eq_refl) in Hfile. exact Hfile.
Defined.

(** X17, for the environment file of a complete checkout. *)
Lemma compose_patch_touches_one_file_witness :
  files (state_after check_and_fix_docker_compose_for_searxng clean_checkout) !! ".env" =
  files clean_checkout !! ".env".
Proof.
  refine (compose_patch_touches_one_file (H:=Sim.host) clean_checkout ".env"
            SimFacts.docker_leaves_files_sim _).
  vm_compute. discriminate.
Defined.

(** X13, on a checkout that holds only the template. *)
Lemma provisioning_touches_only_settings_witness :
  files (state_after generate_searxng_secret_key first_provisioning)
    !! "searxng/settings-base.yml" = Some template_text.
Proof.
  refine (proj2 (provisioning_touches_only_settings (H:=Sim.host)
                   SimFacts.tools_ok_sim first_provisioning)).
Defined.

(** X14, on a checkout that holds only the template. *)
Lemma first_provisioning_from_template_witness :
  exists k, is_key k = true /\
    files (state_after generate_searxng_secret_key first_provisioning)
      !! "searxng/settings.yml" = Some (PyStr.replace template_text placeholder k) /\
    PyStr.contains placeholder (PyStr.replace template_text placeholder k) = false.
Proof.
  refine (first_provisioning_from_template (H:=Sim.host) SimFacts.tools_ok_sim
            first_provisioning template_text _ _ _); vm_compute; reflexivity.
Defined.

(** X19, on a complete checkout where every command succeeds. *)
Lemma successful_run_ends_with_started_stack_witness :
  exists pre o e,
    trace (state_after (main "cpu" "private") clean_checkout) =
      trace clean_checkout ++ pre ++
      [Spawned (local_ai_cmd (Some "cpu") (Some "private")) (Exited 0 o e)].
Proof.
  refine (successful_run_ends_with_started_stack (H:=Sim.host) "cpu" "private"
            clean_checkout _).
  vm_compute. reflexivity.
Defined.
